(** * CShare availability and reservation engine

    A shallow embedding of the booking code of the CShare prototype:
    the validators ([buildLockIds], [validateAvailability],
    [validateBookingDates]), the booking manager ([submitBookingRequest])
    and the item manager ([loadMyBookings], [loadOwnerBookings],
    [handleBookingAction]), together with the part of the JavaScript
    [Date] object and of the Firestore document store these functions
    rely on, first for a time zone of one offset and then for zones
    whose offset changes; further the listing form ([collectAvailabilityData],
    [collectHandoverTime]), the booking modal ([openBookingModal]),
    the chat helpers ([getChatId], [getUnreadCount]) and
    [formatTimeAgo]. *)

From Stdlib Require Import ZArith Lia Ascii String DecimalString List Bool.
From stdpp Require Import base option list strings gmap fin_maps.

Local Open Scope string_scope.
Local Open Scope Z_scope.

(** ** The JavaScript [Date] object

    A [Date] is its time value: milliseconds since 1970-01-01T00:00Z,
    taken in the range a [Date] can hold ([validTime]).  In this
    module the local time zone is one offset [tz] (local time = UTC +
    [tz], in milliseconds), as in a zone without daylight saving time;
    zones whose offset changes are the subject of [JsZone] below,
    whose functions on [fixedZone tz] are the ones given here. *)
Module JsDate.

Definition Date := Z.

Definition msPerDay : Z := 86400000.
Definition msPerHour : Z := 3600000.

(** Day number (days since 1970-01-01) of the UTC calendar date. *)
Definition utcDay (t : Date) : Z := t / msPerDay.

(** Day number of the local calendar date. *)
Definition localDay (tz : Z) (t : Date) : Z := (t + tz) / msPerDay.

(** [new Date(s + 'T00:00:00')] for [s] the date with day number [d]:
    a date-time without offset is read as local time, here in a zone
    of the one offset [tz]. *)
Definition localMidnight (tz : Z) (d : Z) : Date := d * msPerDay - tz.

(** [t.setHours(0, 0, 0, 0)]. *)
Definition setHours0 (tz : Z) (t : Date) : Date :=
  localMidnight tz (localDay tz t).

(** [new Date(t.getFullYear(), t.getMonth(), t.getDate())]: the local
    midnight of the local calendar date of [t] (for years from 100 on;
    the constructor reads a year below 100 as 19xx). *)
Definition dateOnly (tz : Z) (t : Date) : Date :=
  localMidnight tz (localDay tz t).

(** [t.setDate(t.getDate() + 1)]: same local time on the next local
    day, which in a zone of one offset is 24 hours later. *)
Definition addDay (t : Date) : Date := t + msPerDay.

(** [t.getDay()]: 0 is Sunday; 1970-01-01 was a Thursday. *)
Definition getDay (tz : Z) (t : Date) : Z := (localDay tz t + 4) mod 7.

(** Days in 400 Gregorian years. *)
Definition daysPerEra : Z := 146097.

(** Calendar date of day [doe] of a 400-year era that starts on
    1 March: year of the era, month 1-12 and day 1-31. *)
Definition civilOfDoe (doe : Z) : Z * Z * Z :=
  let yoe := (doe - doe / 1460 + doe / 36524 - doe / 146096) / 365 in
  let doy := doe - (365 * yoe + yoe / 4 - yoe / 100) in
  let mp := (5 * doy + 2) / 153 in
  let d := doy - (153 * mp + 2) / 5 + 1 in
  let m := if mp <? 10 then mp + 3 else mp - 9 in
  (yoe + (if m <=? 2 then 1 else 0), m, d).

(** Calendar date (year, month 1-12, day 1-31) of a day number in the
    proleptic Gregorian calendar, as [YearFromTime], [MonthFromTime]
    and [DateFromTime] give it. *)
Definition civilOfDays (n : Z) : Z * Z * Z :=
  let z := n + 719468 in
  let era := z / daysPerEra in
  let '(y, m, d) := civilOfDoe (z - era * daysPerEra) in
  (y + era * 400, m, d).

(** Day number of a calendar date (inverse of [civilOfDays] on valid
    dates); used to write dates in examples. *)
Definition daysOfCivil (y m d : Z) : Z :=
  let y' := if m <=? 2 then y - 1 else y in
  let era := y' / 400 in
  let yoe := y' - era * 400 in
  let doy := (153 * (if 2 <? m then m - 3 else m + 9) + 2) / 5 + d - 1 in
  let doe := yoe * 365 + yoe / 4 - yoe / 100 + doy in
  era * daysPerEra + doe - 719468.

(** For one era day: [daysOfCivil] undoes [civilOfDoe], and the
    month, the day and the year of the era are in range. *)
Definition eraDayOk (doe : Z) : bool :=
  let '(y, m, d) := civilOfDoe doe in
  (daysOfCivil y m d =? doe - 719468)
  && (1 <=? m) && (m <=? 12) && (1 <=? d) && (d <=? 31)
  && (0 <=? y) && (y <=? 400).

Fixpoint eraDaysOk (count : nat) (doe : Z) : bool :=
  match count with
  | O => true
  | S count' => eraDayOk doe && eraDaysOk count' (doe + 1)
  end.

(** Time values a [Date] can hold: 100,000,000 days either side of
    the epoch. *)
Definition maxDay : Z := 100000000.
Definition validDay (n : Z) : Prop := - maxDay <= n <= maxDay.
Definition validTime (t : Date) : Prop :=
  - (maxDay * msPerDay) <= t <= maxDay * msPerDay.

(** The UTC date of a local midnight is the local date shifted by a
    number of days that depends on the zone only. *)
Definition zoneShift (tz : Z) : Z := (- tz) / msPerDay.

(** Character codes outside ["0"] to ["9"]. *)
Definition notDigit (c : ascii) : bool :=
  Nat.ltb (nat_of_ascii c) 48 || Nat.ltb 57 (nat_of_ascii c).

Definition digitChar (n : Z) : ascii :=
  ascii_of_nat (48 + Z.to_nat (n mod 10)).

Definition pad2 (n : Z) : string :=
  String (digitChar (n / 10)) (String (digitChar n) EmptyString).

Definition pad4 (n : Z) : string :=
  String (digitChar (n / 1000)) (String (digitChar (n / 100)) (pad2 n)).

Definition pad6 (n : Z) : string :=
  String (digitChar (n / 100000)) (String (digitChar (n / 10000)) (pad4 n)).

(** Year part of [toISOString]: four digits for years 0 to 9999, a
    sign and six digits otherwise. *)
Definition isoYear (y : Z) : string :=
  if y <? 0 then String "-" (pad6 (- y))
  else if 9999 <? y then String "+" (pad6 y)
  else pad4 y.

(** [YYYY-MM-DD] for a day number. *)
Definition isoOfDay (n : Z) : string :=
  let '(y, m, d) := civilOfDays n in
  isoYear y +:+ "-" +:+ pad2 m +:+ "-" +:+ pad2 d.

(** [t.toISOString().split('T')[0]]: the UTC calendar date. *)
Definition toISODate (t : Date) : string := isoOfDay (utcDay t).

End JsDate.

(** ** JavaScript strings *)
Module JsString.

(** [s.split(c)] for a one-character separator; [cur] is the piece
    read so far. *)
Fixpoint splitAux (sep : ascii) (cur : string) (s : string) : list string :=
  match s with
  | EmptyString => [cur]
  | String a rest =>
      if Ascii.eqb a sep then cur :: splitAux sep EmptyString rest
      else splitAux sep (cur +:+ String a EmptyString) rest
  end.

Definition split (sep : ascii) (s : string) : list string :=
  splitAux sep EmptyString s.

(** [parts.join(sep)]. *)
Fixpoint join (sep : string) (parts : list string) : string :=
  match parts with
  | [] => EmptyString
  | [p] => p
  | p :: rest => p +:+ sep +:+ join sep rest
  end.

Fixpoint hasChar (c : ascii) (s : string) : bool :=
  match s with
  | EmptyString => false
  | String a rest => Ascii.eqb a c || hasChar c rest
  end.

End JsString.

Import JsDate JsString.

(** ** Documents of the store *)

(** A message shown to the user.  Texts that embed
    [d.toLocaleDateString()] depend on the browser's locale and carry
    the date instead. *)
Inductive Message : Type :=
  | Text (s : string)
  | AvailableFrom (d : Date)
  | AvailableUntil (d : Date).

(** [items/{itemId}.availability]; [av_type] and the other fields are
    [None] where the JavaScript object has no such property (or
    [null]). *)
Record Availability : Type := {
  av_type : option string;
  av_startDate : option Date;
  av_endDate : option Date;
  av_daysOfWeek : option (list Z)
}.

Record Item : Type := {
  item_name : string;
  item_ownerId : string;
  item_ownerName : string;
  item_ownerEmail : string;
  item_availability : option Availability
}.

Record User : Type := {
  uid : string;
  displayName : option string;
  email : string
}.

(** An entry of [statusHistory]. *)
Record HistoryEntry : Type := {
  he_status : string;
  he_at : Date;
  he_by : string
}.

(** [bookings/{bookingId}]. *)
Record Booking : Type := {
  bk_itemId : string;
  bk_itemName : string;
  bk_renterId : string;
  bk_renterName : string;
  bk_renterEmail : string;
  bk_ownerId : string;
  bk_ownerName : string;
  bk_ownerEmail : string;
  bk_startDate : Date;
  bk_endDate : Date;
  bk_status : option string;
  bk_statusHistory : list HistoryEntry;
  bk_lockIds : list string;
  bk_createdAt : Date;
  bk_updatedAt : Date
}.

(** [bookingLocks/{itemId_ISODate}]. *)
Record Lock : Type := {
  lock_bookingId : string;
  lock_itemId : string;
  lock_date : option string;
  lock_ownerId : string;
  lock_createdAt : Date
}.

(** The two collections of the document store the booking code uses. *)
Record Store : Type := {
  bookings : gmap string Booking;
  bookingLocks : gmap string Lock
}.

(** [x === s] for a property [x] that may be absent. *)
Definition strictEq (x : option string) (s : string) : bool :=
  match x with
  | Some y => String.eqb y s
  | None => false
  end.

(** ** The validators module (validation utility functions) *)
Module Validators.

Definition ALWAYS : string := "always".
Definition DATE_RANGE : string := "dateRange".
Definition RECURRING : string := "recurring".

(** The result object: [{ valid: true }] or
    [{ valid: false, message }]. *)
Inductive Validation : Type :=
  | ok
  | invalid (message : Message).

Definition valid (v : Validation) : bool :=
  match v with
  | ok => true
  | invalid _ => false
  end.

Definition lockId (itemId : string) (cursor : Date) : string :=
  itemId +:+ "_" +:+ toISODate cursor.

(** The identifier that names the calendar day with number [n]. *)
Definition keyOfDay (itemId : string) (n : Z) : string :=
  itemId +:+ "_" +:+ isoOfDay n.

(** The [while (cursor <= end)] loop of [buildLockIds]; [fuel] bounds
    the number of iterations. *)
Fixpoint lockLoop (fuel : nat) (itemId : string) (cursor end_ : Date)
  : list string :=
  match fuel with
  | O => []
  | S fuel' =>
      if cursor <=? end_
      then lockId itemId cursor :: lockLoop fuel' itemId (addDay cursor) end_
      else []
  end.

(** Iterations after which the loop condition fails. *)
Definition lockFuel (cursor end_ : Date) : nat :=
  Z.to_nat ((end_ - cursor) / msPerDay + 1).

(** [buildLockIds(itemId, startDate, endDate)] in a zone of the one
    offset [tz]: both dates are cut to their local midnight, then one
    identifier is pushed per iteration while the cursor, advanced by
    one local day, has not passed the end. *)
Definition buildLockIds (tz : Z) (itemId : string) (startDate endDate : Date)
  : list string :=
  let cursor := setHours0 tz startDate in
  let end_ := setHours0 tz endDate in
  lockLoop (lockFuel cursor end_) itemId cursor end_.

Definition dayNames : list string :=
  ["Sunday"; "Monday"; "Tuesday"; "Wednesday"; "Thursday"; "Friday";
   "Saturday"].

(** [dayNames[d]], printed by [join]: an absent element prints as the
    empty string. *)
Definition dayName (d : Z) : string :=
  if 0 <=? d then nth (Z.to_nat d) dayNames "" else "".

(** [availableDays.map(d => dayNames[d]).join(', ')]. *)
Definition availableDayNames (availableDays : list Z) : string :=
  join ", " (map dayName availableDays).

(** [availableDays.includes(dayOfWeek)]. *)
Definition includes (availableDays : list Z) (dayOfWeek : Z) : bool :=
  existsb (Z.eqb dayOfWeek) availableDays.

Definition noAvailability : Availability :=
  {| av_type := None; av_startDate := None; av_endDate := None;
     av_daysOfWeek := None |}.

(** [validateAvailability(item, requestedStart, requestedEnd)].  The
    bounds of a date range are compared as [Date] values; the
    same-day test of a recurring availability compares
    [toDateString()], the local calendar date. *)
Definition validateAvailability (tz : Z) (item : Item)
    (requestedStart requestedEnd : Date) : Validation :=
  let availability := default noAvailability (item_availability item) in
  if strictEq (av_type availability) ALWAYS then ok
  else if strictEq (av_type availability) DATE_RANGE then
    let untilCheck :=
      match av_endDate availability with
      | Some availEnd =>
          if availEnd <? requestedEnd
          then invalid (AvailableUntil availEnd) else ok
      | None => ok
      end in
    match av_startDate availability with
    | Some availStart =>
        if requestedStart <? availStart
        then invalid (AvailableFrom availStart) else untilCheck
    | None => untilCheck
    end
  else if strictEq (av_type availability) RECURRING then
    if negb (localDay tz requestedStart =? localDay tz requestedEnd) then
      invalid
        (Text "Recurring availability items can only be booked for same-day use")
    else
      let dayOfWeek := getDay tz requestedStart in
      let availableDays := default [] (av_daysOfWeek availability) in
      if negb (includes availableDays dayOfWeek) then
        invalid (Text ("Item is only available on: "
                       +:+ availableDayNames availableDays))
      else ok
  else invalid (Text "Unknown availability type").

(** [validateBookingDates(startDate, endDate)]; [now] is the value of
    [new Date()]. *)
Definition validateBookingDates (tz : Z) (now : Date)
    (startDate endDate : Date) : Validation :=
  let today := setHours0 tz now in
  if startDate <? today then
    invalid (Text "Start date cannot be in the past")
  else if endDate <? startDate then
    invalid (Text "End date must be after start date")
  else ok.

End Validators.

(** ** The booking manager module *)
Module BookingManager.
Import Validators.

(** What [submitBookingRequest] reads from the ambient state: the
    state store and the two date fields of the booking form.  A date
    field holds either the empty string ([None]) or a well-formed
    [YYYY-MM-DD], modelled by the day number of the date it names. *)
Record Session : Type := {
  currentUser : option User;
  currentItemId : string;
  currentItemData : option Item;
  bookingStartDate : option Z;
  bookingEndDate : option Z
}.

(** The environment of one call: the offset of the browser's time
    zone (a zone of one offset), the client clock when the dates are
    validated ([now]) and when the booking is built ([timestampNow]),
    the server clock, the identifier generated for the new booking
    document, and whether the reads and the batch commit reach the
    store ([false]: the promise rejects). *)
Record Env : Type := {
  tz : Z;
  now : Date;
  timestampNow : Date;
  serverTime : Date;
  newId : string;
  readsOk : bool;
  commitOk : bool
}.

Definition msgSameDayOnly (availableDays : list Z) : Message :=
  Text ("This item only allows same-day borrowing on: "
        +:+ availableDayNames availableDays
        +:+ ". Please select the same date for pickup and return.").

Definition msgWrongDay (availableDays : list Z) (dayOfWeek : Z) : Message :=
  Text ("This item is only available on: "
        +:+ availableDayNames availableDays
        +:+ ". You selected: " +:+ dayName dayOfWeek).

Definition msgConflict : Message :=
  Text "❌ Sorry, some of the dates you selected are already booked by others. Please choose different dates.".

Definition msgSubmitted : Message :=
  Text "✅ Booking request submitted successfully!".

Definition msgFailed : Message :=
  Text "Failed to submit booking request. Please try again.".

(** The block "Validate against item availability if set" of
    [submitBookingRequest]: the alert it raises, or [None] when the
    request passes.  The bounds of a date range are compared by
    calendar date ("Only compare dates, not times"); the same-day test
    of a recurring availability compares the ISO dates. *)
Definition availabilityAlert (tz : Z) (item : Item)
    (startDate endDate : Date) : option Message :=
  match item_availability item with
  | None => None
  | Some availability =>
      if strictEq (av_type availability) "dateRange" then
        let untilCheck :=
          match av_endDate availability with
          | Some itemEndDate =>
              if dateOnly tz itemEndDate <? dateOnly tz endDate
              then Some (AvailableUntil itemEndDate) else None
          | None => None
          end in
        match av_startDate availability with
        | Some itemStartDate =>
            if dateOnly tz startDate <? dateOnly tz itemStartDate
            then Some (AvailableFrom itemStartDate) else untilCheck
        | None => untilCheck
        end
      else if strictEq (av_type availability) "recurring" then
        let availableDays := default [] (av_daysOfWeek availability) in
        let startDateOnly := toISODate startDate in
        let endDateOnly := toISODate endDate in
        if negb (String.eqb startDateOnly endDateOnly) then
          Some (msgSameDayOnly availableDays)
        else
          let dayOfWeek := getDay tz startDate in
          if negb (includes availableDays dayOfWeek) then
            Some (msgWrongDay availableDays dayOfWeek)
          else None
      else None
  end.

(** [currentUser.displayName || currentUser.email.split('@')[0]]. *)
Definition renterNameOf (u : User) : string :=
  match displayName u with
  | Some (String a r) => String a r
  | _ => hd "" (split "@" (email u))
  end.

Definition newBooking (e : Env) (u : User) (itemId : string) (item : Item)
    (startDate endDate : Date) (lockIds : list string) : Booking :=
  {| bk_itemId := itemId;
     bk_itemName := item_name item;
     bk_renterId := uid u;
     bk_renterName := renterNameOf u;
     bk_renterEmail := email u;
     bk_ownerId := item_ownerId item;
     bk_ownerName := item_ownerName item;
     bk_ownerEmail := item_ownerEmail item;
     bk_startDate := startDate;
     bk_endDate := endDate;
     bk_status := Some "pending";
     bk_statusHistory :=
       [ {| he_status := "pending"; he_at := timestampNow e;
            he_by := uid u |} ];
     bk_lockIds := lockIds;
     bk_createdAt := serverTime e;
     bk_updatedAt := serverTime e |}.

(** The lock document written under [id]; its [date] is
    [id.split('_')[1]], absent when [id] has no underscore. *)
Definition newLock (e : Env) (bookingId itemId : string) (item : Item)
    (id : string) : Lock :=
  {| lock_bookingId := bookingId;
     lock_itemId := itemId;
     lock_date := nth_error (split "_" id) 1;
     lock_ownerId := item_ownerId item;
     lock_createdAt := serverTime e |}.

(** The writes queued on the batch: the booking, then one lock per
    identifier. *)
Record Batch : Type := {
  batch_user : User;
  batch_item : Item;
  batch_startDate : Date;
  batch_endDate : Date;
  batch_lockIds : list string
}.

(** [batch.commit()] when it succeeds: every queued [set] is applied
    (a [set] replaces a document that is already there). *)
Definition applyBatch (e : Env) (itemId : string) (b : Batch) (st : Store)
  : Store :=
  {| bookings :=
       <[ newId e :=
            newBooking e (batch_user b) itemId (batch_item b)
              (batch_startDate b) (batch_endDate b) (batch_lockIds b) ]>
         (bookings st);
     bookingLocks :=
       fold_left
         (fun locks id =>
            <[ id := newLock e (newId e) itemId (batch_item b) id ]> locks)
         (batch_lockIds b) (bookingLocks st) |}.

(** [snapshots.filter(snap => snap.exists())], as the identifiers of
    the lock documents found. *)
Definition existingLocks (st : Store) (lockIds : list string) : list string :=
  filter (fun id => is_Some (bookingLocks st !! id)) lockIds.

(** The call up to its first suspension on the store: it has ended
    with an alert, or it has read the lock documents [reads] and holds
    a batch to commit. *)
Inductive Checked : Type :=
  | Ended (m : Message) (reads : list string)
  | Ready (b : Batch).

Definition checkRequest (e : Env) (s : Session) (st : Store) : Checked :=
  match currentUser s with
  | None => Ended (Text "You must be logged in to submit a booking request") []
  | Some user =>
  match currentItemData s with
  | None => Ended (Text "Item not found") []
  | Some item =>
  if String.eqb (item_ownerId item) (uid user) then
    Ended (Text "You cannot book your own item.") []
  else
  match bookingStartDate s, bookingEndDate s with
  | Some startDay, Some endDay =>
      let startDate := localMidnight (tz e) startDay in
      let endDate := localMidnight (tz e) endDay in
      match validateBookingDates (tz e) (now e) startDate endDate with
      | invalid m => Ended m []
      | ok =>
      match availabilityAlert (tz e) item startDate endDate with
      | Some m => Ended m []
      | None =>
          let lockIds :=
            buildLockIds (tz e) (currentItemId s) startDate endDate in
          if negb (readsOk e) then Ended msgFailed lockIds
          else
            match existingLocks st lockIds with
            | _ :: _ => Ended msgConflict lockIds
            | [] =>
                Ready {| batch_user := user; batch_item := item;
                         batch_startDate := startDate;
                         batch_endDate := endDate;
                         batch_lockIds := lockIds |}
            end
      end
      end
  | _, _ => Ended (Text "Please select both start and end dates") []
  end
  end
  end.

(** Result of one call: the alert shown, the lock documents read and
    the store afterwards. *)
Record Outcome : Type := {
  alert : Message;
  reads : list string;
  after : Store
}.

(** [await batch.commit()] and what follows it.  The analytics and
    session-recording calls made after the commit catch their own
    failures and do not touch the two collections. *)
Definition commitRequest (e : Env) (s : Session) (b : Batch) (st : Store)
  : Outcome :=
  if negb (commitOk e) then
    {| alert := msgFailed; reads := batch_lockIds b; after := st |}
  else
    {| alert := msgSubmitted; reads := batch_lockIds b;
       after := applyBatch e (currentItemId s) b st |}.

Definition submitBookingRequest (e : Env) (s : Session) (st : Store)
  : Outcome :=
  match checkRequest e s st with
  | Ended m rd => {| alert := m; reads := rd; after := st |}
  | Ready b => commitRequest e s b st
  end.

(** *** Two calls running against one store

    Each call suspends twice: on the reads of the conflict check and
    on the batch commit.  A process is a call with its environment
    and session; the store serves one request at a time, so a run is
    an interleaving of the two processes' steps. *)
Inductive Proc : Type :=
  | Start (e : Env) (s : Session)
  | Waiting (e : Env) (s : Session) (b : Batch)
  | Settled (m : Message).

Definition procStep (p : Proc) (st : Store) : option (Proc * Store) :=
  match p with
  | Start e s =>
      match checkRequest e s st with
      | Ended m _ => Some (Settled m, st)
      | Ready b => Some (Waiting e s b, st)
      end
  | Waiting e s b =>
      let o := commitRequest e s b st in Some (Settled (alert o), after o)
  | Settled _ => None
  end.

Record System : Type := {
  sys_store : Store;
  sys_first : Proc;
  sys_second : Proc
}.

Inductive step : System -> System -> Prop :=
  | step_first st p q p' st' :
      procStep p st = Some (p', st') ->
      step {| sys_store := st; sys_first := p; sys_second := q |}
           {| sys_store := st'; sys_first := p'; sys_second := q |}
  | step_second st p q q' st' :
      procStep q st = Some (q', st') ->
      step {| sys_store := st; sys_first := p; sys_second := q |}
           {| sys_store := st'; sys_first := p; sys_second := q' |}.

Inductive steps : System -> System -> Prop :=
  | steps_refl x : steps x x
  | steps_next x y z : step x y -> steps y z -> steps x z.

(** A schedule names, step by step, the process that runs next (a
    settled process has no step and is skipped). *)
Inductive Who : Type := First | Second.

Definition sysStep (w : Who) (x : System) : System :=
  match w with
  | First =>
      match procStep (sys_first x) (sys_store x) with
      | Some (p', st') =>
          {| sys_store := st'; sys_first := p'; sys_second := sys_second x |}
      | None => x
      end
  | Second =>
      match procStep (sys_second x) (sys_store x) with
      | Some (q', st') =>
          {| sys_store := st'; sys_first := sys_first x; sys_second := q' |}
      | None => x
      end
  end.

Fixpoint runSchedule (sched : list Who) (x : System) : System :=
  match sched with
  | [] => x
  | w :: rest => runSchedule rest (sysStep w x)
  end.

(** Bookings of the store that are pending or accepted and claim the
    lock identifier [id]. *)
Definition isLive (b : Booking) : bool :=
  strictEq (bk_status b) "pending" || strictEq (bk_status b) "accepted".

Definition claims (id : string) (b : Booking) : bool :=
  existsb (String.eqb id) (bk_lockIds b).

Definition liveClaimants (st : Store) (id : string) : list string :=
  map fst
    (filter (fun kb => isLive (snd kb) && claims id (snd kb) = true)
       (map_to_list (bookings st))).

End BookingManager.

(** ** The item manager module *)
Module ItemManager.

#[global] Instance HistoryEntry_eq_dec : EqDecision HistoryEntry.
Proof. solve_decision. Defined.

(** A document of a query snapshot: its identifier and its data. *)
Definition Doc : Type := string * Booking.

(** The [groups] object of the two loaders. *)
Record Groups : Type := {
  pending : list Doc;
  accepted : list Doc;
  declined : list Doc;
  archived : list Doc
}.

Definition noGroups : Groups :=
  {| pending := []; accepted := []; declined := []; archived := [] |}.

Inductive Bucket : Type := Pending | Accepted | Declined | Archived.

(** [groups[b].push(d)]. *)
Definition push (b : Bucket) (d : Doc) (g : Groups) : Groups :=
  match b with
  | Pending =>
      {| pending := pending g ++ [d]; accepted := accepted g;
         declined := declined g; archived := archived g |}
  | Accepted =>
      {| pending := pending g; accepted := accepted g ++ [d];
         declined := declined g; archived := archived g |}
  | Declined =>
      {| pending := pending g; accepted := accepted g;
         declined := declined g ++ [d]; archived := archived g |}
  | Archived =>
      {| pending := pending g; accepted := accepted g;
         declined := declined g; archived := archived g ++ [d] |}
  end.

(** Properties every object literal inherits from [Object.prototype]:
    [groups[name]] is then truthy but has no [push]. *)
Definition inheritedNames : list string :=
  ["constructor"; "hasOwnProperty"; "isPrototypeOf";
   "propertyIsEnumerable"; "toLocaleString"; "toString"; "valueOf";
   "__proto__"; "__defineGetter__"; "__defineSetter__";
   "__lookupGetter__"; "__lookupSetter__"].

(** What [groups[status]] evaluates to. *)
Inductive Slot : Type :=
  | Own (b : Bucket)
  | Inherited
  | Undefined.

Definition slot (status : string) : Slot :=
  if String.eqb status "pending" then Own Pending
  else if String.eqb status "accepted" then Own Accepted
  else if String.eqb status "declined" then Own Declined
  else if String.eqb status "archived" then Own Archived
  else if existsb (String.eqb status) inheritedNames then Inherited
  else Undefined.

(** [const normalized = booking.status === 'confirmed' ? 'accepted' :
    booking.status; const status = normalized || 'pending';] *)
Definition statusOf (b : Booking) : string :=
  let normalized :=
    if strictEq (bk_status b) "confirmed" then Some "accepted"
    else bk_status b in
  match normalized with
  | Some (String a r) => String a r
  | _ => "pending"
  end.

(** The callback of [snapshot.forEach] in [loadMyBookings]; [None]
    when it throws. *)
Definition myBookingsVisit (g : Groups) (d : Doc) : option Groups :=
  let status := statusOf (snd d) in
  match slot status with
  | Own b => Some (push b d g)
  | Inherited => None
  | Undefined => Some g
  end.

(** The callback of [snapshot.forEach] in [loadOwnerBookings]. *)
Definition ownerBookingsVisit (today : Date) (g : Groups) (d : Doc)
  : option Groups :=
  let status := statusOf (snd d) in
  let endDate := bk_endDate (snd d) in
  if (String.eqb status "accepted" || String.eqb status "pending")
     && (endDate <? today)
  then Some (push Archived d g)
  else
    match slot status with
    | Own b => Some (push b d g)
    | Inherited => None
    | Undefined => Some (push Archived d g)
    end.

(** [snapshot.forEach(visit)] from the empty groups. *)
Definition forEach (visit : Groups -> Doc -> option Groups)
    (snapshot : list Doc) : option Groups :=
  fold_left (fun acc d => acc ≫= fun g => visit g d) snapshot (Some noGroups).

(** The groups [loadMyBookings] renders for the snapshot of the
    renter's bookings; [None] when the load fails. *)
Definition loadMyBookings (snapshot : list Doc) : option Groups :=
  forEach myBookingsVisit snapshot.

(** The groups [loadOwnerBookings] renders for the snapshot of the
    owner's bookings. *)
Definition loadOwnerBookings (tz : Z) (now : Date) (snapshot : list Doc)
  : option Groups :=
  forEach (ownerBookingsVisit (setHours0 tz now)) snapshot.

(** [arrayUnion(x)] applied to the stored array: [x] is added unless
    an equal element is already there. *)
Definition arrayUnion (x : HistoryEntry) (l : list HistoryEntry)
  : list HistoryEntry :=
  if bool_decide (x ∈ l) then l else l ++ [x].

(** The environment of [handleBookingAction]: client clock, server
    clock and whether the update reaches the store. *)
Record Env : Type := {
  timestampNow : Date;
  serverTime : Date;
  updateOk : bool
}.

Definition updated (e : Env) (u : User) (newStatus : string) (b : Booking)
  : Booking :=
  {| bk_itemId := bk_itemId b;
     bk_itemName := bk_itemName b;
     bk_renterId := bk_renterId b;
     bk_renterName := bk_renterName b;
     bk_renterEmail := bk_renterEmail b;
     bk_ownerId := bk_ownerId b;
     bk_ownerName := bk_ownerName b;
     bk_ownerEmail := bk_ownerEmail b;
     bk_startDate := bk_startDate b;
     bk_endDate := bk_endDate b;
     bk_status := Some newStatus;
     bk_statusHistory :=
       arrayUnion {| he_status := newStatus; he_at := timestampNow e;
                     he_by := uid u |} (bk_statusHistory b);
     bk_lockIds := bk_lockIds b;
     bk_createdAt := bk_createdAt b;
     bk_updatedAt := serverTime e |}.

Definition msgUpdated (newStatus : string) : Message :=
  Text ("✅ Booking request "
        +:+ (if String.eqb newStatus "accepted" then "accepted" else "declined")
        +:+ " successfully!").

Definition msgUpdateFailed : Message :=
  Text "Failed to update booking. Please try again.".

(** The alert shown (none when the call returns at once) and the store
    afterwards.  [updateDoc] fails on a document that does not
    exist. *)
Definition handleBookingAction (e : Env) (currentUser : option User)
    (bookingId newStatus : string) (st : Store) : option Message * Store :=
  if negb (existsb (String.eqb newStatus) ["accepted"; "declined"]) then
    (None, st)
  else
    match currentUser with
    | None => (None, st)
    | Some user =>
        match bookings st !! bookingId with
        | Some b =>
            if updateOk e then
              (Some (msgUpdated newStatus),
               {| bookings :=
                    <[ bookingId := updated e user newStatus b ]> (bookings st);
                  bookingLocks := bookingLocks st |})
            else (Some msgUpdateFailed, st)
        | None => (Some msgUpdateFailed, st)
        end
    end.

End ItemManager.

(** ** Sample data used in the examples *)
Module Fixtures.
Import Validators.

(** Two zones of one offset: UTC+8 and UTC-5. *)
Definition tzTaipei : Z := 8 * msPerHour.
Definition tzNewYork : Z := -5 * msPerHour.

Definition day (y m d : Z) : Z := daysOfCivil y m d.

Definition alice : User :=
  {| uid := "alice"; displayName := Some "Alice"; email := "alice@cornell.edu" |}.
Definition bob : User :=
  {| uid := "bob"; displayName := None; email := "bob@cornell.edu" |}.
Definition carol : User :=
  {| uid := "carol"; displayName := Some ""; email := "carol@cornell.edu" |}.

Definition itemWith (a : option Availability) : Item :=
  {| item_name := "Vacuum"; item_ownerId := "alice";
     item_ownerName := "Alice"; item_ownerEmail := "alice@cornell.edu";
     item_availability := a |}.

Definition always : Availability :=
  {| av_type := Some "always"; av_startDate := None; av_endDate := None;
     av_daysOfWeek := None |}.

(** Open from 2025-06-10 to 2025-06-20, bounds at local midnight. *)
Definition window (tz : Z) : Availability :=
  {| av_type := Some "dateRange";
     av_startDate := Some (localMidnight tz (day 2025 6 10));
     av_endDate := Some (localMidnight tz (day 2025 6 20));
     av_daysOfWeek := None |}.

(** Tuesdays only. *)
Definition tuesdays : Availability :=
  {| av_type := Some "recurring"; av_startDate := None; av_endDate := None;
     av_daysOfWeek := Some [2] |}.

(** A type the code does not know. *)
Definition weekly : Availability :=
  {| av_type := Some "weekly"; av_startDate := None; av_endDate := None;
     av_daysOfWeek := None |}.

Definition emptyStore : Store := {| bookings := ∅; bookingLocks := ∅ |}.

(** The environment of a call made on 2025-06-01 in zone [z] that
    will store its booking under [id]. *)
Definition envOn (z : Z) (id : string) : BookingManager.Env :=
  {| BookingManager.tz := z;
     BookingManager.now := localMidnight z (day 2025 6 1) + 9 * msPerHour;
     BookingManager.timestampNow :=
       localMidnight z (day 2025 6 1) + 9 * msPerHour;
     BookingManager.serverTime :=
       localMidnight z (day 2025 6 1) + 9 * msPerHour;
     BookingManager.newId := id;
     BookingManager.readsOk := true;
     BookingManager.commitOk := true |}.

(** [u] asks for item [itemId] from day [ds] to day [de]. *)
Definition request (u : User) (itemId : string) (a : option Availability)
    (ds de : Z) : BookingManager.Session :=
  {| BookingManager.currentUser := Some u;
     BookingManager.currentItemId := itemId;
     BookingManager.currentItemData := Some (itemWith a);
     BookingManager.bookingStartDate := Some ds;
     BookingManager.bookingEndDate := Some de |}.

(** Bob's booking of 2025-05-01 to 2025-05-03 on Alice's item, as
    stored with the given status. *)
Definition pastBooking (status : option string) : Booking :=
  {| bk_itemId := "item1"; bk_itemName := "Vacuum";
     bk_renterId := "bob"; bk_renterName := "bob";
     bk_renterEmail := "bob@cornell.edu";
     bk_ownerId := "alice"; bk_ownerName := "Alice";
     bk_ownerEmail := "alice@cornell.edu";
     bk_startDate := localMidnight tzNewYork (day 2025 5 1);
     bk_endDate := localMidnight tzNewYork (day 2025 5 3);
     bk_status := status;
     bk_statusHistory :=
       [ {| he_status := "pending";
            he_at := localMidnight tzNewYork (day 2025 4 20);
            he_by := "bob" |} ];
     bk_lockIds :=
       ["item1_2025-05-01"; "item1_2025-05-02"; "item1_2025-05-03"];
     bk_createdAt := localMidnight tzNewYork (day 2025 4 20);
     bk_updatedAt := localMidnight tzNewYork (day 2025 4 20) |}.

Definition storeWith (id : string) (b : Booking) : Store :=
  {| bookings := {[ id := b ]}; bookingLocks := ∅ |}.

End Fixtures.

(** ** The listing form of the item manager module *)
Module Listing.

(** What a form reader hands back: a value, or the [Error] it throws
    with its message. *)
Inductive Collected (A : Type) : Type :=
  | Returned (a : A)
  | Threw (message : string).
Arguments Returned {A} a.
Arguments Threw {A} message.

(** The availability fields of the create or edit form: the selected
    type, the two date fields (empty, or the day a well-formed
    [YYYY-MM-DD] names) and the weekday checkboxes by name ([None]: not
    there or not checked, [Some v]: checked, [v] the number
    [parseInt] reads from its value). *)
Record AvailabilityForm : Type := {
  availabilityType : string;
  availableFrom : option Z;
  availableUntil : option Z;
  dayBox : string -> option Z
}.

Definition weekdayBoxes : list string :=
  ["monday"; "tuesday"; "wednesday"; "thursday"; "friday"; "saturday";
   "sunday"].

(** [collectAvailabilityData(prefix)]; it returns [undefined] for a
    type it does not know. *)
Definition collectAvailabilityData (tz : Z) (f : AvailabilityForm)
  : Collected (option Availability) :=
  if String.eqb (availabilityType f) "always" then
    Returned (Some {| av_type := Some "always"; av_startDate := None;
                      av_endDate := None; av_daysOfWeek := None |})
  else if String.eqb (availabilityType f) "dateRange" then
    let startDate := localMidnight tz <$> availableFrom f in
    let endDate := localMidnight tz <$> availableUntil f in
    let availability :=
      {| av_type := Some "dateRange"; av_startDate := startDate;
         av_endDate := endDate; av_daysOfWeek := None |} in
    match startDate, endDate with
    | Some s, Some e =>
        if e <=? s
        then Threw "Available Until date must be after Available From date"
        else Returned (Some availability)
    | _, _ => Returned (Some availability)
    end
  else if String.eqb (availabilityType f) "recurring" then
    let days := omap (dayBox f) weekdayBoxes in
    match days with
    | [] => Threw "Please select at least one day of the week"
    | _ :: _ =>
        Returned (Some {| av_type := Some "recurring"; av_startDate := None;
                          av_endDate := None; av_daysOfWeek := Some days |})
    end
  else Returned None.

(** [item.handoverTime]. *)
Record HandoverTime : Type := {
  ht_start : option string;
  ht_end : option string
}.

(** [s || null]. *)
Definition orNull (s : string) : option string :=
  match s with
  | EmptyString => None
  | String _ _ => Some s
  end.

Definition truthy (s : string) : bool :=
  match s with
  | EmptyString => false
  | String _ _ => true
  end.

(** [a >= b] on strings: by code units, a proper prefix first. *)
Definition geb (a b : string) : bool := negb (String.ltb a b).

(** [collectHandoverTime(prefix)] on the values of the two time
    fields. *)
Definition collectHandoverTime (timeStart timeEnd : string)
  : Collected (option HandoverTime) :=
  if truthy timeStart && truthy timeEnd && geb timeStart timeEnd then
    Threw "Handover end time must be after start time"
  else if negb (truthy timeStart) && negb (truthy timeEnd) then
    Returned None
  else
    Returned (Some {| ht_start := orNull timeStart; ht_end := orNull timeEnd |}).

(** The value a time field holds for [h] hours and [m] minutes:
    [HH:MM]. *)
Definition clock (h m : Z) : string := pad2 h +:+ ":" +:+ pad2 m.

End Listing.

(** ** The booking modal of the booking manager module *)
Module BookingModal.
Import Listing.

(** What [openBookingModal] puts on the page: the handover notice with
    its two times, if any, and the [min] attribute of both date
    fields. *)
Record Opened : Type := {
  notice : option (string * string);
  minDate : string
}.

(** [a || b] on two properties that may be absent or empty. *)
Definition orElse (a b : option string) : option string :=
  match a with
  | Some (String c r) => Some (String c r)
  | _ => b
  end.

(** [openBookingModal(itemId)]: [None] when the modal element or the
    current item is missing.  [handoverTime] is [item.handoverTime],
    [legacyTimeStart] and [legacyTimeEnd] are
    [item.availability?.timeStart] and [item.availability?.timeEnd];
    [now] is the value of [new Date()]. *)
Definition openBookingModal (modalThere : bool) (item : option Item)
    (handoverTime : option HandoverTime)
    (legacyTimeStart legacyTimeEnd : option string) (now : Date)
  : option Opened :=
  if negb modalThere then None
  else
    match item with
    | None => None
    | Some _ =>
        let timeStart := orElse (handoverTime ≫= ht_start) legacyTimeStart in
        let timeEnd := orElse (handoverTime ≫= ht_end) legacyTimeEnd in
        Some {| notice :=
                  match orElse timeStart None, orElse timeEnd None with
                  | Some s, Some e => Some (s, e)
                  | _, _ => None
                  end;
                minDate := toISODate now |}
    end.

End BookingModal.

(** ** The chat manager module *)
Module ChatManager.

(** [[a, b].sort()]: the default order compares strings by UTF-16
    code units, which on the ASCII identifiers of the store and of the
    sign-in service is the order of [String.ltb]. *)
Definition sort2 (a b : string) : string * string :=
  if String.ltb b a then (b, a) else (a, b).

(** [getChatId(itemId, userId)]; [currentItemData] is what the state
    store holds. *)
Definition getChatId (currentItemData : option Item) (itemId userId : string)
  : option string :=
  match currentItemData with
  | None => None
  | Some item =>
      let users := sort2 (item_ownerId item) userId in
      Some (itemId +:+ "_" +:+ fst users +:+ "_" +:+ snd users)
  end.

(** A document of [chats/{chatId}/messages]; [createdAt] is absent
    while the server has not stamped it. *)
Record ChatMessage : Type := {
  senderId : string;
  createdAt : option Z
}.

(** The chat documents ([lastRead] of each, by user) and the messages
    of each chat. *)
Record Chats : Type := {
  chatLastRead : gmap string (gmap string Z);
  chatMessages : gmap string (list ChatMessage)
}.

(** The test of the [forEach] callback of [getUnreadCount]. *)
Definition isUnread (uid : string) (lastReadTimestamp : option Z)
    (msg : ChatMessage) : bool :=
  negb (String.eqb (senderId msg) uid)
  && match lastReadTimestamp with
     | None => true
     | Some lastRead =>
         match createdAt msg with
         | Some t => lastRead <? t
         | None => false
         end
     end.

(** [getUnreadCount(chatId)]; [readsOk = false]: a read rejects and the
    [catch] answers 0. *)
Definition getUnreadCount (currentUser : option User) (chatId : string)
    (readsOk : bool) (chats : Chats) : nat :=
  match currentUser with
  | None => 0%nat
  | Some user =>
      if String.eqb chatId "" then 0%nat
      else if negb readsOk then 0%nat
      else
        let lastReadTimestamp :=
          chatLastRead chats !! chatId ≫= fun lastRead => lastRead !! uid user in
        length (List.filter (isUnread (uid user) lastReadTimestamp)
                  (default [] (chatMessages chats !! chatId)))
  end.

End ChatManager.

(** ** The formatters module *)
Module Formatters.

(** A non-negative integer in a template string. *)
Definition decimal (n : Z) : string :=
  NilZero.string_of_uint (N.to_uint (Z.to_N n)).

(** [formatTimeAgo(date)]; [now] is the value of [new Date()].  The
    last case prints [date.toLocaleDateString()]. *)
Inductive TimeAgo : Type :=
  | Shown (s : string)
  | LocaleDate (d : Date).

Definition formatTimeAgo (now date : Date) : TimeAgo :=
  let seconds := (now - date) / 1000 in
  if seconds <? 60 then Shown "just now"
  else
    let minutes := seconds / 60 in
    if minutes <? 60 then Shown (decimal minutes +:+ "m ago")
    else
      let hours := minutes / 60 in
      if hours <? 24 then Shown (decimal hours +:+ "h ago")
      else
        let days := hours / 24 in
        if days <? 7 then Shown (decimal days +:+ "d ago")
        else
          let weeks := days / 7 in
          if weeks <? 4 then Shown (decimal weeks +:+ "w ago")
          else LocaleDate date.

End Formatters.

(** ** Sequences of owner actions and the contents of the groups *)
Module Journeys.
Import ItemManager.

(** One call of [handleBookingAction]. *)
Record Action : Type := {
  act_env : ItemManager.Env;
  act_user : option User;
  act_bookingId : string;
  act_newStatus : string
}.

(** The store after the calls of [acts], in order. *)
Definition runActions (acts : list Action) (st : Store) : Store :=
  fold_left
    (fun s a =>
       snd (handleBookingAction (act_env a) (act_user a) (act_bookingId a)
              (act_newStatus a) s))
    acts st.

(** All documents of the four groups. *)
Definition contents (g : Groups) : list Doc :=
  pending g ++ accepted g ++ declined g ++ archived g.

(** [groups[b]]. *)
Definition group (b : Bucket) (g : Groups) : list Doc :=
  match b with
  | Pending => pending g
  | Accepted => accepted g
  | Declined => declined g
  | Archived => archived g
  end.

(** The status of the document is one of the four group names. *)
Definition knownStatus (d : Doc) : bool :=
  match slot (statusOf (snd d)) with
  | Own _ => true
  | _ => false
  end.

(** The documents of [query(collection('bookings'), where(field, '==',
    uid), orderBy('createdAt', 'desc'))], up to their order: a
    snapshot of the query is a permutation of this list. *)
Definition matching (field : Booking -> string) (uid : string) (st : Store)
  : list Doc :=
  filter (fun d => field (snd d) = uid) (map_to_list (bookings st)).

(** The group named by a status the owner can set. *)
Definition bucketOf (newStatus : string) : Bucket :=
  if String.eqb newStatus "accepted" then Accepted else Declined.

End Journeys.

(** ** Time zones whose offset changes

    [JsDate] takes the local time zone as one offset.  A browser's
    zone is a table of offsets: [new Date(s + 'T00:00:00')],
    [setHours] and [setDate] go from UTC to local time with the offset
    in force at the instant ([LocalTime]) and back with the offset in
    force at the local time ([UTC]), which on the day of a change is
    not the same.  The functions of [JsDate] and of the validators are
    given here for such a zone; on [fixedZone tz] they are those of
    [JsDate]. *)
Module JsZone.

(** The offset in force before the first change, and the changes in
    ascending order: [(t, o)] puts offset [o] in force from instant
    [t] on. *)
Record Zone : Type := {
  zoneBase : Z;
  zoneChanges : list (Date * Z)
}.

Definition fixedZone (tz : Z) : Zone :=
  {| zoneBase := tz; zoneChanges := [] |}.

Fixpoint offsetFrom (o : Z) (changes : list (Date * Z)) (t : Date) : Z :=
  match changes with
  | [] => o
  | c :: rest => if fst c <=? t then offsetFrom (snd c) rest t else o
  end.

(** The offset in force at instant [t]. *)
Definition offsetAt (z : Zone) (t : Date) : Z :=
  offsetFrom (zoneBase z) (zoneChanges z) t.

(** [LocalTime(t)]. *)
Definition localTime (z : Zone) (t : Date) : Z := t + offsetAt z t.

Definition offsets (z : Zone) : list Z := zoneBase z :: map snd (zoneChanges z).

(** The instants at which the local clock shows [tl]: none for a
    local time that a forward change skips, two for one that a
    backward change repeats. *)
Definition possibleInstants (z : Zone) (tl : Z) : list Date :=
  List.filter (fun t => localTime z t =? tl) (map (fun o => tl - o) (offsets z)).

Definition earliest (l : list Date) : option Date :=
  match l with
  | [] => None
  | t :: rest => Some (fold_right Z.min t rest)
  end.

Definition latest (l : list Date) : option Date :=
  match l with
  | [] => None
  | t :: rest => Some (fold_right Z.max t rest)
  end.

(** [UTC(tl)]: the earliest instant that shows [tl]; a skipped local
    time is read with the offset in force a day earlier, that is
    before the change (the last case does not arise for a zone whose
    changes are more than a day apart). *)
Definition utcOfLocal (z : Zone) (tl : Z) : Date :=
  match earliest (possibleInstants z tl) with
  | Some t => t
  | None =>
      match latest (possibleInstants z (tl - msPerDay)) with
      | Some before => tl - offsetAt z before
      | None => tl - zoneBase z
      end
  end.

(** Day number of the local calendar date. *)
Definition localDayIn (z : Zone) (t : Date) : Z := localTime z t / msPerDay.

(** [new Date(s + 'T00:00:00')] for [s] the date with day number
    [d]. *)
Definition localMidnightIn (z : Zone) (d : Z) : Date :=
  utcOfLocal z (d * msPerDay).

(** [t.setHours(0, 0, 0, 0)]. *)
Definition setHours0In (z : Zone) (t : Date) : Date :=
  utcOfLocal z (localDayIn z t * msPerDay).

(** [new Date(t.getFullYear(), t.getMonth(), t.getDate())] (for years
    from 100 on). *)
Definition dateOnlyIn (z : Zone) (t : Date) : Date :=
  utcOfLocal z (localDayIn z t * msPerDay).

(** [t.setDate(t.getDate() + 1)]: the local clock reading of [t], one
    calendar day later, read back as an instant. *)
Definition addDayIn (z : Zone) (t : Date) : Date :=
  utcOfLocal z (localTime z t + msPerDay).

(** [t.getDay()]. *)
Definition getDayIn (z : Zone) (t : Date) : Z := (localDayIn z t + 4) mod 7.

(** No change of offset after [lo] and up to [hi]. *)
Definition steady (z : Zone) (lo hi : Date) : bool :=
  forallb (fun c => (fst c <=? lo) || (hi <? fst c)) (zoneChanges z).

(** Every offset of the zone is less than a day. *)
Definition boundedOffsets (z : Zone) : bool :=
  forallb (fun o => (- msPerDay <? o) && (o <? msPerDay)) (offsets z).

(** From [lo] to [hi] the zone keeps the offset [tz]. *)
Definition calm (z : Zone) (tz : Z) (lo hi : Date) : bool :=
  boundedOffsets z && steady z lo hi && (offsetAt z lo =? tz).

(** Well inside the stretch from [lo] to [hi]: four days from either
    end. *)
Definition inside (lo hi t : Date) : Prop :=
  lo + 4 * msPerDay <= t <= hi - 4 * msPerDay.

(** The instant [h] hours after the UTC midnight of a calendar
    date. *)
Definition utc (y m d h : Z) : Date :=
  daysOfCivil y m d * msPerDay + h * msPerHour.

(** Europe/London from 2024-10-27 to 2026-03-28: summer time from
    2025-03-30 01:00 UTC to 2025-10-26 01:00 UTC. *)
Definition london : Zone :=
  {| zoneBase := 0;
     zoneChanges := [(utc 2025 3 30 1, msPerHour); (utc 2025 10 26 1, 0)] |}.

(** America/Santiago from 2024-09-08 to 2026-04-04: winter time
    (UTC-4) from 2025-04-06 03:00 UTC to 2025-09-07 04:00 UTC, when
    the local clock goes from midnight to 01:00. *)
Definition santiago : Zone :=
  {| zoneBase := -3 * msPerHour;
     zoneChanges := [(utc 2025 4 6 3, -4 * msPerHour);
                     (utc 2025 9 7 4, -3 * msPerHour)] |}.

(** Lent on Sundays only. *)
Definition sundays : Availability :=
  {| av_type := Some "recurring"; av_startDate := None; av_endDate := None;
     av_daysOfWeek := Some [0] |}.

End JsZone.

(** ** The validators and the availability block in such a zone *)
Module Zoned.
Import JsZone Validators BookingManager.

(** The loop of [buildLockIds]; [None] when [fuel] iterations do not
    end it. *)
Fixpoint lockLoopIn (fuel : nat) (z : Zone) (itemId : string)
    (cursor end_ : Date) : option (list string) :=
  if cursor <=? end_ then
    match fuel with
    | O => None
    | S fuel' =>
        cons (lockId itemId cursor)
          <$> lockLoopIn fuel' z itemId (addDayIn z cursor) end_
    end
  else Some [].

(** Enough iterations while each one advances the cursor by an hour
    or more. *)
Definition lockFuelIn (cursor end_ : Date) : nat :=
  Z.to_nat ((end_ - cursor) / msPerHour + 1).

(** [buildLockIds(itemId, startDate, endDate)]. *)
Definition buildLockIdsIn (z : Zone) (itemId : string)
    (startDate endDate : Date) : option (list string) :=
  let cursor := setHours0In z startDate in
  let end_ := setHours0In z endDate in
  lockLoopIn (lockFuelIn cursor end_) z itemId cursor end_.

(** [validateAvailability(item, requestedStart, requestedEnd)]. *)
Definition validateAvailabilityIn (z : Zone) (item : Item)
    (requestedStart requestedEnd : Date) : Validation :=
  let availability := default noAvailability (item_availability item) in
  if strictEq (av_type availability) ALWAYS then ok
  else if strictEq (av_type availability) DATE_RANGE then
    let untilCheck :=
      match av_endDate availability with
      | Some availEnd =>
          if availEnd <? requestedEnd
          then invalid (AvailableUntil availEnd) else ok
      | None => ok
      end in
    match av_startDate availability with
    | Some availStart =>
        if requestedStart <? availStart
        then invalid (AvailableFrom availStart) else untilCheck
    | None => untilCheck
    end
  else if strictEq (av_type availability) RECURRING then
    if negb (localDayIn z requestedStart =? localDayIn z requestedEnd) then
      invalid
        (Text "Recurring availability items can only be booked for same-day use")
    else
      let dayOfWeek := getDayIn z requestedStart in
      let availableDays := default [] (av_daysOfWeek availability) in
      if negb (includes availableDays dayOfWeek) then
        invalid (Text ("Item is only available on: "
                       +:+ availableDayNames availableDays))
      else ok
  else invalid (Text "Unknown availability type").

(** [validateBookingDates(startDate, endDate)]. *)
Definition validateBookingDatesIn (z : Zone) (now : Date)
    (startDate endDate : Date) : Validation :=
  let today := setHours0In z now in
  if startDate <? today then
    invalid (Text "Start date cannot be in the past")
  else if endDate <? startDate then
    invalid (Text "End date must be after start date")
  else ok.

(** The block "Validate against item availability if set" of
    [submitBookingRequest]. *)
Definition availabilityAlertIn (z : Zone) (item : Item)
    (startDate endDate : Date) : option Message :=
  match item_availability item with
  | None => None
  | Some availability =>
      if strictEq (av_type availability) "dateRange" then
        let untilCheck :=
          match av_endDate availability with
          | Some itemEndDate =>
              if dateOnlyIn z itemEndDate <? dateOnlyIn z endDate
              then Some (AvailableUntil itemEndDate) else None
          | None => None
          end in
        match av_startDate availability with
        | Some itemStartDate =>
            if dateOnlyIn z startDate <? dateOnlyIn z itemStartDate
            then Some (AvailableFrom itemStartDate) else untilCheck
        | None => untilCheck
        end
      else if strictEq (av_type availability) "recurring" then
        let availableDays := default [] (av_daysOfWeek availability) in
        let startDateOnly := toISODate startDate in
        let endDateOnly := toISODate endDate in
        if negb (String.eqb startDateOnly endDateOnly) then
          Some (msgSameDayOnly availableDays)
        else
          let dayOfWeek := getDayIn z startDate in
          if negb (includes availableDays dayOfWeek) then
            Some (msgWrongDay availableDays dayOfWeek)
          else None
      else None
  end.

(** [submitBookingRequest] up to its first suspension on the store;
    [None] when [buildLockIds] does not return. *)
Definition checkRequestIn (z : Zone) (e : Env) (s : Session) (st : Store)
  : option Checked :=
  match currentUser s with
  | None =>
      Some (Ended (Text "You must be logged in to submit a booking request") [])
  | Some user =>
  match currentItemData s with
  | None => Some (Ended (Text "Item not found") [])
  | Some item =>
  if String.eqb (item_ownerId item) (uid user) then
    Some (Ended (Text "You cannot book your own item.") [])
  else
  match bookingStartDate s, bookingEndDate s with
  | Some startDay, Some endDay =>
      let startDate := localMidnightIn z startDay in
      let endDate := localMidnightIn z endDay in
      match validateBookingDatesIn z (now e) startDate endDate with
      | invalid m => Some (Ended m [])
      | ok =>
      match availabilityAlertIn z item startDate endDate with
      | Some m => Some (Ended m [])
      | None =>
          match buildLockIdsIn z (currentItemId s) startDate endDate with
          | None => None
          | Some lockIds =>
              if negb (readsOk e) then Some (Ended msgFailed lockIds)
              else
                match existingLocks st lockIds with
                | _ :: _ => Some (Ended msgConflict lockIds)
                | [] =>
                    Some (Ready {| batch_user := user; batch_item := item;
                                   batch_startDate := startDate;
                                   batch_endDate := endDate;
                                   batch_lockIds := lockIds |})
                end
          end
      end
      end
  | _, _ => Some (Ended (Text "Please select both start and end dates") [])
  end
  end
  end.

(** [submitBookingRequest(event)] in zone [z]. *)
Definition submitBookingRequestIn (z : Zone) (e : Env) (s : Session)
    (st : Store) : option Outcome :=
  match checkRequestIn z e s st with
  | None => None
  | Some (Ended m rd) => Some {| alert := m; reads := rd; after := st |}
  | Some (Ready b) => Some (commitRequest e s b st)
  end.

(** A call away from any change of offset: from [lo] to [hi] the zone
    keeps the offset [tz e], and the moment of the call, the days
    asked for and the bounds of the item's window, if it has one, lie
    well inside that stretch (of which both ends are dates a [Date]
    can hold). *)
Definition quiet (z : Zone) (lo hi : Date) (e : Env) (s : Session) : Prop :=
  calm z (tz e) lo hi = true
  /\ validTime lo /\ validTime hi
  /\ inside lo hi (now e)
  /\ (forall ds, bookingStartDate s = Some ds -> inside lo hi (ds * msPerDay))
  /\ (forall de, bookingEndDate s = Some de -> inside lo hi (de * msPerDay))
  /\ (forall item av bound,
        currentItemData s = Some item -> item_availability item = Some av ->
        av_startDate av = Some bound \/ av_endDate av = Some bound ->
        inside lo hi bound).


(** A call made in Europe/London on 2025-06-01 at 09:00 UTC that will
    store its booking under [id]. *)
Definition londonEnv (id : string) : Env :=
  {| tz := msPerHour; now := utc 2025 6 1 9; timestampNow := utc 2025 6 1 9;
     serverTime := utc 2025 6 1 9; newId := id; readsOk := true;
     commitOk := true |}.

(** A call made in Europe/London on 2025-03-01 at 12:00 UTC. *)
Definition londonMarchEnv (id : string) : Env :=
  {| tz := 0; now := utc 2025 3 1 12; timestampNow := utc 2025 3 1 12;
     serverTime := utc 2025 3 1 12; newId := id; readsOk := true;
     commitOk := true |}.

(** A call made in America/Santiago on 2025-08-01 at 12:00 UTC. *)
Definition santiagoEnv (id : string) : Env :=
  {| tz := -4 * msPerHour; now := utc 2025 8 1 12;
     timestampNow := utc 2025 8 1 12; serverTime := utc 2025 8 1 12;
     newId := id; readsOk := true; commitOk := true |}.

End Zoned.

(** * Properties *)

(** ** Dates *)
Section DateFacts.

Lemma localDay_localMidnight tz d : localDay tz (localMidnight tz d) = d.
Proof.
  unfold localDay, localMidnight.
  replace (d * msPerDay - tz + tz) with (d * msPerDay) by ring.
  apply Z.div_mul. discriminate.
Qed.

Lemma setHours0_localMidnight tz d :
  setHours0 tz (localMidnight tz d) = localMidnight tz d.
Proof. unfold setHours0. now rewrite localDay_localMidnight. Qed.

Lemma addDay_localMidnight tz d :
  addDay (localMidnight tz d) = localMidnight tz (d + 1).
Proof. unfold addDay, localMidnight, msPerDay, Date. lia. Qed.

Lemma localMidnight_le tz a b :
  localMidnight tz a <= localMidnight tz b <-> a <= b.
Proof. unfold localMidnight, msPerDay. lia. Qed.

Lemma localMidnight_lt tz a b :
  localMidnight tz a < localMidnight tz b <-> a < b.
Proof. unfold localMidnight, msPerDay. lia. Qed.

Lemma utcDay_localMidnight tz d :
  utcDay (localMidnight tz d) = d + zoneShift tz.
Proof.
  unfold utcDay, localMidnight, zoneShift.
  replace (d * msPerDay - tz) with (- tz + d * msPerDay) by ring.
  rewrite Z.div_add by discriminate. ring.
Qed.

Lemma zoneShift_west tz : - msPerDay < tz <= 0 -> zoneShift tz = 0.
Proof.
  intros H. unfold zoneShift. apply Z.div_small. lia.
Qed.

Lemma zoneShift_east tz : 0 < tz <= msPerDay -> zoneShift tz = -1.
Proof.
  intros H. unfold zoneShift.
  symmetry. apply (Z.div_unique_pos (- tz) msPerDay (-1) (msPerDay - tz)); lia.
Qed.

Lemma getDay_localMidnight tz d :
  getDay tz (localMidnight tz d) = (d + 4) mod 7.
Proof. unfold getDay. now rewrite localDay_localMidnight. Qed.

Lemma dateOnly_lt tz a b :
  (dateOnly tz a <? dateOnly tz b) = (localDay tz a <? localDay tz b).
Proof.
  unfold dateOnly.
  destruct (Z.ltb_spec (localDay tz a) (localDay tz b)) as [H | H].
  - apply Z.ltb_lt. now apply localMidnight_lt.
  - apply Z.ltb_ge. now apply localMidnight_le.
Qed.

Example isoOfDay_samples :
  isoOfDay 0 = "1970-01-01"
  /\ isoOfDay (daysOfCivil 2024 2 29) = "2024-02-29"
  /\ isoOfDay (daysOfCivil 2024 2 29 + 1) = "2024-03-01"
  /\ isoOfDay (daysOfCivil 2023 12 31 + 1) = "2024-01-01"
  /\ isoOfDay (daysOfCivil 1900 2 28 + 1) = "1900-03-01"
  /\ isoOfDay (daysOfCivil 0 1 1 - 1) = "-000001-12-31"
  /\ isoOfDay maxDay = "+275760-09-13".
Proof. vm_compute. repeat split; reflexivity. Qed.

(** 2025-06-10 was a Tuesday, in either zone. *)
Example getDay_samples :
  getDay Fixtures.tzTaipei
    (localMidnight Fixtures.tzTaipei (daysOfCivil 2025 6 10)) = 2
  /\ getDay Fixtures.tzNewYork
       (localMidnight Fixtures.tzNewYork (daysOfCivil 2025 6 10)) = 2.
Proof. vm_compute. split; reflexivity. Qed.

(** Local midnight of 2025-06-10 in UTC+8 is 16:00 UTC of the day
    before. *)
Example toISODate_samples :
  toISODate (localMidnight Fixtures.tzTaipei (daysOfCivil 2025 6 10))
  = "2025-06-09"
  /\ toISODate (localMidnight Fixtures.tzNewYork (daysOfCivil 2025 6 10))
     = "2025-06-10".
Proof. vm_compute. split; reflexivity. Qed.

Example split_samples :
  split "_" "ab_cd_ef" = ["ab"; "cd"; "ef"]
  /\ split "_" "abc" = ["abc"]
  /\ split "@" "bob@cornell.edu" = ["bob"; "cornell.edu"].
Proof. vm_compute. repeat split; reflexivity. Qed.

End DateFacts.

(** ** The ISO date of a day *)
Section IsoFacts.

Lemma nat_of_digitChar n : nat_of_ascii (digitChar n) = (48 + Z.to_nat (n mod 10))%nat.
Proof.
  unfold digitChar. apply nat_ascii_embedding.
  pose proof (Z.mod_pos_bound n 10 eq_refl). lia.
Qed.

Lemma digitChar_inj a b : digitChar a = digitChar b -> a mod 10 = b mod 10.
Proof.
  intros H. apply (f_equal nat_of_ascii) in H.
  rewrite !nat_of_digitChar in H.
  pose proof (Z.mod_pos_bound a 10 eq_refl).
  pose proof (Z.mod_pos_bound b 10 eq_refl). lia.
Qed.

Lemma digitChar_code n c : notDigit c = true -> digitChar n <> c.
Proof.
  intros Hc H. apply (f_equal nat_of_ascii) in H.
  rewrite nat_of_digitChar in H.
  pose proof (Z.mod_pos_bound n 10 eq_refl).
  unfold notDigit in Hc.
  apply orb_prop in Hc as [Hc | Hc]; apply Nat.ltb_lt in Hc; lia.
Qed.

Lemma digitChar_eqb n c :
  notDigit c = true -> Ascii.eqb (digitChar n) c = false.
Proof. intros Hc. apply Ascii.eqb_neq. now apply digitChar_code. Qed.

Lemma pad2_inj a b :
  0 <= a < 100 -> 0 <= b < 100 -> pad2 a = pad2 b -> a = b.
Proof.
  intros Ha Hb H. unfold pad2 in H. injection H as H1 H0.
  apply digitChar_inj in H1, H0.
  Z.to_euclidean_division_equations. lia.
Qed.

Lemma pad4_inj a b :
  0 <= a < 10000 -> 0 <= b < 10000 -> pad4 a = pad4 b -> a = b.
Proof.
  intros Ha Hb H. unfold pad4, pad2 in H. injection H as H3 H2 H1 H0.
  apply digitChar_inj in H3, H2, H1, H0.
  Z.to_euclidean_division_equations. lia.
Qed.

Lemma pad6_inj a b :
  0 <= a < 1000000 -> 0 <= b < 1000000 -> pad6 a = pad6 b -> a = b.
Proof.
  intros Ha Hb H. unfold pad6, pad4, pad2 in H.
  injection H as H5 H4 H3 H2 H1 H0.
  apply digitChar_inj in H5, H4, H3, H2, H1, H0.
  Z.to_euclidean_division_equations. lia.
Qed.

Lemma eraDaysOk_at count : forall doe x,
  eraDaysOk count doe = true ->
  doe <= x < doe + Z.of_nat count -> eraDayOk x = true.
Proof.
  induction count as [| count IH]; intros doe x H Hx; [lia |].
  simpl in H. apply andb_prop in H as [H0 H1].
  destruct (Z.eq_dec x doe) as [-> | Hne]; [exact H0 |].
  apply (IH (doe + 1)); [exact H1 | lia].
Qed.

Lemma era_checked : eraDaysOk (Z.to_nat daysPerEra) 0 = true.
Proof. vm_cast_no_check (eq_refl true). Qed.

Lemma eraDayOk_all doe : 0 <= doe < daysPerEra -> eraDayOk doe = true.
Proof.
  intros H. apply (eraDaysOk_at _ 0 doe era_checked).
  rewrite Z2Nat.id by discriminate. lia.
Qed.

Lemma daysOfCivil_shift y m d k :
  daysOfCivil (y + 400 * k) m d = daysOfCivil y m d + daysPerEra * k.
Proof.
  unfold daysOfCivil, daysPerEra.
  set (a := if m <=? 2 then y - 1 else y).
  replace (if m <=? 2 then y + 400 * k - 1 else y + 400 * k)
    with (a + k * 400) by (subst a; destruct (m <=? 2); ring).
  rewrite Z.div_add by discriminate.
  replace (a + k * 400 - (a / 400 + k) * 400) with (a - a / 400 * 400) by ring.
  ring.
Qed.

(** The calendar date of a day, in terms of its era and its day of
    the era. *)
Lemma civilOfDays_era n :
  let era := (n + 719468) / daysPerEra in
  let doe := (n + 719468) mod daysPerEra in
  civilOfDays n =
    (let '(y, m, d) := civilOfDoe doe in (y + era * 400, m, d)).
Proof.
  intros era doe. unfold civilOfDays.
  replace (n + 719468 - (n + 719468) / daysPerEra * daysPerEra) with doe;
    [reflexivity |].
  subst doe. rewrite Z.mod_eq by discriminate. ring.
Qed.

Lemma civilOfDays_ok n y m d :
  civilOfDays n = (y, m, d) ->
  daysOfCivil y m d = n /\ 1 <= m <= 12 /\ 1 <= d <= 31
  /\ 400 * ((n + 719468) / daysPerEra) <= y
      <= 400 * ((n + 719468) / daysPerEra) + 400.
Proof.
  rewrite civilOfDays_era. cbv zeta.
  pose proof (Z.mod_pos_bound (n + 719468) daysPerEra eq_refl) as Hdoe.
  pose proof (eraDayOk_all _ Hdoe) as Hok.
  pose proof (Z.div_mod (n + 719468) daysPerEra ltac:(discriminate)) as Hn.
  unfold eraDayOk in Hok.
  destruct (civilOfDoe ((n + 719468) mod daysPerEra)) as [[y0 m0] d0].
  intros [= <- <- <-].
  repeat (apply andb_prop in Hok as [Hok ?]).
  replace (y0 + (n + 719468) / daysPerEra * 400)
    with (y0 + 400 * ((n + 719468) / daysPerEra)) by ring.
  rewrite daysOfCivil_shift. lia.
Qed.

Lemma civilOfDays_inj n1 n2 : civilOfDays n1 = civilOfDays n2 -> n1 = n2.
Proof.
  intros H.
  destruct (civilOfDays n1) as [[y1 m1] d1] eqn:E1.
  destruct (civilOfDays n2) as [[y2 m2] d2] eqn:E2.
  apply civilOfDays_ok in E1 as [E1 _], E2 as [E2 _].
  injection H as -> -> ->. congruence.
Qed.

Lemma civilOfDays_year n y m d :
  validDay n -> civilOfDays n = (y, m, d) -> -1000000 < y < 1000000.
Proof.
  intros Hn H. apply civilOfDays_ok in H as (_ & _ & _ & Hy).
  unfold validDay, maxDay in Hn. unfold daysPerEra in Hy.
  Z.to_euclidean_division_equations. lia.
Qed.


Lemma isoYear_inj y1 y2 t1 t2 :
  -1000000 < y1 < 1000000 -> -1000000 < y2 < 1000000 ->
  isoYear y1 +:+ String "-" t1 = isoYear y2 +:+ String "-" t2 ->
  y1 = y2 /\ t1 = t2.
Proof.
  intros H1 H2. unfold isoYear.
  destruct (Z.ltb_spec y1 0), (Z.ltb_spec 9999 y1),
           (Z.ltb_spec y2 0), (Z.ltb_spec 9999 y2); try lia;
    unfold pad6, pad4, pad2; simpl; intros Heq; injection Heq; clear Heq; intros;
    try discriminate;
    try (exfalso;
         match goal with
         | E : digitChar _ = Ascii _ _ _ _ _ _ _ _ |- _ =>
             revert E; apply digitChar_code; reflexivity
         | E : Ascii _ _ _ _ _ _ _ _ = digitChar _ |- _ =>
             symmetry in E; revert E; apply digitChar_code; reflexivity
         end).
  - assert (- y1 = - y2); [| split; [lia | assumption]].
    apply pad6_inj; [lia | lia |]. unfold pad6, pad4, pad2. congruence.
  - assert (y1 = y2); [| split; assumption].
    apply pad6_inj; [lia | lia |]. unfold pad6, pad4, pad2. congruence.
  - assert (y1 = y2); [| split; assumption].
    apply pad4_inj; [lia | lia |]. unfold pad4, pad2. congruence.
Qed.

(** Distinct days have distinct ISO dates. *)
Lemma isoOfDay_inj n1 n2 :
  validDay n1 -> validDay n2 -> isoOfDay n1 = isoOfDay n2 -> n1 = n2.
Proof.
  intros V1 V2 H. apply civilOfDays_inj. unfold isoOfDay in H.
  destruct (civilOfDays n1) as [[y1 m1] d1] eqn:E1.
  destruct (civilOfDays n2) as [[y2 m2] d2] eqn:E2.
  pose proof (civilOfDays_year _ _ _ _ V1 E1) as Y1.
  pose proof (civilOfDays_year _ _ _ _ V2 E2) as Y2.
  apply civilOfDays_ok in E1 as (_ & M1 & D1 & _).
  apply civilOfDays_ok in E2 as (_ & M2 & D2 & _).
  apply isoYear_inj in H as [-> H]; [| assumption | assumption].
  unfold pad2 in H. simpl in H. injection H as Ha Hb Hc Hd.
  assert (m1 = m2) as ->
    by (apply pad2_inj; [lia | lia | unfold pad2; congruence]).
  assert (d1 = d2) as ->
    by (apply pad2_inj; [lia | lia | unfold pad2; congruence]).
  reflexivity.
Qed.

Lemma append_String a s t : String a s +:+ t = String a (s +:+ t).
Proof. reflexivity. Qed.

Lemma append_Empty t : "" +:+ t = t.
Proof. reflexivity. Qed.

Lemma hasChar_app c a b : hasChar c (a +:+ b) = hasChar c a || hasChar c b.
Proof.
  induction a as [| x a IH]; [reflexivity |].
  rewrite append_String. cbn [hasChar]. now rewrite IH, orb_assoc.
Qed.

Lemma pad2_hasChar c n : notDigit c = true -> hasChar c (pad2 n) = false.
Proof.
  intros Hc. unfold pad2. cbn [hasChar].
  now rewrite !(fun k => digitChar_eqb k c Hc).
Qed.

Lemma pad4_hasChar c n : notDigit c = true -> hasChar c (pad4 n) = false.
Proof.
  intros Hc. unfold pad4. cbn [hasChar].
  now rewrite !(fun k => digitChar_eqb k c Hc), pad2_hasChar.
Qed.

Lemma pad6_hasChar c n : notDigit c = true -> hasChar c (pad6 n) = false.
Proof.
  intros Hc. unfold pad6. cbn [hasChar].
  now rewrite !(fun k => digitChar_eqb k c Hc), pad4_hasChar.
Qed.

(** An ISO date holds no underscore. *)
Lemma isoOfDay_no_underscore n : hasChar "_" (isoOfDay n) = false.
Proof.
  unfold isoOfDay. destruct (civilOfDays n) as [[y m] d].
  rewrite !hasChar_app, !pad2_hasChar by reflexivity.
  unfold isoYear.
  destruct (y <? 0); [| destruct (9999 <? y)]; cbn [hasChar];
    rewrite ?pad6_hasChar, ?pad4_hasChar by reflexivity; reflexivity.
Qed.

End IsoFacts.

(** ** Splitting a lock identifier *)
Section SplitFacts.

Lemma append_assoc (a b c : string) : (a +:+ b) +:+ c = a +:+ (b +:+ c).
Proof.
  induction a as [| x a IH]; [reflexivity |].
  now rewrite !append_String, IH.
Qed.

Lemma append_nil_r (a : string) : a +:+ "" = a.
Proof.
  induction a as [| x a IH]; [reflexivity |].
  now rewrite append_String, IH.
Qed.

Lemma splitAux_no_sep sep s : forall cur,
  hasChar sep s = false -> splitAux sep cur s = [cur +:+ s].
Proof.
  induction s as [| a s IH]; intros cur H; cbn [splitAux hasChar] in *.
  - now rewrite append_nil_r.
  - apply orb_false_elim in H as [Ha Hs]. rewrite Ha.
    rewrite IH by assumption. now rewrite append_assoc.
Qed.

Lemma splitAux_app sep s t : forall cur,
  hasChar sep s = false ->
  splitAux sep cur (s +:+ String sep t) = (cur +:+ s) :: splitAux sep "" t.
Proof.
  induction s as [| a s IH]; intros cur H.
  - rewrite append_Empty. cbn [splitAux].
    rewrite Ascii.eqb_refl. now rewrite append_nil_r.
  - rewrite append_String. cbn [splitAux hasChar] in *.
    apply orb_false_elim in H as [Ha Hs]. rewrite Ha.
    rewrite IH by assumption. now rewrite append_assoc.
Qed.

(** [(a + '_' + b).split('_')] when neither part has an underscore. *)
Lemma split_two a b :
  hasChar "_" a = false -> hasChar "_" b = false ->
  split "_" (a +:+ "_" +:+ b) = [a; b].
Proof.
  intros Ha Hb. unfold split.
  change (a +:+ "_" +:+ b) with (a +:+ String "_" b).
  rewrite splitAux_app by assumption.
  now rewrite splitAux_no_sep by assumption.
Qed.

End SplitFacts.

(** ** Lock identifiers *)
Section LockIdFacts.
Import Validators.

Variable tz : Z.
Variable itemId : string.

Lemma toISODate_utcDay t : toISODate t = isoOfDay (utcDay t).
Proof. reflexivity. Qed.

(** The identifier [buildLockIds] makes for local day [d]: it names
    the UTC date of that day's local midnight. *)
Lemma lockId_localMidnight d :
  lockId itemId (localMidnight tz d) = keyOfDay itemId (d + zoneShift tz).
Proof.
  unfold lockId, keyOfDay. now rewrite toISODate_utcDay, utcDay_localMidnight.
Qed.

(** The loop visits the local days from the cursor's to the end's,
    whatever fuel it is given beyond the number of those days. *)
Lemma lockLoop_days de : forall fuel d,
  (Z.to_nat (de - d + 1) <= fuel)%nat ->
  lockLoop fuel itemId (localMidnight tz d) (localMidnight tz de) =
    map (fun x => keyOfDay itemId (x + zoneShift tz)) (seqZ d (de - d + 1)).
Proof.
  induction fuel as [| fuel IH]; intros d Hfuel.
  - rewrite seqZ_nil by lia. reflexivity.
  - cbn [lockLoop].
    destruct (Z.leb_spec (localMidnight tz d) (localMidnight tz de)) as [H | H].
    + apply localMidnight_le in H.
      rewrite seqZ_cons by lia. cbn [map].
      rewrite lockId_localMidnight, addDay_localMidnight.
      rewrite IH by lia.
      replace (Z.pred (de - d + 1)) with (de - (d + 1) + 1) by lia.
      reflexivity.
    + assert (de < d) by (apply localMidnight_lt in H; exact H).
      rewrite seqZ_nil by lia. reflexivity.
Qed.

Lemma lockFuel_localMidnight d de :
  lockFuel (localMidnight tz d) (localMidnight tz de) = Z.to_nat (de - d + 1).
Proof.
  unfold lockFuel, localMidnight. f_equal.
  replace (de * msPerDay - tz - (d * msPerDay - tz))
    with ((de - d) * msPerDay) by ring.
  now rewrite Z.div_mul by discriminate.
Qed.

(** [buildLockIds] on any two dates: one identifier per local day from
    the start's to the end's. *)
Lemma buildLockIds_days startDate endDate :
  buildLockIds tz itemId startDate endDate =
    map (fun x => keyOfDay itemId (x + zoneShift tz))
      (seqZ (localDay tz startDate)
            (localDay tz endDate - localDay tz startDate + 1)).
Proof.
  unfold buildLockIds, setHours0.
  rewrite lockFuel_localMidnight. now apply lockLoop_days.
Qed.

Lemma buildLockIds_length startDate endDate :
  length (buildLockIds tz itemId startDate endDate) =
    Z.to_nat (localDay tz endDate - localDay tz startDate + 1).
Proof. now rewrite buildLockIds_days, length_map, length_seqZ. Qed.

Lemma buildLockIds_lookup startDate endDate (i : nat) :
  (i < Z.to_nat (localDay tz endDate - localDay tz startDate + 1))%nat ->
  buildLockIds tz itemId startDate endDate !! i =
    Some (keyOfDay itemId (localDay tz startDate + Z.of_nat i + zoneShift tz)).
Proof.
  intros Hi. rewrite buildLockIds_days, list_lookup_fmap.
  rewrite lookup_seqZ_lt by lia. reflexivity.
Qed.

(** Every identifier is the item identifier, an underscore and an ISO
    date. *)
Lemma buildLockIds_elem startDate endDate id :
  id ∈ buildLockIds tz itemId startDate endDate ->
  exists n, id = keyOfDay itemId n.
Proof.
  rewrite buildLockIds_days. intros H.
  apply list_elem_of_fmap in H as (x & -> & _). eauto.
Qed.

(** In a zone at or west of UTC the identifiers name the local days
    themselves; east of UTC each names the day before. *)
Lemma buildLockIds_west ds de :
  - msPerDay < tz <= 0 ->
  buildLockIds tz itemId (localMidnight tz ds) (localMidnight tz de) =
    map (keyOfDay itemId) (seqZ ds (de - ds + 1)).
Proof.
  intros Htz. rewrite buildLockIds_days, !localDay_localMidnight.
  rewrite zoneShift_west by assumption.
  apply map_ext. intros x. now rewrite Z.add_0_r.
Qed.

Lemma buildLockIds_east ds de :
  0 < tz <= msPerDay ->
  buildLockIds tz itemId (localMidnight tz ds) (localMidnight tz de) =
    map (fun x => keyOfDay itemId (x - 1)) (seqZ ds (de - ds + 1)).
Proof.
  intros Htz. rewrite buildLockIds_days, !localDay_localMidnight.
  rewrite zoneShift_east by assumption. reflexivity.
Qed.

End LockIdFacts.

(** ** The date precheck and the availability policies *)
Section PolicyFacts.
Import Validators BookingManager.

Lemma includes_In days d : includes days d = true <-> In d days.
Proof.
  unfold includes. rewrite existsb_exists. split.
  - intros (x & Hx & E). apply Z.eqb_eq in E. now subst.
  - intros H. exists d. split; [assumption | apply Z.eqb_refl].
Qed.

Lemma validTime_utcDay t : validTime t -> validDay (utcDay t).
Proof.
  unfold validTime, validDay, utcDay. intros [H1 H2].
  assert (E : maxDay * msPerDay = msPerDay * maxDay) by apply Z.mul_comm.
  split.
  - apply Z.div_le_lower_bound; [reflexivity |].
    rewrite Z.mul_opp_r, <- E. exact H1.
  - apply Z.div_le_upper_bound; [reflexivity |].
    rewrite <- E. exact H2.
Qed.

(** Two local midnights have the same ISO date exactly when they are
    the same day. *)
Lemma toISODate_localMidnight_eqb tz ds de :
  validTime (localMidnight tz ds) -> validTime (localMidnight tz de) ->
  String.eqb (toISODate (localMidnight tz ds)) (toISODate (localMidnight tz de))
  = (ds =? de).
Proof.
  intros Vs Ve. apply validTime_utcDay in Vs, Ve.
  destruct (Z.eqb_spec ds de) as [E | Hne].
  - rewrite E. apply String.eqb_refl.
  - apply String.eqb_neq. intros H. apply Hne.
    rewrite !toISODate_utcDay in H.
    pose proof (isoOfDay_inj _ _ Vs Ve H) as E.
    rewrite !utcDay_localMidnight in E.
    apply Z.add_cancel_r in E. exact E.
Qed.

(** C6.  [validateBookingDates] rejects exactly when the start is
    before today's local midnight or the end is before the start, so a
    range of one day passes; on the days of the booking form this
    reads: the start day is before the current day, or the end day
    before the start day.  In [submitBookingRequest] a rejection by
    this precheck ends the call with the precheck's message before the
    item's availability is looked at and before any lock document is
    read, whatever the availability and the store. *)
Theorem precheck_first :
  (forall tz now startDate endDate,
      valid (validateBookingDates tz now startDate endDate) = false
      <-> (startDate < setHours0 tz now \/ endDate < startDate))
  /\ (forall tz now ds de,
      valid (validateBookingDates tz now (localMidnight tz ds)
               (localMidnight tz de)) = false
      <-> (ds < localDay tz now \/ de < ds))
  /\ (forall tz now d,
      localDay tz now <= d ->
      validateBookingDates tz now (localMidnight tz d) (localMidnight tz d)
      = ok)
  /\ (forall e s st user item ds de m,
      currentUser s = Some user ->
      currentItemData s = Some item ->
      item_ownerId item <> uid user ->
      bookingStartDate s = Some ds ->
      bookingEndDate s = Some de ->
      validateBookingDates (tz e) (now e) (localMidnight (tz e) ds)
        (localMidnight (tz e) de) = invalid m ->
      submitBookingRequest e s st
      = {| alert := m; reads := []; after := st |}).
Proof.
  assert (P1 : forall tz now startDate endDate,
      valid (validateBookingDates tz now startDate endDate) = false
      <-> (startDate < setHours0 tz now \/ endDate < startDate)).
  { intros tz now s e. unfold validateBookingDates.
    destruct (Z.ltb_spec s (setHours0 tz now));
      [| destruct (Z.ltb_spec e s)]; cbn [valid]; split; intros H';
      try reflexivity; try discriminate; lia. }
  assert (P2 : forall tz now ds de,
      valid (validateBookingDates tz now (localMidnight tz ds)
               (localMidnight tz de)) = false
      <-> (ds < localDay tz now \/ de < ds)).
  { intros tz now ds de. rewrite P1. unfold setHours0.
    now rewrite !localMidnight_lt. }
  split; [exact P1 |]. split; [exact P2 |]. split.
  - intros tz now d Hd.
    destruct (validateBookingDates tz now (localMidnight tz d)
                (localMidnight tz d)) eqn:E; [reflexivity |].
    assert (H : valid (validateBookingDates tz now (localMidnight tz d)
                         (localMidnight tz d)) = false) by now rewrite E.
    apply P2 in H. lia.
  - intros e s st user item ds de m Hu Hi Hown Hs He Hv.
    unfold submitBookingRequest, checkRequest.
    rewrite Hu, Hi, Hs, He, Hv.
    apply String.eqb_neq in Hown. now rewrite Hown.
Qed.

(** A request made yesterday's date from UTC+8: the precheck's message
    is the whole outcome. *)
Lemma precheck_first_witness :
  submitBookingRequest
    {| tz := Fixtures.tzTaipei;
       now := localMidnight Fixtures.tzTaipei (Fixtures.day 2025 6 10) + 1000;
       timestampNow := 0; serverTime := 0; newId := "b1";
       readsOk := true; commitOk := true |}
    {| currentUser := Some Fixtures.bob; currentItemId := "item1";
       currentItemData := Some (Fixtures.itemWith (Some Fixtures.tuesdays));
       bookingStartDate := Some (Fixtures.day 2025 6 9);
       bookingEndDate := Some (Fixtures.day 2025 6 9) |}
    Fixtures.emptyStore
  = {| alert := Text "Start date cannot be in the past"; reads := [];
       after := Fixtures.emptyStore |}.
Proof.
  apply (proj2 (proj2 (proj2 precheck_first))) with
    (user := Fixtures.bob)
    (item := Fixtures.itemWith (Some Fixtures.tuesdays))
    (ds := Fixtures.day 2025 6 9) (de := Fixtures.day 2025 6 9).
  - reflexivity.
  - reflexivity.
  - vm_compute. discriminate.
  - reflexivity.
  - reflexivity.
  - vm_compute. reflexivity.
Defined.

End PolicyFacts.

Section RecurringFacts.
Import Validators BookingManager.

Lemma includes_false days d : includes days d = false <-> ~ In d days.
Proof.
  rewrite <- includes_In. destruct (includes days d); split; intros H;
    try reflexivity; try discriminate; try (intros ?; discriminate).
  exfalso. now apply H.
Qed.

(** The recurring policy in a zone of one offset [tz].  A request for
    the days [ds] to [de] of the booking form: both evaluators (the
    block in [submitBookingRequest] and [validateAvailability]) accept
    exactly when the request is for one day whose weekday is among the
    policy's days; a request over several days is refused with the
    same-day message whatever the weekdays, and a one-day request on
    another weekday with the weekday message. *)
Lemma recurring_policy tz item av ds de :
  item_availability item = Some av ->
  av_type av = Some "recurring" ->
  validTime (localMidnight tz ds) ->
  validTime (localMidnight tz de) ->
  (availabilityAlert tz item (localMidnight tz ds) (localMidnight tz de) = None
   <-> ds = de /\ In ((ds + 4) mod 7) (default [] (av_daysOfWeek av)))
  /\ (ds <> de ->
      availabilityAlert tz item (localMidnight tz ds) (localMidnight tz de)
      = Some (msgSameDayOnly (default [] (av_daysOfWeek av))))
  /\ (ds = de -> ~ In ((ds + 4) mod 7) (default [] (av_daysOfWeek av)) ->
      availabilityAlert tz item (localMidnight tz ds) (localMidnight tz de)
      = Some (msgWrongDay (default [] (av_daysOfWeek av)) ((ds + 4) mod 7)))
  /\ (validateAvailability tz item (localMidnight tz ds) (localMidnight tz de)
      = ok
      <-> ds = de /\ In ((ds + 4) mod 7) (default [] (av_daysOfWeek av)))
  /\ (ds <> de ->
      validateAvailability tz item (localMidnight tz ds) (localMidnight tz de)
      = invalid (Text "Recurring availability items can only be booked for same-day use"))
  /\ (ds = de -> ~ In ((ds + 4) mod 7) (default [] (av_daysOfWeek av)) ->
      validateAvailability tz item (localMidnight tz ds) (localMidnight tz de)
      = invalid (Text ("Item is only available on: "
                       +:+ availableDayNames (default [] (av_daysOfWeek av))))).
Proof.
  intros Hav Hty Vs Ve.
  set (days := default [] (av_daysOfWeek av)).
  assert (A : availabilityAlert tz item (localMidnight tz ds)
                (localMidnight tz de)
              = if negb (ds =? de) then Some (msgSameDayOnly days)
                else if negb (includes days ((ds + 4) mod 7))
                     then Some (msgWrongDay days ((ds + 4) mod 7))
                     else None).
  { unfold availabilityAlert. rewrite Hav, Hty.
    change (strictEq (Some "recurring") "dateRange") with false.
    change (strictEq (Some "recurring") "recurring") with true.
    cbv iota zeta.
    rewrite toISODate_localMidnight_eqb by assumption.
    now rewrite getDay_localMidnight. }
  assert (B : validateAvailability tz item (localMidnight tz ds)
                (localMidnight tz de)
              = if negb (ds =? de)
                then invalid (Text "Recurring availability items can only be booked for same-day use")
                else if negb (includes days ((ds + 4) mod 7))
                     then invalid (Text ("Item is only available on: "
                                         +:+ availableDayNames days))
                     else ok).
  { unfold validateAvailability. cbv zeta. rewrite Hav.
    cbn [from_option id]. rewrite Hty.
    change (strictEq (Some "recurring") ALWAYS) with false.
    change (strictEq (Some "recurring") DATE_RANGE) with false.
    change (strictEq (Some "recurring") RECURRING) with true.
    cbv iota zeta.
    now rewrite !localDay_localMidnight, getDay_localMidnight. }
  rewrite A, B. clear A B.
  destruct (Z.eqb_spec ds de) as [E | E]; cbn [negb];
    destruct (includes days ((ds + 4) mod 7)) eqn:I; cbn [negb];
    [ apply includes_In in I | apply includes_false in I
    | apply includes_In in I | apply includes_false in I ];
    intuition (try discriminate; try congruence).
Qed.

(** Tuesday 2025-06-10 on a Tuesdays-only item, seen from UTC+8. *)
Lemma recurring_policy_witness :
  availabilityAlert Fixtures.tzTaipei (Fixtures.itemWith (Some Fixtures.tuesdays))
    (localMidnight Fixtures.tzTaipei (Fixtures.day 2025 6 10))
    (localMidnight Fixtures.tzTaipei (Fixtures.day 2025 6 10)) = None.
Proof.
  apply (proj1 (recurring_policy Fixtures.tzTaipei
                  (Fixtures.itemWith (Some Fixtures.tuesdays))
                  Fixtures.tuesdays (Fixtures.day 2025 6 10)
                  (Fixtures.day 2025 6 10)
                  eq_refl eq_refl
                  ltac:(vm_compute; split; discriminate)
                  ltac:(vm_compute; split; discriminate))).
  split; [reflexivity | vm_compute; left; reflexivity].
Defined.

End RecurringFacts.

Section DateRangeFacts.
Import Validators BookingManager.

Lemma strictEq_ne x s : x <> Some s -> strictEq x s = false.
Proof.
  destruct x as [y |]; [| reflexivity]. intros H. cbn [strictEq].
  apply String.eqb_neq. congruence.
Qed.



(** The order of the two checks: a request for 2025-06-05 to
    2025-06-25 on the window 2025-06-10 to 2025-06-20 breaks both
    bounds, and both evaluators answer with the refusal of the first,
    "available from". *)
Example dateRange_first_refusal :
  av_endDate (Fixtures.window Fixtures.tzNewYork)
  = Some (localMidnight Fixtures.tzNewYork (Fixtures.day 2025 6 20))
  /\ localMidnight Fixtures.tzNewYork (Fixtures.day 2025 6 20)
     < localMidnight Fixtures.tzNewYork (Fixtures.day 2025 6 25)
  /\ availabilityAlert Fixtures.tzNewYork
       (Fixtures.itemWith (Some (Fixtures.window Fixtures.tzNewYork)))
       (localMidnight Fixtures.tzNewYork (Fixtures.day 2025 6 5))
       (localMidnight Fixtures.tzNewYork (Fixtures.day 2025 6 25))
     <> Some (AvailableUntil
                (localMidnight Fixtures.tzNewYork (Fixtures.day 2025 6 20)))
  /\ validateAvailability Fixtures.tzNewYork
       (Fixtures.itemWith (Some (Fixtures.window Fixtures.tzNewYork)))
       (localMidnight Fixtures.tzNewYork (Fixtures.day 2025 6 5))
       (localMidnight Fixtures.tzNewYork (Fixtures.day 2025 6 25))
     <> invalid (AvailableUntil
                   (localMidnight Fixtures.tzNewYork (Fixtures.day 2025 6 20))).
Proof. vm_compute. repeat split; discriminate. Qed.

(** C10.  An item without an availability, or with one whose type is
    none of the three known: the block in [submitBookingRequest] lets
    every request pass, while [validateAvailability] answers "Unknown
    availability type" for the same item.  A request on such an item
    that passes the date precheck therefore goes on to the conflict
    check: it reads the lock documents of its days, and is committed
    when none exists and the store answers. *)
Theorem unknown_availability_unrestricted :
  (forall tz item startDate endDate,
      (item_availability item = None
       \/ exists av, item_availability item = Some av
                     /\ av_type av <> Some "always"
                     /\ av_type av <> Some "dateRange"
                     /\ av_type av <> Some "recurring") ->
      availabilityAlert tz item startDate endDate = None
      /\ validateAvailability tz item startDate endDate
         = invalid (Text "Unknown availability type"))
  /\ (forall e s st user item ds de,
      currentUser s = Some user ->
      currentItemData s = Some item ->
      item_ownerId item <> uid user ->
      bookingStartDate s = Some ds ->
      bookingEndDate s = Some de ->
      validateBookingDates (tz e) (now e) (localMidnight (tz e) ds)
        (localMidnight (tz e) de) = ok ->
      (item_availability item = None
       \/ exists av, item_availability item = Some av
                     /\ av_type av <> Some "always"
                     /\ av_type av <> Some "dateRange"
                     /\ av_type av <> Some "recurring") ->
      reads (submitBookingRequest e s st)
      = buildLockIds (tz e) (currentItemId s) (localMidnight (tz e) ds)
          (localMidnight (tz e) de)
      /\ (readsOk e = true -> commitOk e = true ->
          existingLocks st (reads (submitBookingRequest e s st)) = [] ->
          alert (submitBookingRequest e s st) = msgSubmitted)).
Proof.
  assert (P : forall tz item startDate endDate,
      (item_availability item = None
       \/ exists av, item_availability item = Some av
                     /\ av_type av <> Some "always"
                     /\ av_type av <> Some "dateRange"
                     /\ av_type av <> Some "recurring") ->
      availabilityAlert tz item startDate endDate = None
      /\ validateAvailability tz item startDate endDate
         = invalid (Text "Unknown availability type")).
  { intros tz item startDate endDate [H | (av & H & Ha & Hd & Hr)];
      unfold availabilityAlert, validateAvailability; cbv zeta; rewrite H;
      [split; reflexivity |].
    cbn [from_option id]. unfold ALWAYS, DATE_RANGE, RECURRING.
    now rewrite !strictEq_ne by assumption. }
  split; [exact P |].
  intros e s st user item ds de Hu Hi Hown Hs He Hv Hav.
  destruct (P (tz e) item (localMidnight (tz e) ds) (localMidnight (tz e) de) Hav)
    as [Hal _].
  unfold submitBookingRequest, checkRequest.
  rewrite Hu, Hi, Hs, He, Hv, Hal.
  apply String.eqb_neq in Hown. rewrite Hown. cbv zeta.
  destruct (readsOk e); cbn [negb]; [| split; [reflexivity | discriminate]].
  destruct (existingLocks st _) eqn:X; [| split; [reflexivity |]].
  - unfold commitRequest. destruct (commitOk e); cbn [negb reads alert];
      (split; [reflexivity |]); intros; try reflexivity; discriminate.
  - cbn [reads]. intros _ _ X'. rewrite X' in X. discriminate.
Qed.

(** A request on an item of the unknown type "weekly": committed,
    where [validateAvailability] would refuse. *)
Lemma unknown_availability_unrestricted_witness :
  alert (submitBookingRequest
    {| tz := Fixtures.tzNewYork;
       now := localMidnight Fixtures.tzNewYork (Fixtures.day 2025 6 1);
       timestampNow := 0; serverTime := 0; newId := "b1";
       readsOk := true; commitOk := true |}
    {| currentUser := Some Fixtures.bob; currentItemId := "item1";
       currentItemData := Some (Fixtures.itemWith (Some Fixtures.weekly));
       bookingStartDate := Some (Fixtures.day 2025 6 10);
       bookingEndDate := Some (Fixtures.day 2025 6 12) |}
    Fixtures.emptyStore) = msgSubmitted.
Proof.
  apply (proj2 unknown_availability_unrestricted) with
    (user := Fixtures.bob)
    (item := Fixtures.itemWith (Some Fixtures.weekly))
    (ds := Fixtures.day 2025 6 10) (de := Fixtures.day 2025 6 12).
  - reflexivity.
  - reflexivity.
  - vm_compute. discriminate.
  - reflexivity.
  - reflexivity.
  - vm_compute. reflexivity.
  - right. exists Fixtures.weekly. vm_compute. repeat split; discriminate.
  - reflexivity.
  - reflexivity.
  - vm_compute. reflexivity.
Defined.

End DateRangeFacts.

(** ** One call of [submitBookingRequest] and the store *)
Section SubmitFacts.
Import Validators BookingManager.

(** The lock collection after the batch: a queued identifier maps to
    its new lock, any other identifier is as before. *)
Lemma locks_after_batch (f : string -> Lock) (ids : list string) :
  forall (m : gmap string Lock) (id : string),
    fold_left (fun locks i => <[ i := f i ]> locks) ids m !! id
    = if decide (id ∈ ids) then Some (f id) else m !! id.
Proof.
  induction ids as [| i ids IH]; intros m id; cbn [fold_left].
  - rewrite decide_False by apply not_elem_of_nil. reflexivity.
  - rewrite IH. destruct (decide (id ∈ ids)) as [Hin | Hout].
    + rewrite decide_True by (now apply list_elem_of_further). reflexivity.
    + destruct (decide (id = i)) as [-> | Hne].
      * rewrite decide_True by apply list_elem_of_here.
        apply lookup_insert_eq.
      * rewrite decide_False
          by (intros H; apply elem_of_cons in H as [? | ?]; contradiction).
        now apply lookup_insert_ne.
Qed.

Lemma existingLocks_nil st ids :
  existingLocks st ids = [] <-> forall id, id ∈ ids -> bookingLocks st !! id = None.
Proof.
  unfold existingLocks. induction ids as [| i ids IH].
  - split; [intros _ id H; now apply not_elem_of_nil in H | reflexivity].
  - rewrite filter_cons. destruct (decide (is_Some (bookingLocks st !! i))) as [Hi | Hi].
    + split; [discriminate |]. intros H.
      specialize (H i (list_elem_of_here _ _)). rewrite H in Hi.
      now destruct Hi.
    + rewrite IH. apply eq_None_not_Some in Hi. split.
      * intros H id Hin. apply elem_of_cons in Hin as [-> | Hin]; auto.
      * intros H id Hin. apply H. now apply list_elem_of_further.
Qed.

(** No alert of a call that ends before the commit is the success
    message. *)
Lemma ended_not_submitted e s st m rd :
  checkRequest e s st = Ended m rd -> m <> msgSubmitted.
Proof.
  unfold checkRequest.
  destruct (currentUser s) as [user |]; [| intros [= <- _]; discriminate].
  destruct (currentItemData s) as [item |]; [| intros [= <- _]; discriminate].
  destruct (String.eqb _ _); [intros [= <- _]; discriminate |].
  destruct (bookingStartDate s) as [ds |]; [| intros [= <- _]; discriminate].
  destruct (bookingEndDate s) as [de |]; [| intros [= <- _]; discriminate].
  unfold validateBookingDates.
  destruct (_ <? _); [intros [= <- _]; discriminate |].
  destruct (_ <? _); [intros [= <- _]; discriminate |].
  destruct (availabilityAlert _ _ _ _) as [m' |] eqn:A.
  - intros [= <- _]. revert A. unfold availabilityAlert.
    destruct (item_availability item) as [av |]; [| discriminate].
    destruct (strictEq (av_type av) "dateRange").
    + destruct (av_startDate av); [destruct (_ <? _) |];
        try (intros [= <-]; discriminate);
        (destruct (av_endDate av); [destruct (_ <? _) |]);
        try discriminate; intros [= <-]; discriminate.
    + destruct (strictEq (av_type av) "recurring"); [| discriminate].
      cbv zeta. destruct (negb _); [intros [= <-]; discriminate |].
      destruct (negb _); [intros [= <-]; discriminate | discriminate].
  - cbv zeta. destruct (negb (readsOk e)); [intros [= <- _]; discriminate |].
    destruct (existingLocks _ _); [discriminate |].
    intros [= <- _]; discriminate.
Qed.

(** The success message is shown exactly when the checks pass and the
    commit goes through. *)
Lemma submitted_iff e s st :
  alert (submitBookingRequest e s st) = msgSubmitted
  <-> exists b, checkRequest e s st = Ready b /\ commitOk e = true.
Proof.
  unfold submitBookingRequest. destruct (checkRequest e s st) as [m rd | b] eqn:C.
  - split.
    + intros H. cbn [alert] in H. now apply ended_not_submitted in C.
    + intros (b & Hb & _). discriminate.
  - unfold commitRequest. destruct (commitOk e); cbn [negb alert].
    + split; [intros _; eauto | reflexivity].
    + split; [discriminate | intros (b' & _ & H); discriminate].
Qed.

(** What a [Ready] batch holds. *)
Lemma checkRequest_Ready e s st b :
  checkRequest e s st = Ready b ->
  exists ds de,
    bookingStartDate s = Some ds /\ bookingEndDate s = Some de
    /\ currentUser s = Some (batch_user b)
    /\ currentItemData s = Some (batch_item b)
    /\ batch_startDate b = localMidnight (tz e) ds
    /\ batch_endDate b = localMidnight (tz e) de
    /\ batch_lockIds b
       = buildLockIds (tz e) (currentItemId s) (batch_startDate b)
           (batch_endDate b)
    /\ existingLocks st (batch_lockIds b) = [].
Proof.
  unfold checkRequest.
  destruct (currentUser s) as [user |]; [| discriminate].
  destruct (currentItemData s) as [item |]; [| discriminate].
  destruct (String.eqb _ _); [discriminate |].
  destruct (bookingStartDate s) as [ds |]; [| discriminate].
  destruct (bookingEndDate s) as [de |]; [| discriminate].
  destruct (validateBookingDates _ _ _ _); [| discriminate].
  destruct (availabilityAlert _ _ _ _); [discriminate |].
  cbv zeta. destruct (negb (readsOk e)); [discriminate |].
  destruct (existingLocks _ _) eqn:X; [| discriminate].
  intros [= <-]. cbn. exists ds, de. repeat split; assumption.
Qed.

(** The store after a commit that goes through. *)
Lemma committed_store e s st b :
  checkRequest e s st = Ready b -> commitOk e = true ->
  alert (submitBookingRequest e s st) = msgSubmitted
  /\ bookings (after (submitBookingRequest e s st))
     = <[ newId e :=
            newBooking e (batch_user b) (currentItemId s) (batch_item b)
              (batch_startDate b) (batch_endDate b) (batch_lockIds b) ]>
         (bookings st)
  /\ (forall id, id ∈ batch_lockIds b ->
        bookingLocks st !! id = None
        /\ bookingLocks (after (submitBookingRequest e s st)) !! id
           = Some (newLock e (newId e) (currentItemId s) (batch_item b) id))
  /\ (forall id, id ∉ batch_lockIds b ->
        bookingLocks (after (submitBookingRequest e s st)) !! id
        = bookingLocks st !! id).
Proof.
  intros C K.
  pose proof (checkRequest_Ready _ _ _ _ C)
    as (ds & de & _ & _ & _ & _ & _ & _ & _ & X).
  unfold submitBookingRequest, commitRequest. rewrite C, K.
  cbn [negb alert after applyBatch bookings bookingLocks].
  split; [reflexivity |]. split; [reflexivity |]. split.
  - intros id Hin. split.
    + now apply (proj1 (existingLocks_nil st _) X).
    + rewrite locks_after_batch. now rewrite decide_True.
  - intros id Hout. rewrite locks_after_batch. now rewrite decide_False.
Qed.

(** C2.  One call either leaves the store as it was, or creates the
    booking and every one of its locks.  It leaves the store as it was
    whenever it ends before the commit (self-booking, date precheck,
    availability, conflict, failed reads) and whenever the commit
    fails; the alert is then not the success message.  When the commit
    goes through, the booking is stored under the new identifier,
    every lock identifier of the batch was free and now holds the lock
    of this booking, and no other lock document changes. *)
Theorem submit_all_or_nothing e s st :
  (forall m rd, checkRequest e s st = Ended m rd ->
     submitBookingRequest e s st = {| alert := m; reads := rd; after := st |}
     /\ m <> msgSubmitted)
  /\ (forall b, checkRequest e s st = Ready b -> commitOk e = false ->
        submitBookingRequest e s st
        = {| alert := msgFailed; reads := batch_lockIds b; after := st |})
  /\ (forall b, checkRequest e s st = Ready b -> commitOk e = true ->
        alert (submitBookingRequest e s st) = msgSubmitted
        /\ bookings (after (submitBookingRequest e s st))
           = <[ newId e :=
                  newBooking e (batch_user b) (currentItemId s) (batch_item b)
                    (batch_startDate b) (batch_endDate b) (batch_lockIds b) ]>
               (bookings st)
        /\ (forall id, id ∈ batch_lockIds b ->
              bookingLocks st !! id = None
              /\ bookingLocks (after (submitBookingRequest e s st)) !! id
                 = Some (newLock e (newId e) (currentItemId s) (batch_item b) id))
        /\ (forall id, id ∉ batch_lockIds b ->
              bookingLocks (after (submitBookingRequest e s st)) !! id
              = bookingLocks st !! id))
  /\ (after (submitBookingRequest e s st) = st
      \/ alert (submitBookingRequest e s st) = msgSubmitted).
Proof.
  split; [| split; [| split]].
  - intros m rd C. unfold submitBookingRequest. rewrite C.
    split; [reflexivity |]. now apply ended_not_submitted in C.
  - intros b C K. unfold submitBookingRequest, commitRequest.
    now rewrite C, K.
  - intros b C K. now apply committed_store.
  - unfold submitBookingRequest, commitRequest.
    destruct (checkRequest e s st) as [m rd | b]; [now left |].
    destruct (commitOk e); cbn [negb alert after]; [now right | now left].
Qed.

(** Bob's request for 2025-06-10 to 2025-06-12 on an empty store: the
    booking "b1" and its three locks are there afterwards. *)
Lemma submit_all_or_nothing_witness :
  alert (submitBookingRequest (Fixtures.envOn Fixtures.tzNewYork "b1")
           (Fixtures.request Fixtures.bob "item1" (Some Fixtures.always)
              (Fixtures.day 2025 6 10) (Fixtures.day 2025 6 12))
           Fixtures.emptyStore) = msgSubmitted
  /\ forall id,
       id ∈ ["item1_2025-06-10"; "item1_2025-06-11"; "item1_2025-06-12"] ->
       lock_bookingId <$>
         (bookingLocks
            (after (submitBookingRequest (Fixtures.envOn Fixtures.tzNewYork "b1")
                      (Fixtures.request Fixtures.bob "item1"
                         (Some Fixtures.always)
                         (Fixtures.day 2025 6 10) (Fixtures.day 2025 6 12))
                      Fixtures.emptyStore)) !! id)
       = Some "b1".
Proof.
  destruct (submit_all_or_nothing (Fixtures.envOn Fixtures.tzNewYork "b1")
              (Fixtures.request Fixtures.bob "item1" (Some Fixtures.always)
                 (Fixtures.day 2025 6 10) (Fixtures.day 2025 6 12))
              Fixtures.emptyStore) as (_ & _ & H & _).
  destruct (H {| batch_user := Fixtures.bob;
                 batch_item := Fixtures.itemWith (Some Fixtures.always);
                 batch_startDate :=
                   localMidnight Fixtures.tzNewYork (Fixtures.day 2025 6 10);
                 batch_endDate :=
                   localMidnight Fixtures.tzNewYork (Fixtures.day 2025 6 12);
                 batch_lockIds :=
                   ["item1_2025-06-10"; "item1_2025-06-11";
                    "item1_2025-06-12"] |})
    as (Ha & _ & Hl & _).
  - vm_compute. reflexivity.
  - reflexivity.
  - split; [exact Ha |]. intros id Hin.
    destruct (Hl id Hin) as [_ ->]. reflexivity.
Defined.

End SubmitFacts.

Section LockRecordFacts.
Import Validators BookingManager.

(** The lock documents of a call that went through (item identifier
    without an underscore): the stored booking is pending, its
    [lockIds] are [buildLockIds] of its own dates, and under every one
    of them lies a lock that refers to this booking and whose [date]
    is the ISO date the identifier ends with. *)
Lemma submit_lock_records e s st :
  hasChar "_" (currentItemId s) = false ->
  alert (submitBookingRequest e s st) = msgSubmitted ->
  exists b,
    bookings (after (submitBookingRequest e s st)) !! newId e = Some b
    /\ bk_status b = Some "pending"
    /\ bk_lockIds b
       = buildLockIds (tz e) (currentItemId s) (bk_startDate b) (bk_endDate b)
    /\ forall id, id ∈ bk_lockIds b ->
         exists n lock,
           id = keyOfDay (currentItemId s) n
           /\ bookingLocks (after (submitBookingRequest e s st)) !! id
              = Some lock
           /\ lock_bookingId lock = newId e
           /\ lock_itemId lock = currentItemId s
           /\ lock_date lock = Some (isoOfDay n).
Proof.
  intros Hid Hok. apply submitted_iff in Hok as (b0 & C & K).
  destruct (committed_store e s st b0 C K) as (_ & Hb & Hl & _).
  pose proof (checkRequest_Ready _ _ _ _ C)
    as (ds & de & _ & _ & _ & _ & _ & _ & Hids & _).
  eexists. split; [rewrite Hb; apply lookup_insert_eq |].
  cbn [newBooking bk_status bk_lockIds bk_startDate bk_endDate].
  split; [reflexivity |]. split; [exact Hids |].
  intros id Hin. destruct (Hl id Hin) as [_ Hlock].
  rewrite Hids in Hin. apply buildLockIds_elem in Hin as [n ->].
  exists n. eexists. split; [reflexivity |]. split; [exact Hlock |].
  cbn [newLock lock_bookingId lock_itemId lock_date].
  split; [reflexivity |]. split; [reflexivity |].
  unfold keyOfDay. rewrite split_two; [reflexivity | assumption |].
  apply isoOfDay_no_underscore.
Qed.

(** Bob books item "item1" for 2025-06-10 to 2025-06-12. *)
Lemma submit_lock_records_witness :
  exists b,
    bookings (after (submitBookingRequest (Fixtures.envOn Fixtures.tzNewYork "b1")
                       (Fixtures.request Fixtures.bob "item1"
                          (Some Fixtures.always)
                          (Fixtures.day 2025 6 10) (Fixtures.day 2025 6 12))
                       Fixtures.emptyStore))
      !! "b1" = Some b
    /\ bk_lockIds b
       = ["item1_2025-06-10"; "item1_2025-06-11"; "item1_2025-06-12"].
Proof.
  destruct (submit_lock_records (Fixtures.envOn Fixtures.tzNewYork "b1")
              (Fixtures.request Fixtures.bob "item1" (Some Fixtures.always)
                 (Fixtures.day 2025 6 10) (Fixtures.day 2025 6 12))
              Fixtures.emptyStore)
    as (b & Hb & _ & _ & _).
  - reflexivity.
  - vm_compute. reflexivity.
  - exists b. split; [exact Hb |].
    vm_compute in Hb. injection Hb as <-. reflexivity.
Defined.

(** C7.  Bob books the single day 2025-06-10 of item "item1" from
    UTC+8.  The call goes through and stores the booking of that day;
    the one lock identifier it stores, the key of the one lock
    document it writes and that document's [date] all name
    2025-06-09, the day before the booked day, and no lock lies under
    the key of 2025-06-10. *)
Theorem submit_locks_name_previous_day :
  exists b lock,
    alert (submitBookingRequest (Fixtures.envOn Fixtures.tzTaipei "b1")
             (Fixtures.request Fixtures.bob "item1" (Some Fixtures.always)
                (Fixtures.day 2025 6 10) (Fixtures.day 2025 6 10))
             Fixtures.emptyStore) = msgSubmitted
    /\ bookings
         (after (submitBookingRequest (Fixtures.envOn Fixtures.tzTaipei "b1")
                   (Fixtures.request Fixtures.bob "item1"
                      (Some Fixtures.always)
                      (Fixtures.day 2025 6 10) (Fixtures.day 2025 6 10))
                   Fixtures.emptyStore)) !! "b1" = Some b
    /\ localDay Fixtures.tzTaipei (bk_startDate b) = Fixtures.day 2025 6 10
    /\ localDay Fixtures.tzTaipei (bk_endDate b) = Fixtures.day 2025 6 10
    /\ keyOfDay "item1" (Fixtures.day 2025 6 10) = "item1_2025-06-10"
    /\ bk_lockIds b = ["item1_2025-06-09"]
    /\ bookingLocks
         (after (submitBookingRequest (Fixtures.envOn Fixtures.tzTaipei "b1")
                   (Fixtures.request Fixtures.bob "item1"
                      (Some Fixtures.always)
                      (Fixtures.day 2025 6 10) (Fixtures.day 2025 6 10))
                   Fixtures.emptyStore)) !! "item1_2025-06-09" = Some lock
    /\ lock_bookingId lock = "b1"
    /\ lock_date lock = Some "2025-06-09"
    /\ bookingLocks
         (after (submitBookingRequest (Fixtures.envOn Fixtures.tzTaipei "b1")
                   (Fixtures.request Fixtures.bob "item1"
                      (Some Fixtures.always)
                      (Fixtures.day 2025 6 10) (Fixtures.day 2025 6 10))
                   Fixtures.emptyStore)) !! "item1_2025-06-10" = None.
Proof.
  set (r := submitBookingRequest _ _ _).
  assert (B : exists b, bookings (after r) !! "b1" = Some b)
    by (vm_compute; eauto).
  destruct B as [b Hb].
  assert (L : exists lock,
             bookingLocks (after r) !! "item1_2025-06-09" = Some lock)
    by (vm_compute; eauto).
  destruct L as [lock Hl].
  exists b, lock. split; [vm_compute; reflexivity |]. split; [exact Hb |].
  vm_compute in Hb. injection Hb as <-.
  vm_compute in Hl. injection Hl as <-.
  vm_compute. repeat split; reflexivity.
Qed.

(** C3 at a zone east of UTC.  From UTC+8 the identifiers for
    2024-12-04 to 2024-12-06 (the dates as the booking form passes
    them, local midnights) name 2024-12-03 to 2024-12-05; and on the
    dates [new Date('2024-12-04')] of the repository's own test, read
    in UTC-5, the one identifier names 2024-12-03. *)
Theorem buildLockIds_off_by_one_day :
  buildLockIds Fixtures.tzTaipei "item456"
    (localMidnight Fixtures.tzTaipei (Fixtures.day 2024 12 4))
    (localMidnight Fixtures.tzTaipei (Fixtures.day 2024 12 6))
  = ["item456_2024-12-03"; "item456_2024-12-04"; "item456_2024-12-05"]
  /\ buildLockIds Fixtures.tzNewYork "item123"
       (Fixtures.day 2024 12 4 * msPerDay) (Fixtures.day 2024 12 4 * msPerDay)
     = ["item123_2024-12-03"].
Proof. vm_compute. split; reflexivity. Qed.

Example buildLockIds_new_york :
  buildLockIds Fixtures.tzNewYork "item456"
    (localMidnight Fixtures.tzNewYork (Fixtures.day 2024 12 4))
    (localMidnight Fixtures.tzNewYork (Fixtures.day 2024 12 6))
  = ["item456_2024-12-04"; "item456_2024-12-05"; "item456_2024-12-06"].
Proof. vm_compute. reflexivity. Qed.

End LockRecordFacts.

(** ** Accepting, declining and grouping bookings *)
Section LifecycleFacts.
Import ItemManager.

(** C8, as the code has it.  [handleBookingAction] acts for any
    signed-in user on any stored booking, whatever its owner and its
    current status: with the target "accepted" or "declined" it sets
    the status to the target and adds the entry (target, time, user)
    to the status history, unless that very entry is already there;
    nothing else of the booking changes but [updatedAt].  With another
    target, or without a user, it does nothing. *)
Theorem handleBookingAction_effect e user bookingId newStatus st b :
  newStatus = "accepted" \/ newStatus = "declined" ->
  bookings st !! bookingId = Some b ->
  updateOk e = true ->
  exists b',
    handleBookingAction e (Some user) bookingId newStatus st
    = (Some (msgUpdated newStatus),
       {| bookings := <[ bookingId := b' ]> (bookings st);
          bookingLocks := bookingLocks st |})
    /\ bk_status b' = Some newStatus
    /\ bk_statusHistory b'
       = (if decide ({| he_status := newStatus; he_at := timestampNow e;
                        he_by := uid user |} ∈ bk_statusHistory b)
          then bk_statusHistory b
          else (bk_statusHistory b
                ++ [ {| he_status := newStatus; he_at := timestampNow e;
                        he_by := uid user |} ])%list)
    /\ bk_itemId b' = bk_itemId b
    /\ bk_renterId b' = bk_renterId b
    /\ bk_ownerId b' = bk_ownerId b
    /\ bk_startDate b' = bk_startDate b
    /\ bk_endDate b' = bk_endDate b
    /\ bk_lockIds b' = bk_lockIds b.
Proof.
  intros Hst Hb Hok. exists (updated e user newStatus b).
  unfold handleBookingAction. rewrite Hb, Hok.
  assert (G : existsb (String.eqb newStatus) ["accepted"; "declined"] = true)
    by (destruct Hst as [-> | ->]; reflexivity).
  rewrite G. cbn [negb]. split; [reflexivity |].
  cbn [updated bk_status bk_statusHistory bk_itemId bk_renterId bk_ownerId
       bk_startDate bk_endDate bk_lockIds].
  repeat split. unfold arrayUnion.
  destruct (decide (_ ∈ bk_statusHistory b)) as [Hin | Hout].
  - now rewrite bool_decide_eq_true_2.
  - now rewrite bool_decide_eq_false_2.
Qed.

Lemma handleBookingAction_ignores e u bookingId newStatus st :
  (newStatus <> "accepted" /\ newStatus <> "declined") \/ u = None ->
  handleBookingAction e u bookingId newStatus st = (None, st).
Proof.
  unfold handleBookingAction. intros [[Ha Hd] | ->].
  - apply String.eqb_neq in Ha, Hd. cbn [existsb]. now rewrite Ha, Hd.
  - now destruct (negb _).
Qed.

(** Carol, who neither owns nor rents, accepts Bob's declined
    booking. *)
Lemma handleBookingAction_effect_witness :
  exists b',
    fst (handleBookingAction
           {| timestampNow := 5; serverTime := 6; updateOk := true |}
           (Some Fixtures.carol) "b1" "accepted"
           (Fixtures.storeWith "b1" (Fixtures.pastBooking (Some "declined"))))
    = Some (msgUpdated "accepted")
    /\ bk_status b' = Some "accepted".
Proof.
  destruct (handleBookingAction_effect
              {| timestampNow := 5; serverTime := 6; updateOk := true |}
              Fixtures.carol "b1" "accepted"
              (Fixtures.storeWith "b1" (Fixtures.pastBooking (Some "declined")))
              (Fixtures.pastBooking (Some "declined")))
    as (b' & H & Hs & _).
  - left. reflexivity.
  - vm_compute. reflexivity.
  - reflexivity.
  - exists b'. split; [now rewrite H | exact Hs].
Defined.

(** C8 as stated lets only the owner act, and only on a pending
    booking.  Carol is not the owner and the booking is declined; the
    call succeeds and the stored booking is accepted, with two history
    entries. *)
Lemma handleBookingAction_counterexample :
  bk_ownerId (Fixtures.pastBooking (Some "declined")) <> uid Fixtures.carol
  /\ bk_status (Fixtures.pastBooking (Some "declined")) <> Some "pending"
  /\ fst (handleBookingAction
            {| timestampNow := 5; serverTime := 6; updateOk := true |}
            (Some Fixtures.carol) "b1" "accepted"
            (Fixtures.storeWith "b1" (Fixtures.pastBooking (Some "declined"))))
     = Some (msgUpdated "accepted")
  /\ bk_status <$>
       (bookings
          (snd (handleBookingAction
                  {| timestampNow := 5; serverTime := 6; updateOk := true |}
                  (Some Fixtures.carol) "b1" "accepted"
                  (Fixtures.storeWith "b1"
                     (Fixtures.pastBooking (Some "declined")))))
          !! "b1")
     = Some (Some "accepted")
  /\ (length ∘ bk_statusHistory) <$>
       (bookings
          (snd (handleBookingAction
                  {| timestampNow := 5; serverTime := 6; updateOk := true |}
                  (Some Fixtures.carol) "b1" "accepted"
                  (Fixtures.storeWith "b1"
                     (Fixtures.pastBooking (Some "declined")))))
          !! "b1")
     = Some 2%nat.
Proof. vm_compute. repeat split; try reflexivity; discriminate. Qed.

(** A second identical call in the same millisecond adds no entry. *)
Example arrayUnion_same_entry :
  arrayUnion {| he_status := "accepted"; he_at := 5; he_by := "alice" |}
    [ {| he_status := "pending"; he_at := 1; he_by := "bob" |};
      {| he_status := "accepted"; he_at := 5; he_by := "alice" |} ]
  = [ {| he_status := "pending"; he_at := 1; he_by := "bob" |};
      {| he_status := "accepted"; he_at := 5; he_by := "alice" |} ].
Proof. vm_compute. reflexivity. Qed.

Lemma statusOf_confirmed b :
  bk_status b = Some "confirmed" -> statusOf b = "accepted".
Proof. unfold statusOf. now intros ->. Qed.

(** The owner's view files a booking under [archived] when it is
    pending or accepted (also under the old label "confirmed") and
    ended before today; otherwise under its own status; a declined
    booking goes under [declined] whatever its dates. *)
Lemma ownerBookingsVisit_rule today g d :
  (statusOf (snd d) = "pending" \/ statusOf (snd d) = "accepted" ->
   bk_endDate (snd d) < today ->
   ownerBookingsVisit today g d = Some (push Archived d g))
  /\ (statusOf (snd d) = "pending" -> today <= bk_endDate (snd d) ->
      ownerBookingsVisit today g d = Some (push Pending d g))
  /\ (statusOf (snd d) = "accepted" -> today <= bk_endDate (snd d) ->
      ownerBookingsVisit today g d = Some (push Accepted d g))
  /\ (statusOf (snd d) = "declined" ->
      ownerBookingsVisit today g d = Some (push Declined d g)).
Proof.
  unfold ownerBookingsVisit. repeat split.
  - intros [-> | ->] H; apply Z.ltb_lt in H; now rewrite H.
  - intros -> H. apply Z.ltb_ge in H. now rewrite H.
  - intros -> H. apply Z.ltb_ge in H. now rewrite H.
  - now intros ->.
Qed.

(** The renter's view files a booking under its own status, whatever
    its dates. *)
Lemma myBookingsVisit_rule g d :
  (statusOf (snd d) = "pending" ->
   myBookingsVisit g d = Some (push Pending d g))
  /\ (statusOf (snd d) = "accepted" ->
      myBookingsVisit g d = Some (push Accepted d g))
  /\ (statusOf (snd d) = "declined" ->
      myBookingsVisit g d = Some (push Declined d g))
  /\ (statusOf (snd d) = "archived" ->
      myBookingsVisit g d = Some (push Archived d g)).
Proof. unfold myBookingsVisit. repeat split; now intros ->. Qed.

(** C9 on the renter's view.  On 2025-06-01 a pending booking that
    ended on 2025-05-03 is filed under [archived] by the owner's view
    and under [pending] by the renter's; likewise an accepted one
    stays under [accepted] for the renter. *)
Theorem renter_view_does_not_archive :
  loadOwnerBookings Fixtures.tzNewYork
    (localMidnight Fixtures.tzNewYork (Fixtures.day 2025 6 1) + 9 * msPerHour)
    [("b1", Fixtures.pastBooking (Some "pending"))]
  = Some {| pending := []; accepted := []; declined := [];
            archived := [("b1", Fixtures.pastBooking (Some "pending"))] |}
  /\ loadMyBookings [("b1", Fixtures.pastBooking (Some "pending"))]
     = Some {| pending := [("b1", Fixtures.pastBooking (Some "pending"))];
               accepted := []; declined := []; archived := [] |}
  /\ loadMyBookings [("b2", Fixtures.pastBooking (Some "confirmed"))]
     = Some {| pending := [];
               accepted := [("b2", Fixtures.pastBooking (Some "confirmed"))];
               declined := []; archived := [] |}.
Proof. vm_compute. repeat split; reflexivity. Qed.

End LifecycleFacts.

(** ** Two calls for the same item *)
Section RaceFacts.
Import Validators BookingManager.

Lemma sysStep_steps w x : steps x (sysStep w x).
Proof.
  destruct x as [st p q]. destruct w; cbn [sysStep sys_first sys_second sys_store].
  - destruct (procStep p st) as [[p' st'] |] eqn:E; [| apply steps_refl].
    eapply steps_next; [apply step_first; exact E | apply steps_refl].
  - destruct (procStep q st) as [[q' st'] |] eqn:E; [| apply steps_refl].
    eapply steps_next; [apply step_second; exact E | apply steps_refl].
Qed.

Lemma steps_trans x y z : steps x y -> steps y z -> steps x z.
Proof.
  induction 1 as [| x y' y Hxy _ IH]; [auto |].
  intros Hz. eapply steps_next; [exact Hxy | auto].
Qed.

(** Every schedule is a run of the system. *)
Lemma runSchedule_steps sched : forall x, steps x (runSchedule sched x).
Proof.
  induction sched as [| w rest IH]; intros x; cbn [runSchedule].
  - apply steps_refl.
  - eapply steps_trans; [apply sysStep_steps | apply IH].
Qed.

(** After a call that went through, no later call gets to commit a
    lock identifier of the stored booking. *)
Lemma later_request_cannot_share e1 s1 st b1 e2 s2 b2 id :
  checkRequest e1 s1 st = Ready b1 -> commitOk e1 = true ->
  checkRequest e2 s2 (after (submitBookingRequest e1 s1 st)) = Ready b2 ->
  id ∈ batch_lockIds b1 -> id ∉ batch_lockIds b2.
Proof.
  intros C1 K1 C2 Hin1 Hin2.
  destruct (committed_store e1 s1 st b1 C1 K1) as (_ & _ & Hl & _).
  destruct (Hl id Hin1) as [_ Hsome].
  pose proof (checkRequest_Ready _ _ _ _ C2)
    as (ds & de & _ & _ & _ & _ & _ & _ & _ & X).
  rewrite (proj1 (existingLocks_nil _ _) X id Hin2) in Hsome. discriminate.
Qed.

(** One call after the other: the second finds the lock of the shared
    day and is refused. *)
Example sequential_calls_conflict :
  sys_second
    (runSchedule [First; First; Second; Second]
       {| sys_store := Fixtures.emptyStore;
          sys_first :=
            Start (Fixtures.envOn Fixtures.tzNewYork "b1")
              (Fixtures.request Fixtures.bob "item1" (Some Fixtures.always)
                 (Fixtures.day 2025 6 10) (Fixtures.day 2025 6 12));
          sys_second :=
            Start (Fixtures.envOn Fixtures.tzNewYork "b2")
              (Fixtures.request Fixtures.carol "item1" (Some Fixtures.always)
                 (Fixtures.day 2025 6 12) (Fixtures.day 2025 6 14)) |})
  = Settled msgConflict.
Proof. vm_compute. reflexivity. Qed.

(** C1 under the interleaving check, check, commit, commit.  Bob asks
    for item "item1" from 2025-06-10 to 2025-06-12 and Carol from
    2025-06-12 to 2025-06-14.  Both calls read the locks before either
    commits: both end with the success message, both bookings are
    stored pending with the lock of 2025-06-12 among their [lockIds],
    and the one lock document of that day refers to the booking
    committed last. *)
Theorem interleaved_calls_both_succeed :
  exists final,
    steps
      {| sys_store := Fixtures.emptyStore;
         sys_first :=
           Start (Fixtures.envOn Fixtures.tzNewYork "b1")
             (Fixtures.request Fixtures.bob "item1" (Some Fixtures.always)
                (Fixtures.day 2025 6 10) (Fixtures.day 2025 6 12));
         sys_second :=
           Start (Fixtures.envOn Fixtures.tzNewYork "b2")
             (Fixtures.request Fixtures.carol "item1" (Some Fixtures.always)
                (Fixtures.day 2025 6 12) (Fixtures.day 2025 6 14)) |}
      final
    /\ sys_first final = Settled msgSubmitted
    /\ sys_second final = Settled msgSubmitted
    /\ liveClaimants (sys_store final) "item1_2025-06-12" ≡ₚ ["b1"; "b2"]
    /\ lock_bookingId <$> (bookingLocks (sys_store final) !! "item1_2025-06-12")
       = Some "b2".
Proof.
  eexists. split; [apply (runSchedule_steps [First; Second; First; Second]) |].
  vm_compute. repeat split; try reflexivity.
Qed.

End RaceFacts.

(** * Further properties *)

(** ** More on lock identifiers *)
Section LockIdMore.
Import Validators.

Lemma keyOfDay_split a n :
  hasChar "_" a = false -> split "_" (keyOfDay a n) = [a; isoOfDay n].
Proof.
  intros Ha. unfold keyOfDay. apply split_two; [assumption |].
  apply isoOfDay_no_underscore.
Qed.

Lemma validDay_between a b x : validDay a -> validDay b -> a <= x <= b -> validDay x.
Proof. unfold validDay. lia. Qed.

Lemma elem_of_buildLockIds tz itemId startDate endDate id :
  id ∈ buildLockIds tz itemId startDate endDate <->
  exists x, localDay tz startDate <= x <= localDay tz endDate
            /\ id = keyOfDay itemId (x + zoneShift tz).
Proof.
  rewrite buildLockIds_days, list_elem_of_fmap. split.
  - intros (x & -> & Hx). apply elem_of_seqZ in Hx. exists x. split; [lia | reflexivity].
  - intros (x & Hx & ->). exists x. split; [reflexivity |].
    apply elem_of_seqZ. lia.
Qed.

(** In a zone of one offset the identifiers of one call are pairwise
    distinct (for dates a [Date] can hold). *)
Lemma buildLockIds_distinct tz itemId startDate endDate :
  validTime (setHours0 tz startDate) -> validTime (setHours0 tz endDate) ->
  NoDup (buildLockIds tz itemId startDate endDate).
Proof.
  intros Vs Ve. apply validTime_utcDay in Vs, Ve. unfold setHours0 in Vs, Ve.
  rewrite utcDay_localMidnight in Vs, Ve.
  rewrite buildLockIds_days. apply NoDup_fmap_2_strong; [| apply NoDup_seqZ].
  intros x y Hx Hy E. apply elem_of_seqZ in Hx, Hy.
  unfold keyOfDay in E. apply (inj (String.append itemId)) in E.
  apply (inj (String.append "_")) in E.
  apply isoOfDay_inj in E.
  - lia.
  - apply (validDay_between _ _ _ Vs Ve). lia.
  - apply (validDay_between _ _ _ Vs Ve). lia.
Qed.

(** Two calls for the same item from the same zone of one offset that
    share an identifier share a day. *)
Lemma buildLockIds_share_days tz itemId ds1 de1 ds2 de2 :
  validTime (localMidnight tz ds1) -> validTime (localMidnight tz de1) ->
  validTime (localMidnight tz ds2) -> validTime (localMidnight tz de2) ->
  (exists id,
      id ∈ buildLockIds tz itemId (localMidnight tz ds1) (localMidnight tz de1)
      /\ id ∈ buildLockIds tz itemId (localMidnight tz ds2) (localMidnight tz de2))
  -> (exists d, ds1 <= d <= de1 /\ ds2 <= d <= de2).
Proof.
  intros V1 V2 V3 V4. apply validTime_utcDay in V1, V2, V3, V4.
  rewrite utcDay_localMidnight in V1, V2, V3, V4.
  intros (id & H1 & H2).
  apply elem_of_buildLockIds in H1 as (x & Hx & ->).
  apply elem_of_buildLockIds in H2 as (y & Hy & E).
  rewrite !localDay_localMidnight in Hx, Hy.
  unfold keyOfDay in E. apply (inj (String.append itemId)) in E.
  apply (inj (String.append "_")) in E.
  apply isoOfDay_inj in E.
  - exists x. split; [assumption | lia].
  - apply (validDay_between _ _ _ V1 V2). lia.
  - apply (validDay_between _ _ _ V3 V4). lia.
Qed.

(** X4.  Items whose identifiers hold no underscore never share a lock
    identifier, whatever the dates and the zones of the two calls. *)
Theorem buildLockIds_items_apart tz1 tz2 a b s1 e1 s2 e2 id :
  hasChar "_" a = false -> hasChar "_" b = false ->
  id ∈ buildLockIds tz1 a s1 e1 -> id ∈ buildLockIds tz2 b s2 e2 -> a = b.
Proof.
  intros Ha Hb H1 H2.
  apply buildLockIds_elem in H1 as [n ->]. apply buildLockIds_elem in H2 as [m E].
  apply (f_equal (split "_")) in E.
  rewrite !keyOfDay_split in E by assumption. now injection E.
Qed.

Lemma buildLockIds_items_apart_witness : "item1" = "item1".
Proof.
  apply (buildLockIds_items_apart Fixtures.tzTaipei Fixtures.tzNewYork
           "item1" "item1"
           (localMidnight Fixtures.tzTaipei (Fixtures.day 2025 6 11))
           (localMidnight Fixtures.tzTaipei (Fixtures.day 2025 6 11))
           (localMidnight Fixtures.tzNewYork (Fixtures.day 2025 6 10))
           (localMidnight Fixtures.tzNewYork (Fixtures.day 2025 6 10))
           "item1_2025-06-10").
  - reflexivity.
  - reflexivity.
  - vm_compute. apply list_elem_of_here.
  - vm_compute. apply list_elem_of_here.
Defined.

End LockIdMore.

(** ** The two availability evaluators side by side *)
Section EvaluatorFacts.
Import Validators BookingManager.

Lemma setHours0_fixed_lt tz a b :
  a = setHours0 tz a -> b = setHours0 tz b ->
  (a <? b) = (localDay tz a <? localDay tz b).
Proof.
  intros Ha Hb. rewrite Ha at 1. rewrite Hb at 1. apply dateOnly_lt.
Qed.

(** The two evaluators in a zone of one offset.  On an item of a known
    type whose date-range bounds, if any, lie at local midnight, and
    on a request as the booking form makes it, [validateAvailability]
    accepts exactly when the block in [submitBookingRequest] raises no
    alert. *)
Lemma evaluators_agree_one_offset tz item av ds de :
  item_availability item = Some av ->
  av_type av = Some "always" \/ av_type av = Some "dateRange"
  \/ av_type av = Some "recurring" ->
  (forall ps, av_startDate av = Some ps -> ps = setHours0 tz ps) ->
  (forall pe, av_endDate av = Some pe -> pe = setHours0 tz pe) ->
  validTime (localMidnight tz ds) -> validTime (localMidnight tz de) ->
  valid (validateAvailability tz item (localMidnight tz ds) (localMidnight tz de))
  = true
  <-> availabilityAlert tz item (localMidnight tz ds) (localMidnight tz de)
      = None.
Proof.
  intros Hav Hty Hs He Vs Ve.
  unfold validateAvailability, availabilityAlert. cbv zeta. rewrite Hav.
  cbn [from_option id].
  destruct Hty as [Hty | [Hty | Hty]]; rewrite Hty.
  - change (strictEq (Some "always") ALWAYS) with true.
    change (strictEq (Some "always") "dateRange") with false.
    change (strictEq (Some "always") "recurring") with false.
    cbv iota. cbn [valid]. split; reflexivity.
  - change (strictEq (Some "dateRange") ALWAYS) with false.
    change (strictEq (Some "dateRange") DATE_RANGE) with true.
    change (strictEq (Some "dateRange") "dateRange") with true.
    cbv iota.
    assert (M : forall d, localMidnight tz d = setHours0 tz (localMidnight tz d))
      by (intros d; now rewrite setHours0_localMidnight).
    destruct (av_startDate av) as [ps |], (av_endDate av) as [pe |];
      try rewrite (setHours0_fixed_lt tz (localMidnight tz ds) ps (M ds) (Hs _ eq_refl));
      try rewrite (setHours0_fixed_lt tz pe (localMidnight tz de) (He _ eq_refl) (M de));
      rewrite ?dateOnly_lt;
      repeat match goal with
             | |- context [?a <? ?b] => destruct (a <? b)
             end; cbn [valid]; split; intros; try reflexivity; discriminate.
  - change (strictEq (Some "recurring") ALWAYS) with false.
    change (strictEq (Some "recurring") DATE_RANGE) with false.
    change (strictEq (Some "recurring") RECURRING) with true.
    change (strictEq (Some "recurring") "dateRange") with false.
    change (strictEq (Some "recurring") "recurring") with true.
    cbv iota.
    rewrite toISODate_localMidnight_eqb by assumption.
    rewrite !localDay_localMidnight.
    destruct (ds =? de); cbn [negb valid]; [| split; discriminate].
    destruct (includes _ _); cbn [negb valid]; split; intros;
      try reflexivity; discriminate.
Qed.

(** X6.  When the start bound of a date range carries a time of day
    (as the seeded listings do), a request that starts on the bound's
    own day passes the block in [submitBookingRequest] but is refused
    by [validateAvailability] with the "available from" message. *)
Theorem evaluators_differ_on_first_day tz item av ps de :
  item_availability item = Some av ->
  av_type av = Some "dateRange" ->
  av_startDate av = Some ps ->
  setHours0 tz ps < ps ->
  (forall pe, av_endDate av = Some pe -> de <= localDay tz pe) ->
  availabilityAlert tz item (localMidnight tz (localDay tz ps))
    (localMidnight tz de) = None
  /\ validateAvailability tz item (localMidnight tz (localDay tz ps))
       (localMidnight tz de) = invalid (AvailableFrom ps).
Proof.
  intros Hav Hty Hps Hlt He.
  unfold validateAvailability, availabilityAlert. cbv zeta. rewrite Hav.
  cbn [from_option id]. rewrite Hty, Hps.
  change (strictEq (Some "dateRange") ALWAYS) with false.
  change (strictEq (Some "dateRange") DATE_RANGE) with true.
  change (strictEq (Some "dateRange") "dateRange") with true.
  cbv iota. rewrite !dateOnly_lt, !localDay_localMidnight.
  rewrite Z.ltb_irrefl. unfold setHours0 in Hlt.
  apply Z.ltb_lt in Hlt. rewrite Hlt. split; [| reflexivity].
  destruct (av_endDate av) as [pe |]; [| reflexivity].
  rewrite dateOnly_lt, localDay_localMidnight.
  specialize (He _ eq_refl). apply Z.ltb_ge in He. now rewrite He.
Qed.

(** A window that opens on 2025-06-10 at 09:00 local time. *)
Lemma evaluators_differ_on_first_day_witness :
  validateAvailability Fixtures.tzNewYork
    (Fixtures.itemWith
       (Some {| av_type := Some "dateRange";
                av_startDate :=
                  Some (localMidnight Fixtures.tzNewYork (Fixtures.day 2025 6 10)
                        + 9 * msPerHour);
                av_endDate := None; av_daysOfWeek := None |}))
    (localMidnight Fixtures.tzNewYork (Fixtures.day 2025 6 10))
    (localMidnight Fixtures.tzNewYork (Fixtures.day 2025 6 11))
  = invalid (AvailableFrom
               (localMidnight Fixtures.tzNewYork (Fixtures.day 2025 6 10)
                + 9 * msPerHour)).
Proof.
  apply (proj2 (evaluators_differ_on_first_day Fixtures.tzNewYork
                  (Fixtures.itemWith
                     (Some {| av_type := Some "dateRange";
                              av_startDate :=
                                Some (localMidnight Fixtures.tzNewYork
                                        (Fixtures.day 2025 6 10)
                                      + 9 * msPerHour);
                              av_endDate := None; av_daysOfWeek := None |}))
                  _ _ (Fixtures.day 2025 6 11)
                  eq_refl eq_refl eq_refl
                  ltac:(vm_compute; reflexivity)
                  ltac:(intros pe; discriminate))).
Defined.

End EvaluatorFacts.

(** ** Calls one after the other *)
Section SequenceFacts.
Import Validators BookingManager ItemManager.

(** A request that was ready to commit on one store is, on another
    store, ready again or refused for a conflict, by the locks found
    there alone. *)
Lemma checkRequest_other_store e s st st' b :
  checkRequest e s st = Ready b ->
  checkRequest e s st'
  = match existingLocks st' (batch_lockIds b) with
    | [] => Ready b
    | _ :: _ => Ended msgConflict (batch_lockIds b)
    end.
Proof.
  unfold checkRequest.
  destruct (currentUser s) as [user |]; [| discriminate].
  destruct (currentItemData s) as [item |]; [| discriminate].
  destruct (String.eqb _ _); [discriminate |].
  destruct (bookingStartDate s) as [ds |]; [| discriminate].
  destruct (bookingEndDate s) as [de |]; [| discriminate].
  destruct (validateBookingDates _ _ _ _); [| discriminate].
  destruct (availabilityAlert _ _ _ _); [discriminate |].
  cbv zeta. destruct (negb (readsOk e)); [discriminate |].
  destruct (existingLocks st _); [| discriminate].
  intros [= <-]. reflexivity.
Qed.

(** The request behind a [Ready] batch: not the owner's own, not in the
    past, not inverted. *)
Lemma checkRequest_Ready_dates e s st b :
  checkRequest e s st = Ready b ->
  exists ds de,
    bookingStartDate s = Some ds /\ bookingEndDate s = Some de
    /\ localDay (tz e) (now e) <= ds <= de
    /\ item_ownerId (batch_item b) <> uid (batch_user b)
    /\ batch_startDate b = localMidnight (tz e) ds
    /\ batch_endDate b = localMidnight (tz e) de
    /\ batch_lockIds b
       = buildLockIds (tz e) (currentItemId s) (localMidnight (tz e) ds)
           (localMidnight (tz e) de).
Proof.
  unfold checkRequest.
  destruct (currentUser s) as [user |]; [| discriminate].
  destruct (currentItemData s) as [item |]; [| discriminate].
  destruct (String.eqb _ _) eqn:Own; [discriminate |].
  destruct (bookingStartDate s) as [ds |]; [| discriminate].
  destruct (bookingEndDate s) as [de |]; [| discriminate].
  destruct (validateBookingDates _ _ _ _) eqn:V; [| discriminate].
  destruct (availabilityAlert _ _ _ _); [discriminate |].
  cbv zeta. destruct (negb (readsOk e)); [discriminate |].
  destruct (existingLocks st _); [| discriminate].
  intros [= <-]. cbn. exists ds, de.
  apply String.eqb_neq in Own.
  unfold validateBookingDates in V.
  destruct (Z.ltb_spec (localMidnight (tz e) ds) (setHours0 (tz e) (now e)))
    as [H1 | H1]; [discriminate |].
  destruct (Z.ltb_spec (localMidnight (tz e) de) (localMidnight (tz e) ds))
    as [H2 | H2]; [discriminate |].
  unfold setHours0 in H1. apply localMidnight_le in H1, H2.
  repeat split; auto.
Qed.

Lemma existingLocks_cons_iff st ids :
  existingLocks st ids <> [] <->
  exists id, id ∈ ids /\ is_Some (bookingLocks st !! id).
Proof.
  split.
  - intros H. destruct (existingLocks st ids) as [| id rest] eqn:E; [congruence |].
    exists id. assert (Hin : id ∈ existingLocks st ids)
      by (rewrite E; apply list_elem_of_here).
    unfold existingLocks in Hin. apply list_elem_of_filter in Hin. tauto.
  - intros (id & Hin & Hs) E.
    rewrite (proj1 (existingLocks_nil st ids) E id Hin) in Hs.
    now destruct Hs.
Qed.

(** What a successful call has stored, in a zone of one offset: a
    pending booking of somebody other than the owner, whose first day
    is not before the day of the call and whose last day is not before
    its first, with one lock identifier per day (at least one) and a
    status history of exactly the renter's "pending" entry. *)
Lemma submitted_booking_shape_one_offset e s st :
  alert (submitBookingRequest e s st) = msgSubmitted ->
  exists ds de b,
    bookingStartDate s = Some ds /\ bookingEndDate s = Some de
    /\ localDay (tz e) (now e) <= ds <= de
    /\ bookings (after (submitBookingRequest e s st)) !! newId e = Some b
    /\ bk_startDate b = localMidnight (tz e) ds
    /\ bk_endDate b = localMidnight (tz e) de
    /\ bk_renterId b <> bk_ownerId b
    /\ bk_status b = Some "pending"
    /\ bk_statusHistory b
       = [ {| he_status := "pending"; he_at := BookingManager.timestampNow e;
              he_by := bk_renterId b |} ]
    /\ length (bk_lockIds b) = Z.to_nat (de - ds + 1)
    /\ (0 < length (bk_lockIds b))%nat.
Proof.
  intros Hok. apply submitted_iff in Hok as (b0 & C & K).
  destruct (committed_store e s st b0 C K) as (_ & Hb & _ & _).
  destruct (checkRequest_Ready_dates _ _ _ _ C)
    as (ds & de & Hs & He & Hd & Hown & Hbs & Hbe & Hids).
  exists ds, de. eexists. split; [exact Hs |]. split; [exact He |].
  split; [exact Hd |]. split; [rewrite Hb; apply lookup_insert_eq |].
  cbn [newBooking bk_startDate bk_endDate bk_renterId bk_ownerId bk_status
       bk_statusHistory bk_lockIds].
  assert (L : length (batch_lockIds b0) = Z.to_nat (de - ds + 1))
    by (rewrite Hids, buildLockIds_length; now rewrite !localDay_localMidnight).
  repeat split; auto; lia.
Qed.

(** A day both requests ask for gives both the same lock identifier. *)
Lemma shared_day_shared_id tz itemId ds1 de1 ds2 de2 d :
  ds1 <= d <= de1 -> ds2 <= d <= de2 ->
  exists id,
    id ∈ buildLockIds tz itemId (localMidnight tz ds1) (localMidnight tz de1)
    /\ id ∈ buildLockIds tz itemId (localMidnight tz ds2) (localMidnight tz de2).
Proof.
  intros H1 H2. exists (keyOfDay itemId (d + zoneShift tz)).
  split; apply elem_of_buildLockIds; exists d;
    rewrite !localDay_localMidnight; auto.
Qed.

(** After a call that went through, the store holds a lock for each of
    its identifiers. *)
Lemma locks_held_after e s st b id :
  checkRequest e s st = Ready b -> commitOk e = true ->
  id ∈ batch_lockIds b ->
  is_Some (bookingLocks (after (submitBookingRequest e s st)) !! id).
Proof.
  intros C K Hin. destruct (committed_store e s st b C K) as (_ & _ & Hl & _).
  destruct (Hl id Hin) as [_ ->]. eauto.
Qed.

(** In a zone of one offset: after a call that went through, a call
    for the same item that asks for at least one of the same days is
    never accepted and leaves the store alone; if it was ready to
    commit before the first call, it is now refused with the conflict
    message. *)
Lemma later_overlapping_one_offset e1 s1 st e2 s2 ds1 de1 ds2 de2 d :
  alert (submitBookingRequest e1 s1 st) = msgSubmitted ->
  bookingStartDate s1 = Some ds1 -> bookingEndDate s1 = Some de1 ->
  bookingStartDate s2 = Some ds2 -> bookingEndDate s2 = Some de2 ->
  tz e2 = tz e1 -> currentItemId s2 = currentItemId s1 ->
  ds1 <= d <= de1 -> ds2 <= d <= de2 ->
  alert (submitBookingRequest e2 s2 (after (submitBookingRequest e1 s1 st)))
  <> msgSubmitted
  /\ after (submitBookingRequest e2 s2 (after (submitBookingRequest e1 s1 st)))
     = after (submitBookingRequest e1 s1 st)
  /\ (forall b2, checkRequest e2 s2 st = Ready b2 ->
        submitBookingRequest e2 s2 (after (submitBookingRequest e1 s1 st))
        = {| alert := msgConflict; reads := batch_lockIds b2;
             after := after (submitBookingRequest e1 s1 st) |}).
Proof.
  intros Hok Hs1 He1 Hs2 He2 Htz Hid D1 D2.
  apply submitted_iff in Hok as (b1 & C1 & K1).
  destruct (checkRequest_Ready_dates _ _ _ _ C1)
    as (x1 & y1 & Hx1 & Hy1 & _ & _ & _ & _ & Hids1).
  rewrite Hs1 in Hx1. rewrite He1 in Hy1.
  injection Hx1 as <-. injection Hy1 as <-.
  set (st1 := after (submitBookingRequest e1 s1 st)).
  assert (R : forall b2 st0, checkRequest e2 s2 st0 = Ready b2 ->
                checkRequest e2 s2 st1 = Ended msgConflict (batch_lockIds b2)).
  { intros b2 st0 C2. rewrite (checkRequest_other_store _ _ _ st1 _ C2).
    destruct (checkRequest_Ready_dates _ _ _ _ C2)
      as (x2 & y2 & Hx2 & Hy2 & _ & _ & _ & _ & Hids2).
    rewrite Hs2 in Hx2. rewrite He2 in Hy2.
    injection Hx2 as <-. injection Hy2 as <-.
    destruct (shared_day_shared_id (tz e1) (currentItemId s1) _ _ _ _ d D1 D2)
      as (id & I1 & I2).
    rewrite <- Hids1 in I1. rewrite <- Htz, <- Hid, <- Hids2 in I2.
    destruct (existingLocks st1 (batch_lockIds b2)) eqn:X; [| reflexivity].
    exfalso. apply (proj2 (existingLocks_cons_iff st1 (batch_lockIds b2)));
      [| exact X].
    exists id. split; [exact I2 |].
    now apply (locks_held_after e1 s1 st b1). }
  assert (N : forall b2, checkRequest e2 s2 st1 <> Ready b2).
  { intros b2 C2. rewrite (R b2 st1 C2) in C2. discriminate. }
  split; [| split].
  - intros Hsub. apply submitted_iff in Hsub as (b2 & C2 & _).
    now apply (N b2).
  - unfold submitBookingRequest at 1.
    destruct (checkRequest e2 s2 st1) as [m rd | b2] eqn:C2; [reflexivity |].
    now destruct (N b2).
  - intros b2 C2. unfold submitBookingRequest at 1. now rewrite (R b2 st C2).
Qed.

End SequenceFacts.

Section SequenceFacts2.
Import Validators BookingManager ItemManager.

(** A request ready to commit stays ready on a later store when none of
    its identifiers is among those the call in between has locked. *)
Lemma still_ready e1 s1 st b1 e2 s2 b2 :
  checkRequest e1 s1 st = Ready b1 -> commitOk e1 = true ->
  checkRequest e2 s2 st = Ready b2 ->
  (forall id, id ∈ batch_lockIds b2 -> id ∉ batch_lockIds b1) ->
  checkRequest e2 s2 (after (submitBookingRequest e1 s1 st)) = Ready b2.
Proof.
  intros C1 K1 C2 Hdis.
  rewrite (checkRequest_other_store _ _ _ _ _ C2).
  destruct (committed_store e1 s1 st b1 C1 K1) as (_ & _ & _ & Hout).
  pose proof (checkRequest_Ready _ _ _ _ C2)
    as (ds & de & _ & _ & _ & _ & _ & _ & _ & X).
  assert (E : existingLocks (after (submitBookingRequest e1 s1 st))
                (batch_lockIds b2) = []).
  { apply existingLocks_nil. intros id Hin.
    rewrite (Hout id (Hdis id Hin)).
    now apply (proj1 (existingLocks_nil st _) X). }
  now rewrite E.
Qed.

(** In a zone of one offset: a call for the same item whose days all
    lie before or all after those of a call that went through is not
    held up by it: if it was ready to commit before, it still is. *)
Lemma later_disjoint_one_offset e1 s1 st e2 s2 b2 ds1 de1 ds2 de2 :
  alert (submitBookingRequest e1 s1 st) = msgSubmitted ->
  checkRequest e2 s2 st = Ready b2 ->
  bookingStartDate s1 = Some ds1 -> bookingEndDate s1 = Some de1 ->
  bookingStartDate s2 = Some ds2 -> bookingEndDate s2 = Some de2 ->
  tz e2 = tz e1 -> currentItemId s2 = currentItemId s1 ->
  validTime (localMidnight (tz e1) ds1) -> validTime (localMidnight (tz e1) de1) ->
  validTime (localMidnight (tz e1) ds2) -> validTime (localMidnight (tz e1) de2) ->
  de1 < ds2 \/ de2 < ds1 ->
  checkRequest e2 s2 (after (submitBookingRequest e1 s1 st)) = Ready b2.
Proof.
  intros Hok C2 Hs1 He1 Hs2 He2 Htz Hid V1 V2 V3 V4 Hdis.
  apply submitted_iff in Hok as (b1 & C1 & K1).
  apply (still_ready e1 s1 st b1); auto.
  destruct (checkRequest_Ready_dates _ _ _ _ C1)
    as (x1 & y1 & Hx1 & Hy1 & _ & _ & _ & _ & Hids1).
  destruct (checkRequest_Ready_dates _ _ _ _ C2)
    as (x2 & y2 & Hx2 & Hy2 & _ & _ & _ & _ & Hids2).
  rewrite Hs1 in Hx1. rewrite He1 in Hy1. rewrite Hs2 in Hx2. rewrite He2 in Hy2.
  injection Hx1 as <-. injection Hy1 as <-.
  injection Hx2 as <-. injection Hy2 as <-.
  intros id I2 I1. rewrite Hids1 in I1. rewrite Hids2, Htz, Hid in I2.
  destruct (buildLockIds_share_days (tz e1) (currentItemId s1)
              ds1 de1 ds2 de2 V1 V2 V3 V4)
    as (d & D1 & D2); [eauto | lia].
Qed.

(** X10.  A call for another item (identifiers without underscore) is
    not held up by a call that went through, whatever the days and the
    zones. *)
Theorem other_item_request_unaffected e1 s1 st e2 s2 b2 :
  alert (submitBookingRequest e1 s1 st) = msgSubmitted ->
  checkRequest e2 s2 st = Ready b2 ->
  hasChar "_" (currentItemId s1) = false ->
  hasChar "_" (currentItemId s2) = false ->
  currentItemId s2 <> currentItemId s1 ->
  checkRequest e2 s2 (after (submitBookingRequest e1 s1 st)) = Ready b2.
Proof.
  intros Hok C2 U1 U2 Hne.
  apply submitted_iff in Hok as (b1 & C1 & K1).
  apply (still_ready e1 s1 st b1); auto.
  destruct (checkRequest_Ready_dates _ _ _ _ C1)
    as (x1 & y1 & _ & _ & _ & _ & _ & _ & Hids1).
  destruct (checkRequest_Ready_dates _ _ _ _ C2)
    as (x2 & y2 & _ & _ & _ & _ & _ & _ & Hids2).
  intros id I2 I1. rewrite Hids1 in I1. rewrite Hids2 in I2.
  apply buildLockIds_elem in I1 as [n ->]. apply buildLockIds_elem in I2 as [m E].
  apply (f_equal (split "_")) in E.
  rewrite !keyOfDay_split in E by assumption. injection E as E _. congruence.
Qed.

Lemma other_item_request_unaffected_witness :
  exists b2,
    checkRequest (Fixtures.envOn Fixtures.tzTaipei "b2")
      (Fixtures.request Fixtures.carol "item2" (Some Fixtures.always)
         (Fixtures.day 2025 6 10) (Fixtures.day 2025 6 12))
      (after (submitBookingRequest (Fixtures.envOn Fixtures.tzTaipei "b1")
                (Fixtures.request Fixtures.bob "item1" (Some Fixtures.always)
                   (Fixtures.day 2025 6 10) (Fixtures.day 2025 6 12))
                Fixtures.emptyStore))
    = Ready b2.
Proof.
  eexists.
  apply (other_item_request_unaffected
           (Fixtures.envOn Fixtures.tzTaipei "b1")
           (Fixtures.request Fixtures.bob "item1" (Some Fixtures.always)
              (Fixtures.day 2025 6 10) (Fixtures.day 2025 6 12))
           Fixtures.emptyStore
           (Fixtures.envOn Fixtures.tzTaipei "b2")
           (Fixtures.request Fixtures.carol "item2" (Some Fixtures.always)
              (Fixtures.day 2025 6 10) (Fixtures.day 2025 6 12))).
  - vm_compute. reflexivity.
  - vm_compute. reflexivity.
  - reflexivity.
  - reflexivity.
  - vm_compute. discriminate.
Defined.

(** [handleBookingAction] leaves the lock collection as it is. *)
Lemma handleBookingAction_locks a u bookingId newStatus st :
  bookingLocks (snd (handleBookingAction a u bookingId newStatus st))
  = bookingLocks st.
Proof.
  unfold handleBookingAction. destruct (negb _); [reflexivity |].
  destruct u as [user |]; [| reflexivity].
  destruct (bookings st !! bookingId); [| reflexivity].
  now destruct (updateOk a).
Qed.

Lemma checkRequest_same_locks e s st st' :
  bookingLocks st = bookingLocks st' -> checkRequest e s st = checkRequest e s st'.
Proof.
  intros H. unfold checkRequest, existingLocks. now rewrite H.
Qed.

(** In a zone of one offset: after a call that went through and any
    later [handleBookingAction] on the store, a call for the same item
    that asks for one of its days, and was ready to commit before, is
    refused with the conflict message. *)
Lemma declined_keeps_days_one_offset e1 s1 st a u bookingId newStatus
    e2 s2 b2 ds1 de1 ds2 de2 d :
  alert (submitBookingRequest e1 s1 st) = msgSubmitted ->
  checkRequest e2 s2 st = Ready b2 ->
  bookingStartDate s1 = Some ds1 -> bookingEndDate s1 = Some de1 ->
  bookingStartDate s2 = Some ds2 -> bookingEndDate s2 = Some de2 ->
  tz e2 = tz e1 -> currentItemId s2 = currentItemId s1 ->
  ds1 <= d <= de1 -> ds2 <= d <= de2 ->
  alert (submitBookingRequest e2 s2
           (snd (handleBookingAction a u bookingId newStatus
                   (after (submitBookingRequest e1 s1 st)))))
  = msgConflict.
Proof.
  intros Hok C2 Hs1 He1 Hs2 He2 Htz Hid D1 D2.
  apply submitted_iff in Hok as (b1 & C1 & K1).
  destruct (checkRequest_Ready_dates _ _ _ _ C1)
    as (x1 & y1 & Hx1 & Hy1 & _ & _ & _ & _ & Hids1).
  destruct (checkRequest_Ready_dates _ _ _ _ C2)
    as (x2 & y2 & Hx2 & Hy2 & _ & _ & _ & _ & Hids2).
  rewrite Hs1 in Hx1. rewrite He1 in Hy1. rewrite Hs2 in Hx2. rewrite He2 in Hy2.
  injection Hx1 as <-. injection Hy1 as <-.
  injection Hx2 as <-. injection Hy2 as <-.
  unfold submitBookingRequest at 1.
  rewrite (checkRequest_same_locks e2 s2 _ (after (submitBookingRequest e1 s1 st)))
    by apply handleBookingAction_locks.
  rewrite (checkRequest_other_store _ _ _ _ _ C2).
  destruct (shared_day_shared_id (tz e1) (currentItemId s1) _ _ _ _ d D1 D2)
    as (id & I1 & I2).
  rewrite <- Hids1 in I1. rewrite <- Htz, <- Hid, <- Hids2 in I2.
  destruct (existingLocks _ (batch_lockIds b2)) eqn:X; [| reflexivity].
  exfalso.
  apply (proj2 (existingLocks_cons_iff
                  (after (submitBookingRequest e1 s1 st)) (batch_lockIds b2)));
    [| exact X].
  exists id. split; [exact I2 |]. now apply (locks_held_after e1 s1 st b1).
Qed.

End SequenceFacts2.

(** ** Owner actions one after the other *)
Section ActionFacts.
Import ItemManager Journeys.

(** X12.  One call of [handleBookingAction] touches at most the booking
    it names: the locks, every other booking and the set of stored
    bookings stay as they are, and on an identifier that names no
    stored booking the call changes nothing and does not report
    success. *)
Theorem handleBookingAction_frame a u bookingId newStatus st :
  bookingLocks (snd (handleBookingAction a u bookingId newStatus st))
  = bookingLocks st
  /\ (forall k, k <> bookingId ->
        bookings (snd (handleBookingAction a u bookingId newStatus st)) !! k
        = bookings st !! k)
  /\ dom (bookings (snd (handleBookingAction a u bookingId newStatus st)))
     = dom (bookings st)
  /\ (bookings st !! bookingId = None ->
      snd (handleBookingAction a u bookingId newStatus st) = st
      /\ fst (handleBookingAction a u bookingId newStatus st)
         <> Some (msgUpdated newStatus)).
Proof.
  split; [apply handleBookingAction_locks |].
  unfold handleBookingAction.
  destruct (negb _); [repeat split; intros; discriminate |].
  destruct u as [user |]; [| repeat split; intros; discriminate].
  destruct (bookings st !! bookingId) as [b |] eqn:B.
  - destruct (updateOk a); cbn [snd fst bookings];
      [| repeat split; intros; discriminate].
    split; [| split].
    + intros k Hk. now apply lookup_insert_ne.
    + rewrite dom_insert_L. apply elem_of_dom_2 in B.
      apply subseteq_union_1_L. now apply singleton_subseteq_l.
    + discriminate.
  - repeat split; intros; discriminate.
Qed.

(** Accepting a booking that is not stored. *)
Lemma handleBookingAction_frame_witness :
  snd (handleBookingAction
         {| timestampNow := 5; serverTime := 6; updateOk := true |}
         (Some Fixtures.alice) "b1" "accepted" Fixtures.emptyStore)
  = Fixtures.emptyStore.
Proof.
  apply (proj2 (proj2 (proj2 (handleBookingAction_frame
                                {| timestampNow := 5; serverTime := 6;
                                   updateOk := true |}
                                (Some Fixtures.alice) "b1" "accepted"
                                Fixtures.emptyStore)))).
  reflexivity.
Defined.

(** What one call keeps of a stored booking. *)
Lemma handleBookingAction_keeps a u bookingId newStatus st k b :
  bookings st !! k = Some b ->
  exists b',
    bookings (snd (handleBookingAction a u bookingId newStatus st)) !! k
    = Some b'
    /\ bk_itemId b' = bk_itemId b /\ bk_renterId b' = bk_renterId b
    /\ bk_ownerId b' = bk_ownerId b
    /\ bk_startDate b' = bk_startDate b /\ bk_endDate b' = bk_endDate b
    /\ bk_lockIds b' = bk_lockIds b /\ bk_createdAt b' = bk_createdAt b
    /\ bk_statusHistory b `prefix_of` bk_statusHistory b'
    /\ (bk_status b' = bk_status b \/ bk_status b' = Some "accepted"
        \/ bk_status b' = Some "declined").
Proof.
  intros Hb. unfold handleBookingAction.
  destruct (existsb _ _) eqn:G; cbn [negb];
    [| exists b; repeat split; auto].
  destruct u as [user |]; [| exists b; repeat split; auto].
  destruct (decide (k = bookingId)) as [-> | Hne].
  - rewrite Hb. destruct (updateOk a); [| exists b; repeat split; auto].
    exists (updated a user newStatus b). cbn [snd bookings].
    split; [apply lookup_insert_eq |].
    cbn [updated bk_itemId bk_renterId bk_ownerId bk_startDate bk_endDate
         bk_lockIds bk_createdAt bk_statusHistory bk_status].
    repeat split.
    + unfold arrayUnion. destruct (bool_decide _); [reflexivity |].
      now apply prefix_app_r.
    + right. cbn [existsb] in G.
      destruct (String.eqb_spec newStatus "accepted") as [-> | _]; [now left |].
      destruct (String.eqb_spec newStatus "declined") as [-> | _]; [now right |].
      discriminate.
  - exists b. split; [| repeat split; auto].
    destruct (bookings st !! bookingId); [| exact Hb].
    destruct (updateOk a); [| exact Hb].
    cbn [snd bookings]. now rewrite lookup_insert_ne.
Qed.

(** X13.  Whatever sequence of [handleBookingAction] calls runs on the
    store, a stored booking stays stored with its item, renter, owner,
    dates, lock identifiers and creation time; its status history only
    grows at the end; its status is the one it had, "accepted" or
    "declined"; and the lock collection is untouched. *)
Theorem runActions_invariants acts : forall st k b,
  bookings st !! k = Some b ->
  bookingLocks (runActions acts st) = bookingLocks st
  /\ exists b',
       bookings (runActions acts st) !! k = Some b'
       /\ bk_itemId b' = bk_itemId b /\ bk_renterId b' = bk_renterId b
       /\ bk_ownerId b' = bk_ownerId b
       /\ bk_startDate b' = bk_startDate b /\ bk_endDate b' = bk_endDate b
       /\ bk_lockIds b' = bk_lockIds b /\ bk_createdAt b' = bk_createdAt b
       /\ bk_statusHistory b `prefix_of` bk_statusHistory b'
       /\ (bk_status b' = bk_status b \/ bk_status b' = Some "accepted"
           \/ bk_status b' = Some "declined").
Proof.
  induction acts as [| a acts IH]; intros st k b Hb.
  - split; [reflexivity |]. exists b. repeat split; auto.
  - cbn [runActions fold_left].
    destruct (handleBookingAction_keeps (act_env a) (act_user a)
                (act_bookingId a) (act_newStatus a) st k b Hb)
      as (b1 & H1 & E1 & E2 & E3 & E4 & E5 & E6 & E7 & P1 & S1).
    destruct (IH _ k b1 H1)
      as (L & b2 & H2 & F1 & F2 & F3 & F4 & F5 & F6 & F7 & P2 & S2).
    split.
    + unfold runActions in L. rewrite L. apply handleBookingAction_locks.
    + exists b2. split; [exact H2 |].
      repeat split; try congruence.
      * now transitivity (bk_statusHistory b1).
      * destruct S2 as [S2 | S2]; [rewrite S2; exact S1 | now right].
Qed.

(** Alice accepts, then Carol declines, Bob's booking. *)
Lemma runActions_invariants_witness :
  exists b',
    bookings
      (runActions
         [ {| act_env := {| timestampNow := 5; serverTime := 6; updateOk := true |};
              act_user := Some Fixtures.alice; act_bookingId := "b1";
              act_newStatus := "accepted" |};
           {| act_env := {| timestampNow := 7; serverTime := 8; updateOk := true |};
              act_user := Some Fixtures.carol; act_bookingId := "b1";
              act_newStatus := "declined" |} ]
         (Fixtures.storeWith "b1" (Fixtures.pastBooking (Some "pending"))))
      !! "b1" = Some b'
    /\ bk_lockIds b' = bk_lockIds (Fixtures.pastBooking (Some "pending"))
    /\ bk_statusHistory (Fixtures.pastBooking (Some "pending"))
       `prefix_of` bk_statusHistory b'.
Proof.
  destruct (runActions_invariants
              [ {| act_env := {| timestampNow := 5; serverTime := 6; updateOk := true |};
                   act_user := Some Fixtures.alice; act_bookingId := "b1";
                   act_newStatus := "accepted" |};
                {| act_env := {| timestampNow := 7; serverTime := 8; updateOk := true |};
                   act_user := Some Fixtures.carol; act_bookingId := "b1";
                   act_newStatus := "declined" |} ]
              (Fixtures.storeWith "b1" (Fixtures.pastBooking (Some "pending")))
              "b1" (Fixtures.pastBooking (Some "pending")))
    as (_ & b' & H & _ & _ & _ & _ & _ & L & _ & P & _).
  - vm_compute. reflexivity.
  - exists b'. auto.
Defined.

End ActionFacts.

(** ** What the two dashboards hold *)
Section GroupingFacts.
Import ItemManager Journeys.

Lemma forEach_snoc visit snap d :
  forEach visit (snap ++ [d]) = forEach visit snap ≫= fun g => visit g d.
Proof. unfold forEach. now rewrite fold_left_app. Qed.

Lemma contents_push b d g : contents (push b d g) ≡ₚ contents g ++ [d].
Proof.
  unfold contents. destruct b; cbn [push pending accepted declined archived];
    rewrite <- ?(assoc_L (++)); solve_Permutation.
Qed.

Lemma slot_accepted_pending s :
  s = "accepted" \/ s = "pending" -> exists b, slot s = Own b.
Proof. intros [-> | ->]; eauto. Qed.

(** The owner's callback throws exactly on a status that names an
    inherited property; otherwise it pushes the document to one
    group. *)
Lemma ownerBookingsVisit_cases today g d :
  (slot (statusOf (snd d)) = Inherited /\ ownerBookingsVisit today g d = None)
  \/ (slot (statusOf (snd d)) <> Inherited
      /\ exists b, ownerBookingsVisit today g d = Some (push b d g)).
Proof.
  unfold ownerBookingsVisit.
  destruct (String.eqb_spec (statusOf (snd d)) "accepted") as [E | _].
  { right. rewrite E. split; [discriminate |].
    cbn [orb andb]. destruct (_ <? _); eauto. }
  destruct (String.eqb_spec (statusOf (snd d)) "pending") as [E | _].
  { right. rewrite E. split; [discriminate |].
    cbn [orb andb]. destruct (_ <? _); eauto. }
  cbn [orb andb].
  destruct (slot (statusOf (snd d))) as [b | |];
    [right; split; [discriminate | eauto] | left; auto
    | right; split; [discriminate | eauto]].
Qed.

(** X14.  The owner's dashboard loses no booking and shows none twice:
    when the load succeeds, the four groups together hold exactly the
    documents of the snapshot; the load fails exactly when some stored
    status is the name of a property every object inherits (such as
    "constructor"). *)
Theorem loadOwnerBookings_partition tz now snapshot :
  (forall g, loadOwnerBookings tz now snapshot = Some g ->
     contents g ≡ₚ snapshot)
  /\ (loadOwnerBookings tz now snapshot = None
      <-> exists d, d ∈ snapshot /\ slot (statusOf (snd d)) = Inherited).
Proof.
  unfold loadOwnerBookings. set (today := setHours0 tz now).
  induction snapshot as [| d snap IH] using rev_ind.
  - split.
    + intros g [= <-]. reflexivity.
    + split; [discriminate | intros (d & H & _); now apply elem_of_nil in H].
  - destruct IH as [IH1 IH2]. rewrite forEach_snoc.
    destruct (forEach (ownerBookingsVisit today) snap) as [g0 |] eqn:F;
      cbn [mbind option_bind].
    + destruct (ownerBookingsVisit_cases today g0 d) as [[S V] | [S (b & V)]];
        rewrite V.
      * split; [discriminate |]. split; [| reflexivity].
        intros _. exists d. split; [| exact S].
        apply elem_of_app. right. apply list_elem_of_here.
      * split.
        -- intros g [= <-]. rewrite contents_push. now rewrite (IH1 g0 eq_refl).
        -- split; [discriminate |]. intros (d' & Hin & S').
           apply elem_of_app in Hin as [Hin | Hin].
           ++ destruct IH2 as [_ IH2]. discriminate IH2. eauto.
           ++ apply list_elem_of_singleton in Hin. subst d'. contradiction.
    + split; [discriminate |]. split; [| reflexivity].
      intros _. destruct (proj1 IH2 eq_refl) as (d' & Hin & S').
      exists d'. split; [| exact S']. apply elem_of_app. now left.
Qed.

(** A stored status "constructor" makes the owner's load fail. *)
Lemma loadOwnerBookings_partition_witness :
  loadOwnerBookings Fixtures.tzNewYork 0
    [("b1", Fixtures.pastBooking (Some "declined"));
     ("b2", Fixtures.pastBooking (Some "constructor"))] = None.
Proof.
  apply (proj2 (loadOwnerBookings_partition Fixtures.tzNewYork 0 _)).
  exists ("b2", Fixtures.pastBooking (Some "constructor")).
  split; [| reflexivity].
  apply list_elem_of_further, list_elem_of_here.
Defined.

Lemma myBookingsVisit_cases g d :
  (slot (statusOf (snd d)) = Inherited /\ myBookingsVisit g d = None)
  \/ (slot (statusOf (snd d)) = Undefined /\ knownStatus d = false
      /\ myBookingsVisit g d = Some g)
  \/ (knownStatus d = true
      /\ exists b, myBookingsVisit g d = Some (push b d g)).
Proof.
  unfold myBookingsVisit, knownStatus.
  destruct (slot (statusOf (snd d))) as [b | |];
    [right; right; split; [reflexivity | eauto] | left; auto
    | right; left; auto].
Qed.

(** X15.  The renter's dashboard shows each booking whose status is one
    of the four group names once, and silently leaves out every booking
    with another status; the load fails exactly when some stored status
    is the name of an inherited property. *)
Theorem loadMyBookings_partition snapshot :
  (forall g, loadMyBookings snapshot = Some g ->
     contents g ≡ₚ List.filter knownStatus snapshot)
  /\ (loadMyBookings snapshot = None
      <-> exists d, d ∈ snapshot /\ slot (statusOf (snd d)) = Inherited).
Proof.
  unfold loadMyBookings.
  induction snapshot as [| d snap IH] using rev_ind.
  - split.
    + intros g [= <-]. reflexivity.
    + split; [discriminate | intros (d & H & _); now apply elem_of_nil in H].
  - destruct IH as [IH1 IH2]. rewrite forEach_snoc, List.filter_app.
    cbn [List.filter].
    destruct (forEach myBookingsVisit snap) as [g0 |] eqn:F;
      cbn [mbind option_bind].
    + destruct (myBookingsVisit_cases g0 d)
        as [[S V] | [(S & K & V) | (K & b & V)]]; rewrite V.
      * split; [discriminate |]. split; [| reflexivity].
        intros _. exists d. split; [| exact S].
        apply elem_of_app. right. apply list_elem_of_here.
      * rewrite K. split.
        -- intros g [= <-]. rewrite app_nil_r. now apply IH1.
        -- split; [discriminate |]. intros (d' & Hin & S').
           apply elem_of_app in Hin as [Hin | Hin].
           ++ destruct IH2 as [_ IH2]. discriminate IH2. eauto.
           ++ apply list_elem_of_singleton in Hin. subst d'. congruence.
      * rewrite K. split.
        -- intros g [= <-]. rewrite contents_push. now rewrite (IH1 g0 eq_refl).
        -- split; [discriminate |]. intros (d' & Hin & S').
           apply elem_of_app in Hin as [Hin | Hin].
           ++ destruct IH2 as [_ IH2]. discriminate IH2. eauto.
           ++ apply list_elem_of_singleton in Hin. subst d'.
              unfold knownStatus in K. rewrite S' in K. discriminate.
    + split; [discriminate |]. split; [| reflexivity].
      intros _. destruct (proj1 IH2 eq_refl) as (d' & Hin & S').
      exists d'. split; [| exact S']. apply elem_of_app. now left.
Qed.

(** A stored status "toString" makes the renter's load fail. *)
Lemma loadMyBookings_partition_witness :
  loadMyBookings
    [("b1", Fixtures.pastBooking (Some "toString"));
     ("b2", Fixtures.pastBooking (Some "pending"))] = None.
Proof.
  apply (proj2 (loadMyBookings_partition _)).
  exists ("b1", Fixtures.pastBooking (Some "toString")).
  split; [| reflexivity].
  apply list_elem_of_here.
Defined.

Example loadMyBookings_drops_unknown :
  loadMyBookings [("b1", Fixtures.pastBooking (Some "cancelled"));
                  ("b2", Fixtures.pastBooking (Some "declined"))]
  = Some {| pending := []; accepted := [];
            declined := [("b2", Fixtures.pastBooking (Some "declined"))];
            archived := [] |}
  /\ loadOwnerBookings Fixtures.tzNewYork 0
       [("b1", Fixtures.pastBooking (Some "cancelled"))]
     = Some {| pending := []; accepted := []; declined := [];
               archived := [("b1", Fixtures.pastBooking (Some "cancelled"))] |}
  /\ loadMyBookings [("b1", Fixtures.pastBooking (Some "constructor"))] = None.
Proof. vm_compute. repeat split; reflexivity. Qed.

End GroupingFacts.

(** ** The date picker of the booking modal *)
Section ModalFacts.
Import Validators BookingManager BookingModal.

Lemma utcDay_vs_localDay tz now :
  - msPerDay < tz < msPerDay ->
  (tz <= 0 -> localDay tz now <= utcDay now)
  /\ (0 <= tz -> utcDay now <= localDay tz now)
  /\ (0 < tz -> (now + tz) mod msPerDay < tz -> utcDay now = localDay tz now - 1)
  /\ (tz < 0 -> msPerDay + tz <= (now + tz) mod msPerDay ->
      utcDay now = localDay tz now + 1).
Proof.
  unfold utcDay, localDay, msPerDay. intros Htz.
  repeat split; intros; Z.to_euclidean_division_equations; lia.
Qed.

(** X16.  [openBookingModal] sets the earliest date of both date fields
    to the UTC date of the moment, while the precheck of
    [submitBookingRequest] measures "the past" by the local date.  At
    or west of UTC every day from that earliest day on passes the
    past-date check (but in the evening hours the local today lies
    below the earliest day); east of UTC every day from the local today
    on can be picked, and in the first hours of the local day the
    earliest day is yesterday, which the precheck refuses. *)
Theorem booking_modal_min_date tz now item handoverTime legacyStart legacyEnd :
  - msPerDay < tz < msPerDay ->
  (exists o,
      openBookingModal true (Some item) handoverTime legacyStart legacyEnd now
      = Some o
      /\ minDate o = isoOfDay (utcDay now))
  /\ (tz <= 0 -> forall d, utcDay now <= d ->
        validateBookingDates tz now (localMidnight tz d) (localMidnight tz d)
        = ok)
  /\ (tz < 0 -> msPerDay + tz <= (now + tz) mod msPerDay ->
        localDay tz now < utcDay now)
  /\ (0 <= tz -> forall d, localDay tz now <= d -> utcDay now <= d)
  /\ (0 < tz -> (now + tz) mod msPerDay < tz ->
        validateBookingDates tz now (localMidnight tz (utcDay now))
          (localMidnight tz (utcDay now))
        = invalid (Text "Start date cannot be in the past")).
Proof.
  intros Htz.
  destruct (utcDay_vs_localDay tz now Htz) as (W & E & E1 & W1).
  split; [| split; [| split; [| split]]].
  - eexists. split; [reflexivity |]. reflexivity.
  - intros Hw d Hd. unfold validateBookingDates, setHours0.
    destruct (Z.ltb_spec (localMidnight tz d) (localMidnight tz (localDay tz now)))
      as [H | _].
    + apply localMidnight_lt in H. specialize (W Hw). lia.
    + now rewrite Z.ltb_irrefl.
  - intros Hw Hev. rewrite (W1 Hw Hev). lia.
  - intros He d Hd. specialize (E He). lia.
  - intros He Hm. rewrite (E1 He Hm). unfold validateBookingDates, setHours0.
    destruct (Z.ltb_spec (localMidnight tz (localDay tz now - 1))
                (localMidnight tz (localDay tz now))) as [_ | H];
      [reflexivity |].
    apply localMidnight_le in H. lia.
Qed.

(** 07:00 on 2025-06-10 in UTC+8: the picker starts at 2025-06-09. *)
Lemma booking_modal_min_date_witness :
  validateBookingDates Fixtures.tzTaipei
    (localMidnight Fixtures.tzTaipei (Fixtures.day 2025 6 10) + 7 * msPerHour)
    (localMidnight Fixtures.tzTaipei (Fixtures.day 2025 6 9))
    (localMidnight Fixtures.tzTaipei (Fixtures.day 2025 6 9))
  = invalid (Text "Start date cannot be in the past").
Proof.
  destruct (booking_modal_min_date Fixtures.tzTaipei
              (localMidnight Fixtures.tzTaipei (Fixtures.day 2025 6 10)
               + 7 * msPerHour)
              (Fixtures.itemWith None) None None None) as (_ & _ & _ & _ & H).
  - vm_compute. split; reflexivity.
  - apply H; vm_compute; reflexivity.
Defined.

End ModalFacts.

(** ** The listing form *)
Section ListingFacts.
Import Validators BookingManager Listing.

(** X17.  What [collectAvailabilityData] lets through.  A date range
    with both bounds is refused unless the last day is after the first
    (a window of one day cannot be listed); with a bound left empty it
    always passes; bounds are stored at local midnight.  A recurring
    availability is refused exactly when no weekday is checked, and
    lists the numbers of the checked boxes from Monday's to Sunday's.
    Nothing it returns has a type other than the three known ones; for
    any other selected type it returns nothing at all. *)
Theorem collectAvailabilityData_checks tz f :
  (availabilityType f = "dateRange" ->
   forall from until, availableFrom f = Some from ->
     availableUntil f = Some until ->
     (until <= from ->
      collectAvailabilityData tz f
      = Threw "Available Until date must be after Available From date")
     /\ (from < until ->
         collectAvailabilityData tz f
         = Returned (Some {| av_type := Some "dateRange";
                             av_startDate := Some (localMidnight tz from);
                             av_endDate := Some (localMidnight tz until);
                             av_daysOfWeek := None |})))
  /\ (availabilityType f = "dateRange" ->
      availableFrom f = None \/ availableUntil f = None ->
      collectAvailabilityData tz f
      = Returned (Some {| av_type := Some "dateRange";
                          av_startDate := localMidnight tz <$> availableFrom f;
                          av_endDate := localMidnight tz <$> availableUntil f;
                          av_daysOfWeek := None |}))
  /\ (availabilityType f = "recurring" ->
      (omap (dayBox f) weekdayBoxes = [] ->
       collectAvailabilityData tz f
       = Threw "Please select at least one day of the week")
      /\ (omap (dayBox f) weekdayBoxes <> [] ->
          collectAvailabilityData tz f
          = Returned (Some {| av_type := Some "recurring";
                              av_startDate := None; av_endDate := None;
                              av_daysOfWeek :=
                                Some (omap (dayBox f) weekdayBoxes) |})))
  /\ (forall av, collectAvailabilityData tz f = Returned (Some av) ->
        av_type av = Some (availabilityType f)
        /\ (availabilityType f = "always" \/ availabilityType f = "dateRange"
            \/ availabilityType f = "recurring"))
  /\ (availabilityType f <> "always" -> availabilityType f <> "dateRange" ->
      availabilityType f <> "recurring" ->
      collectAvailabilityData tz f = Returned None).
Proof.
  unfold collectAvailabilityData. cbv zeta.
  split; [| split; [| split; [| split]]].
  - intros -> from until -> ->.
    change (String.eqb "dateRange" "always") with false.
    change (String.eqb "dateRange" "dateRange") with true.
    cbn [fmap option_fmap option_map]. split; intros H.
    + assert (L : (localMidnight tz until <=? localMidnight tz from) = true)
        by (apply Z.leb_le; now apply localMidnight_le).
      now rewrite L.
    + assert (L : (localMidnight tz until <=? localMidnight tz from) = false)
        by (apply Z.leb_gt; now apply localMidnight_lt).
      now rewrite L.
  - intros -> [H | H]; rewrite H;
      change (String.eqb "dateRange" "always") with false;
      change (String.eqb "dateRange" "dateRange") with true;
      cbn [fmap option_fmap option_map];
      [reflexivity | now destruct (availableFrom f)].
  - intros ->.
    change (String.eqb "recurring" "always") with false.
    change (String.eqb "recurring" "dateRange") with false.
    change (String.eqb "recurring" "recurring") with true.
    cbv iota. destruct (omap (dayBox f) weekdayBoxes);
      split; intros; try reflexivity; congruence.
  - intros av.
    destruct (String.eqb_spec (availabilityType f) "always") as [-> | _];
      [intros [= <-]; split; [reflexivity | now left] |].
    destruct (String.eqb_spec (availabilityType f) "dateRange") as [-> | _].
    { destruct (availableFrom f), (availableUntil f);
        cbn [fmap option_fmap option_map]; try destruct (_ <=? _);
        intros [= <-]; split; auto. }
    destruct (String.eqb_spec (availabilityType f) "recurring") as [-> | _];
      [| discriminate].
    destruct (omap _ _); [discriminate |].
    intros [= <-]. split; auto.
  - intros Ha Hd Hr. apply String.eqb_neq in Ha, Hd, Hr.
    now rewrite Ha, Hd, Hr.
Qed.

(** A window of the single day 2025-06-10 is refused. *)
Lemma collectAvailabilityData_checks_witness :
  collectAvailabilityData Fixtures.tzTaipei
    {| availabilityType := "dateRange";
       availableFrom := Some (Fixtures.day 2025 6 10);
       availableUntil := Some (Fixtures.day 2025 6 10);
       dayBox := fun _ => None |}
  = Threw "Available Until date must be after Available From date".
Proof.
  apply (proj1 (collectAvailabilityData_checks Fixtures.tzTaipei
                  {| availabilityType := "dateRange";
                     availableFrom := Some (Fixtures.day 2025 6 10);
                     availableUntil := Some (Fixtures.day 2025 6 10);
                     dayBox := fun _ => None |}) eq_refl
           (Fixtures.day 2025 6 10) (Fixtures.day 2025 6 10) eq_refl eq_refl).
  lia.
Defined.

Lemma collectAvailabilityData_shape tz f av :
  collectAvailabilityData tz f = Returned (Some av) ->
  availabilityType f = "dateRange" ->
  av_type av = Some "dateRange"
  /\ av_startDate av = localMidnight tz <$> availableFrom f
  /\ av_endDate av = localMidnight tz <$> availableUntil f.
Proof.
  unfold collectAvailabilityData. cbv zeta. intros H E. revert H. rewrite E.
  change (String.eqb "dateRange" "always") with false.
  change (String.eqb "dateRange" "dateRange") with true.
  destruct (availableFrom f), (availableUntil f);
    cbn [fmap option_fmap option_map]; try destruct (_ <=? _);
    intros [= <-]; auto.
Qed.

(** X18.  From the listing form to the booking form, in one zone: on an
    item whose availability is the date range the form returned, a
    request passes the availability block of [submitBookingRequest]
    exactly when it starts on or after the first listed day and ends
    on or before the last one (an empty field sets no limit). *)
Theorem listed_window_admits tz f av item ds de :
  collectAvailabilityData tz f = Returned (Some av) ->
  availabilityType f = "dateRange" ->
  item_availability item = Some av ->
  availabilityAlert tz item (localMidnight tz ds) (localMidnight tz de) = None
  <-> (forall from, availableFrom f = Some from -> from <= ds)
      /\ (forall until, availableUntil f = Some until -> de <= until).
Proof.
  intros C T Hav.
  destruct (collectAvailabilityData_shape tz f av C T) as (Hty & Hs & He).
  unfold availabilityAlert. rewrite Hav, Hty, Hs, He.
  change (strictEq (Some "dateRange") "dateRange") with true. cbv iota zeta.
  destruct (availableFrom f) as [from |], (availableUntil f) as [until |];
    cbn [fmap option_fmap option_map];
    rewrite ?dateOnly_lt, ?localDay_localMidnight;
    repeat match goal with
           | |- context [?a <? ?b] => destruct (Z.ltb_spec a b)
           end;
    (split; [intros HN; try discriminate; split; intros ? [= <-]; lia
            | intros [HA HB]; try reflexivity;
              try (specialize (HA _ eq_refl)); try (specialize (HB _ eq_refl));
              lia]).
Qed.

Lemma listed_window_admits_witness :
  availabilityAlert Fixtures.tzTaipei
    (Fixtures.itemWith (Some (Fixtures.window Fixtures.tzTaipei)))
    (localMidnight Fixtures.tzTaipei (Fixtures.day 2025 6 10))
    (localMidnight Fixtures.tzTaipei (Fixtures.day 2025 6 20)) = None.
Proof.
  apply (listed_window_admits Fixtures.tzTaipei
           {| availabilityType := "dateRange";
              availableFrom := Some (Fixtures.day 2025 6 10);
              availableUntil := Some (Fixtures.day 2025 6 20);
              dayBox := fun _ => None |}
           (Fixtures.window Fixtures.tzTaipei)).
  - vm_compute. reflexivity.
  - reflexivity.
  - reflexivity.
  - split; intros ? [= <-]; vm_compute; discriminate.
Defined.

(** The local day, seen from zone [tzR], of a midnight of zone [tzO]. *)
Lemma localDay_other_zone tzO tzR d :
  (tzO <= tzR < tzO + msPerDay -> localDay tzR (localMidnight tzO d) = d)
  /\ (tzO - msPerDay <= tzR < tzO ->
      localDay tzR (localMidnight tzO d) = d - 1).
Proof.
  unfold localDay, localMidnight, msPerDay.
  split; intros; Z.to_euclidean_division_equations; lia.
Qed.

(** X19.  The listed window moves with the renter's zone.  The bounds
    are stored as midnights of the owner's zone and compared by the
    renter's local date: for a renter west of the owner (by less than
    a day) the whole window lies one day earlier - the day before the
    first listed day can be booked, the last listed day cannot; for a
    renter in the owner's zone or east of it the window is as
    listed. *)
Theorem listed_window_shifts_west tzO tzR f av item ds de from until :
  collectAvailabilityData tzO f = Returned (Some av) ->
  availabilityType f = "dateRange" ->
  availableFrom f = Some from -> availableUntil f = Some until ->
  item_availability item = Some av ->
  (tzO - msPerDay <= tzR < tzO ->
   (availabilityAlert tzR item (localMidnight tzR ds) (localMidnight tzR de)
    = None <-> from - 1 <= ds /\ de <= until - 1))
  /\ (tzO <= tzR < tzO + msPerDay ->
      (availabilityAlert tzR item (localMidnight tzR ds) (localMidnight tzR de)
       = None <-> from <= ds /\ de <= until)).
Proof.
  intros C T Hf Hu Hav.
  destruct (collectAvailabilityData_shape tzO f av C T) as (Hty & Hs & He).
  rewrite Hf in Hs. rewrite Hu in He. cbn in Hs, He.
  unfold availabilityAlert. rewrite Hav, Hty, Hs, He.
  change (strictEq (Some "dateRange") "dateRange") with true. cbv iota zeta.
  rewrite !dateOnly_lt, !localDay_localMidnight.
  destruct (localDay_other_zone tzO tzR from) as [E1 W1].
  destruct (localDay_other_zone tzO tzR until) as [E2 W2].
  split; intros Hz;
    [rewrite (W1 Hz), (W2 Hz) | rewrite (E1 Hz), (E2 Hz)];
    repeat match goal with
           | |- context [?a <? ?b] => destruct (Z.ltb_spec a b)
           end;
    (split; [intros HN; try discriminate; lia
            | intros [HA HB]; try reflexivity; lia]).
Qed.

(** Listed in UTC+8 from 2025-06-10 to 2025-06-20, booked from UTC-5:
    2025-06-09 passes. *)
Lemma listed_window_shifts_west_witness :
  availabilityAlert Fixtures.tzNewYork
    (Fixtures.itemWith (Some (Fixtures.window Fixtures.tzTaipei)))
    (localMidnight Fixtures.tzNewYork (Fixtures.day 2025 6 9))
    (localMidnight Fixtures.tzNewYork (Fixtures.day 2025 6 9)) = None.
Proof.
  apply (proj1 (listed_window_shifts_west Fixtures.tzTaipei Fixtures.tzNewYork
                  {| availabilityType := "dateRange";
                     availableFrom := Some (Fixtures.day 2025 6 10);
                     availableUntil := Some (Fixtures.day 2025 6 20);
                     dayBox := fun _ => None |}
                  (Fixtures.window Fixtures.tzTaipei)
                  (Fixtures.itemWith (Some (Fixtures.window Fixtures.tzTaipei)))
                  (Fixtures.day 2025 6 9) (Fixtures.day 2025 6 9)
                  (Fixtures.day 2025 6 10) (Fixtures.day 2025 6 20)
                  ltac:(vm_compute; reflexivity) eq_refl eq_refl eq_refl eq_refl)).
  - vm_compute. split; [discriminate | reflexivity].
  - vm_compute. split; discriminate.
Defined.

End ListingFacts.

(** ** Handover times *)
Section HandoverFacts.
Import Listing.

Lemma N_of_digitChar n : N_of_ascii (digitChar n) = (48 + Z.to_N (n mod 10))%N.
Proof.
  rewrite <- (N2Nat.id (N_of_ascii _)).
  change (N.to_nat (N_of_ascii (digitChar n))) with (nat_of_ascii (digitChar n)).
  rewrite nat_of_digitChar. pose proof (Z.mod_pos_bound n 10 eq_refl). lia.
Qed.

(** Digits compare as the numbers they print. *)
Lemma digitChar_compare a b :
  Ascii.compare (digitChar a) (digitChar b) = (a mod 10 ?= b mod 10).
Proof.
  unfold Ascii.compare. rewrite !N_of_digitChar.
  pose proof (Z.mod_pos_bound a 10 eq_refl).
  pose proof (Z.mod_pos_bound b 10 eq_refl).
  rewrite <- N2Z.inj_compare, !N2Z.inj_add, !Z2N.id by lia.
  apply Z.add_compare_mono_l.
Qed.

Lemma compare_String a s b t :
  String.compare (String a s) (String b t)
  = match Ascii.compare a b with
    | Eq => String.compare s t
    | ne => ne
    end.
Proof. reflexivity. Qed.

Lemma clock_chars h m :
  clock h m
  = String (digitChar (h / 10))
      (String (digitChar h)
         (String ":" (String (digitChar (m / 10))
                        (String (digitChar m) EmptyString)))).
Proof. reflexivity. Qed.

(** On [HH:MM] values the order of the strings is the order of the
    times. *)
Lemma clock_ltb h1 m1 h2 m2 :
  0 <= h1 < 100 -> 0 <= m1 < 60 -> 0 <= h2 < 100 -> 0 <= m2 < 60 ->
  String.ltb (clock h1 m1) (clock h2 m2) = (60 * h1 + m1 <? 60 * h2 + m2).
Proof.
  intros Hh1 Hm1 Hh2 Hm2. unfold String.ltb.
  rewrite !clock_chars, !compare_String, !digitChar_compare.
  change (Ascii.compare ":" ":") with Eq. cbv iota.
  change (String.compare EmptyString EmptyString) with Eq.
  destruct (Z.compare_spec ((h1 / 10) mod 10) ((h2 / 10) mod 10));
    destruct (Z.compare_spec (h1 mod 10) (h2 mod 10));
    destruct (Z.compare_spec ((m1 / 10) mod 10) ((m2 / 10) mod 10));
    destruct (Z.compare_spec (m1 mod 10) (m2 mod 10));
    symmetry; first [apply Z.ltb_lt | apply Z.ltb_ge];
    Z.to_euclidean_division_equations; lia.
Qed.

(** X20.  [collectHandoverTime] on the values a time field produces: with
    both times given it refuses exactly when the end is not after the
    start, and otherwise returns both; with one time given it never
    refuses and returns that one with [null] for the other; with none
    it returns [null]. *)
Theorem collectHandoverTime_checks h1 m1 h2 m2 :
  0 <= h1 < 24 -> 0 <= m1 < 60 -> 0 <= h2 < 24 -> 0 <= m2 < 60 ->
  (60 * h2 + m2 <= 60 * h1 + m1 ->
   collectHandoverTime (clock h1 m1) (clock h2 m2)
   = Threw "Handover end time must be after start time")
  /\ (60 * h1 + m1 < 60 * h2 + m2 ->
      collectHandoverTime (clock h1 m1) (clock h2 m2)
      = Returned (Some {| ht_start := Some (clock h1 m1);
                          ht_end := Some (clock h2 m2) |}))
  /\ collectHandoverTime (clock h1 m1) ""
     = Returned (Some {| ht_start := Some (clock h1 m1); ht_end := None |})
  /\ collectHandoverTime "" (clock h2 m2)
     = Returned (Some {| ht_start := None; ht_end := Some (clock h2 m2) |})
  /\ collectHandoverTime "" "" = Returned None.
Proof.
  intros Hh1 Hm1 Hh2 Hm2.
  split; [| split; [| split; [| split]]]; try reflexivity.
  - intros H. unfold collectHandoverTime, geb.
    rewrite clock_ltb by lia.
    assert (L : (60 * h1 + m1 <? 60 * h2 + m2) = false) by (apply Z.ltb_ge; lia).
    rewrite L, !clock_chars. reflexivity.
  - intros H. unfold collectHandoverTime, geb.
    rewrite clock_ltb by lia.
    assert (L : (60 * h1 + m1 <? 60 * h2 + m2) = true) by (apply Z.ltb_lt; lia).
    rewrite L, !clock_chars. reflexivity.
Qed.

Lemma collectHandoverTime_checks_witness :
  collectHandoverTime (clock 18 0) (clock 9 30)
  = Threw "Handover end time must be after start time".
Proof.
  apply (proj1 (collectHandoverTime_checks 18 0 9 30
                  ltac:(lia) ltac:(lia) ltac:(lia) ltac:(lia))).
  lia.
Defined.

End HandoverFacts.

(** ** Chats *)
Section ChatFacts.
Import ChatManager.

Lemma ltb_asym a b : String.ltb a b = true -> String.ltb b a = false.
Proof.
  unfold String.ltb. rewrite (String.compare_antisym a b).
  now destruct (String.compare b a).
Qed.

Lemma ltb_total a b :
  String.ltb a b = false -> String.ltb b a = false -> a = b.
Proof.
  unfold String.ltb. rewrite (String.compare_antisym a b).
  destruct (String.compare b a) eqn:E; cbn; try discriminate.
  intros _ _. symmetry. now apply String.compare_eq_iff.
Qed.

(** Sorting the two users forgets who is who, and nothing else. *)
Lemma sort2_sym a b : sort2 a b = sort2 b a.
Proof.
  unfold sort2.
  destruct (String.ltb b a) eqn:E1, (String.ltb a b) eqn:E2;
    try reflexivity.
  - apply ltb_asym in E1. congruence.
  - now rewrite (ltb_total a b E2 E1).
Qed.

Lemma sort2_pair a b x y :
  sort2 a b = (x, y) -> (x = a /\ y = b) \/ (x = b /\ y = a).
Proof. unfold sort2. destruct (String.ltb b a); intros [= <- <-]; auto. Qed.

Lemma split_three a b c :
  hasChar "_" a = false -> hasChar "_" b = false -> hasChar "_" c = false ->
  split "_" (a +:+ "_" +:+ b +:+ "_" +:+ c) = [a; b; c].
Proof.
  intros Ha Hb Hc. unfold split.
  change (a +:+ "_" +:+ b +:+ "_" +:+ c) with (a +:+ String "_" (b +:+ String "_" c)).
  rewrite splitAux_app by assumption.
  rewrite splitAux_app by assumption.
  now rewrite splitAux_no_sep by assumption.
Qed.

(** X21.  Chat identifiers.  Without a current item there is none.
    The identifier does not depend on which of the two users owns the
    item: the owner's identifier for a chat with [u] is the one [u]
    would get on an item owned by the other.  On identifiers without
    underscores (as the store and the sign-in service generate them)
    two chats have the same identifier only when they are about the
    same item and between the same two users. *)
Theorem getChatId_pairs item1 item2 itemId1 itemId2 u1 u2 :
  getChatId None itemId1 u1 = None
  /\ (item_ownerId item1 = u2 -> item_ownerId item2 = u1 ->
      getChatId (Some item1) itemId1 u1 = getChatId (Some item2) itemId1 u2)
  /\ (hasChar "_" itemId1 = false -> hasChar "_" itemId2 = false ->
      hasChar "_" (item_ownerId item1) = false ->
      hasChar "_" (item_ownerId item2) = false ->
      hasChar "_" u1 = false -> hasChar "_" u2 = false ->
      getChatId (Some item1) itemId1 u1 = getChatId (Some item2) itemId2 u2 ->
      itemId1 = itemId2
      /\ ((item_ownerId item1 = item_ownerId item2 /\ u1 = u2)
          \/ (item_ownerId item1 = u2 /\ u1 = item_ownerId item2))).
Proof.
  split; [reflexivity | split].
  - intros E1 E2. unfold getChatId. cbv zeta.
    now rewrite E1, E2, (sort2_sym u2 u1).
  - intros Hi1 Hi2 Ho1 Ho2 Hu1 Hu2. unfold getChatId. cbv zeta.
    destruct (sort2 (item_ownerId item1) u1) as [x1 y1] eqn:S1.
    destruct (sort2 (item_ownerId item2) u2) as [x2 y2] eqn:S2.
    cbn [fst snd]. intros [= E].
    apply sort2_pair in S1, S2.
    assert (Hx1 : hasChar "_" x1 = false /\ hasChar "_" y1 = false)
      by (destruct S1 as [[-> ->] | [-> ->]]; auto).
    assert (Hx2 : hasChar "_" x2 = false /\ hasChar "_" y2 = false)
      by (destruct S2 as [[-> ->] | [-> ->]]; auto).
    apply (f_equal (split "_")) in E.
    rewrite !split_three in E by tauto.
    injection E as -> -> ->. split; [reflexivity |].
    destruct S1 as [[A1 B1] | [A1 B1]], S2 as [[A2 B2] | [A2 B2]]; subst.
    + left. split; congruence.
    + right. split; congruence.
    + right. split; congruence.
    + left. split; congruence.
Qed.

(** Alice's item seen by Bob, and an item of Bob's seen by Alice. *)
Lemma getChatId_pairs_witness :
  getChatId (Some (Fixtures.itemWith None)) "item1" "bob"
  = getChatId (Some {| item_name := "Tent"; item_ownerId := "bob";
                       item_ownerName := "Bob";
                       item_ownerEmail := "bob@cornell.edu";
                       item_availability := None |}) "item1" "alice".
Proof.
  apply (proj1 (proj2 (getChatId_pairs (Fixtures.itemWith None) _
                         "item1" "item1" "bob" "alice"))); reflexivity.
Defined.

End ChatFacts.

(** ** Unread messages *)
Section UnreadFacts.
Import ChatManager.

Lemma filter_length_le {A} (p q : A -> bool) l :
  (forall x, p x = true -> q x = true) ->
  (length (List.filter p l) <= length (List.filter q l))%nat.
Proof.
  intros H. induction l as [| x l IH]; [reflexivity |]. cbn [List.filter].
  destruct (p x) eqn:P; [rewrite (H x P); cbn; lia |].
  destruct (q x); cbn; lia.
Qed.

Lemma filter_length_zero {A} (p : A -> bool) l :
  length (List.filter p l) = 0%nat <-> List.Forall (fun x => p x = false) l.
Proof.
  induction l as [| x l IH]; cbn [List.filter].
  - split; [constructor | reflexivity].
  - destruct (p x) eqn:P; cbn [length].
    + split; [discriminate | intros H; inversion H; congruence].
    + rewrite IH. split; [now constructor | intros H; now inversion H].
Qed.

(** X22.  What [getUnreadCount] counts.  It answers 0 without a
    signed-in user and when a read fails.  Otherwise the user's own
    messages never count and the answer is at most the number of
    messages of the others; it is that number while the user has no
    read marker in the chat; with a marker [t] it is 0 exactly when
    every message of the others carries a creation time at or before
    [t] or none yet - a message still waiting for its server time is
    counted without a marker and not counted with one. *)
Theorem getUnreadCount_counts user chatId chats :
  chatId <> "" ->
  getUnreadCount None chatId true chats = 0%nat
  /\ getUnreadCount (Some user) chatId false chats = 0%nat
  /\ (getUnreadCount (Some user) chatId true chats
      <= length (List.filter
                   (fun m => negb (String.eqb (senderId m) (uid user)))
                   (default [] (chatMessages chats !! chatId))))%nat
  /\ ((chatLastRead chats !! chatId ≫= fun lastRead => lastRead !! uid user)
      = None ->
      getUnreadCount (Some user) chatId true chats
      = length (List.filter
                  (fun m => negb (String.eqb (senderId m) (uid user)))
                  (default [] (chatMessages chats !! chatId))))
  /\ (forall t,
        (chatLastRead chats !! chatId ≫= fun lastRead => lastRead !! uid user)
        = Some t ->
        (getUnreadCount (Some user) chatId true chats = 0%nat
         <-> List.Forall
               (fun m => senderId m = uid user
                         \/ match createdAt m with
                            | Some c => c <= t
                            | None => True
                            end)
               (default [] (chatMessages chats !! chatId)))).
Proof.
  intros Hc. apply String.eqb_neq in Hc.
  unfold getUnreadCount. rewrite Hc. cbn [negb]. cbv zeta.
  split; [reflexivity | split; [reflexivity | split; [| split]]].
  - apply filter_length_le. unfold isUnread. intros m H.
    now apply andb_true_iff in H.
  - intros ->. f_equal. apply filter_ext. intros m. unfold isUnread.
    now rewrite andb_true_r.
  - intros t ->. rewrite filter_length_zero.
    split; intros H; eapply List.Forall_impl; try exact H;
      intros m; unfold isUnread; cbv beta.
    + destruct (String.eqb_spec (senderId m) (uid user)) as [E | _];
        [now left |].
      cbn [negb andb]. destruct (createdAt m) as [c |]; [| now right].
      intros L. apply Z.ltb_ge in L. now right.
    + intros [E | E].
      * apply String.eqb_eq in E. now rewrite E.
      * destruct (createdAt m) as [c |]; [| apply andb_false_r].
        apply Z.ltb_ge in E. rewrite E. apply andb_false_r.
Qed.

(** Bob has read up to 200; Alice has sent messages at 100 and 150 and
    one that is not stamped yet. *)
Lemma getUnreadCount_counts_witness :
  getUnreadCount (Some Fixtures.bob) "item1_alice_bob" true
    {| chatLastRead :=
         {[ "item1_alice_bob" := {[ "bob" := 200 ]} ]};
       chatMessages :=
         {[ "item1_alice_bob" :=
              [ {| senderId := "alice"; createdAt := Some 100 |};
                {| senderId := "bob"; createdAt := Some 300 |};
                {| senderId := "alice"; createdAt := Some 150 |};
                {| senderId := "alice"; createdAt := None |} ] ]} |}
  = 0%nat.
Proof.
  refine (proj2 (proj2 (proj2 (proj2 (proj2
            (getUnreadCount_counts Fixtures.bob "item1_alice_bob" _ _))))
            200 _) _).
  - discriminate.
  - vm_compute. reflexivity.
  - cbn [chatMessages]. rewrite lookup_singleton. cbn [from_option id].
    repeat (apply List.Forall_cons;
            [cbn; first [left; reflexivity | right; lia | right; exact I] |]).
    apply List.Forall_nil.
Defined.

End UnreadFacts.

(** ** Relative times *)
Section TimeAgoFacts.
Import Formatters.

(** X23.  [formatTimeAgo] by the milliseconds elapsed: under a minute
    (also for a date in the future) "just now"; then whole minutes up
    to 59, whole hours up to 23, whole days up to 6 and whole weeks up
    to 3, each rounded down; from four weeks on, the date itself. *)
Theorem formatTimeAgo_buckets now date :
  (now - date < 60000 -> formatTimeAgo now date = Shown "just now")
  /\ (60000 <= now - date < 3600000 ->
      formatTimeAgo now date
      = Shown (decimal ((now - date) / 60000) +:+ "m ago")
      /\ 1 <= (now - date) / 60000 <= 59)
  /\ (3600000 <= now - date < 86400000 ->
      formatTimeAgo now date
      = Shown (decimal ((now - date) / 3600000) +:+ "h ago")
      /\ 1 <= (now - date) / 3600000 <= 23)
  /\ (86400000 <= now - date < 604800000 ->
      formatTimeAgo now date
      = Shown (decimal ((now - date) / 86400000) +:+ "d ago")
      /\ 1 <= (now - date) / 86400000 <= 6)
  /\ (604800000 <= now - date < 2419200000 ->
      formatTimeAgo now date
      = Shown (decimal ((now - date) / 604800000) +:+ "w ago")
      /\ 1 <= (now - date) / 604800000 <= 3)
  /\ (2419200000 <= now - date -> formatTimeAgo now date = LocaleDate date).
Proof.
  unfold formatTimeAgo. cbv zeta.
  set (d := now - date).
  assert (E1 : d / 1000 / 60 = d / 60000) by (rewrite Z.div_div by lia; reflexivity).
  assert (E2 : d / 1000 / 60 / 60 = d / 3600000)
    by (rewrite !Z.div_div by lia; reflexivity).
  assert (E3 : d / 1000 / 60 / 60 / 24 = d / 86400000)
    by (rewrite !Z.div_div by lia; reflexivity).
  assert (E4 : d / 1000 / 60 / 60 / 24 / 7 = d / 604800000)
    by (rewrite !Z.div_div by lia; reflexivity).
  rewrite E4, E3, E2, E1. clear E1 E2 E3 E4.
  split; [| split; [| split; [| split; [| split]]]]; intros Hd;
    repeat match goal with
           | |- context [?a <? ?b] =>
               destruct (Z.ltb_spec a b);
               try (exfalso; Z.to_euclidean_division_equations; lia)
           end;
    try split; try reflexivity; Z.to_euclidean_division_equations; lia.
Qed.

Lemma formatTimeAgo_buckets_witness :
  formatTimeAgo 1000000000 (1000000000 - 7500000) = Shown "2h ago".
Proof.
  apply (proj1 (proj2 (proj2 (formatTimeAgo_buckets 1000000000
                                (1000000000 - 7500000))))).
  lia.
Defined.

End TimeAgoFacts.

(** ** The dashboards after an owner's action *)
Section DashboardFacts.
Import ItemManager Journeys.

Lemma group_push_same b d g : d ∈ group b (push b d g).
Proof.
  destruct b; cbn [group push pending accepted declined archived];
    apply elem_of_app; right; apply list_elem_of_here.
Qed.

Lemma group_push_mono b b' d x g : x ∈ group b' g -> x ∈ group b' (push b d g).
Proof.
  destruct b, b'; cbn [group push pending accepted declined archived];
    try (intros H; exact H); intros H; apply elem_of_app; now left.
Qed.

(** A callback that only pushes files each document of the snapshot
    where it says. *)
Lemma forEach_member visit b d :
  (forall g0 d0 g1, visit g0 d0 = Some g1 ->
     g1 = g0 \/ exists b0, g1 = push b0 d0 g0) ->
  (forall g0 g1, visit g0 d = Some g1 -> g1 = push b d g0) ->
  forall snapshot g,
    d ∈ snapshot -> forEach visit snapshot = Some g -> d ∈ group b g.
Proof.
  intros Hmono Hd snapshot.
  induction snapshot as [| d0 snapshot IH] using rev_ind; intros g Hin Hg.
  - now apply elem_of_nil in Hin.
  - rewrite forEach_snoc in Hg.
    destruct (forEach visit snapshot) as [g0 |] eqn:E; [| discriminate].
    cbn in Hg. apply elem_of_app in Hin as [Hin | Hin].
    + specialize (IH g0 Hin eq_refl).
      destruct (Hmono _ _ _ Hg) as [-> | [b0 ->]]; [exact IH |].
      now apply group_push_mono.
    + apply list_elem_of_singleton in Hin as ->.
      rewrite (Hd _ _ Hg). apply group_push_same.
Qed.

Lemma myBookingsVisit_pushes g0 d0 g1 :
  myBookingsVisit g0 d0 = Some g1 ->
  g1 = g0 \/ exists b0, g1 = push b0 d0 g0.
Proof.
  intros H.
  destruct (myBookingsVisit_cases g0 d0)
    as [[_ E] | [(_ & _ & E) | (_ & b0 & E)]];
    rewrite E in H; [discriminate | left | right; exists b0]; congruence.
Qed.

Lemma ownerBookingsVisit_pushes today g0 d0 g1 :
  ownerBookingsVisit today g0 d0 = Some g1 ->
  g1 = g0 \/ exists b0, g1 = push b0 d0 g0.
Proof.
  intros H.
  destruct (ownerBookingsVisit_cases today g0 d0) as [[_ E] | (_ & b0 & E)];
    rewrite E in H; [discriminate | right; exists b0]; congruence.
Qed.

Lemma statusOf_updated e u newStatus b :
  newStatus = "accepted" \/ newStatus = "declined" ->
  statusOf (updated e u newStatus b) = newStatus.
Proof. now intros [-> | ->]. Qed.

Lemma acted_in_matching e u bookingId newStatus st b field :
  bookings st !! bookingId = Some b -> updateOk e = true ->
  newStatus = "accepted" \/ newStatus = "declined" ->
  field (updated e u newStatus b) = field b ->
  (bookingId, updated e u newStatus b)
  ∈ matching field (field b)
      (snd (handleBookingAction e (Some u) bookingId newStatus st)).
Proof.
  intros Hb Hok Hs Hf. unfold matching, handleBookingAction.
  assert (G : existsb (String.eqb newStatus) ["accepted"; "declined"] = true)
    by (destruct Hs as [-> | ->]; reflexivity).
  rewrite G, Hb, Hok. cbn [negb snd bookings].
  apply list_elem_of_filter. split; [exact Hf |].
  apply elem_of_map_to_list, lookup_insert_eq.
Qed.

(** X24.  From the owner's click to the two dashboards.  After a
    successful [handleBookingAction] on a stored booking, the updated
    booking is in the renter's snapshot and in the owner's; the
    renter's dashboard lists it under the new status whatever its
    dates; the owner's lists a declined booking under [declined], and
    an accepted one under [accepted] while its end date has not passed
    and under [archived] afterwards. *)
Theorem acted_booking_on_dashboards e u bookingId newStatus st b tz now
    snapR snapO gR gO :
  bookings st !! bookingId = Some b -> updateOk e = true ->
  newStatus = "accepted" \/ newStatus = "declined" ->
  snapR ≡ₚ matching bk_renterId (bk_renterId b)
             (snd (handleBookingAction e (Some u) bookingId newStatus st)) ->
  snapO ≡ₚ matching bk_ownerId (bk_ownerId b)
             (snd (handleBookingAction e (Some u) bookingId newStatus st)) ->
  loadMyBookings snapR = Some gR ->
  loadOwnerBookings tz now snapO = Some gO ->
  (bookingId, updated e u newStatus b) ∈ group (bucketOf newStatus) gR
  /\ (newStatus = "declined" ->
      (bookingId, updated e u newStatus b) ∈ declined gO)
  /\ (newStatus = "accepted" -> setHours0 tz now <= bk_endDate b ->
      (bookingId, updated e u newStatus b) ∈ accepted gO)
  /\ (newStatus = "accepted" -> bk_endDate b < setHours0 tz now ->
      (bookingId, updated e u newStatus b) ∈ archived gO).
Proof.
  intros Hb Hok Hs HR HO LR LO.
  pose proof (acted_in_matching e u bookingId newStatus st b bk_renterId
                Hb Hok Hs eq_refl) as InR.
  pose proof (acted_in_matching e u bookingId newStatus st b bk_ownerId
                Hb Hok Hs eq_refl) as InO.
  rewrite <- HR in InR. rewrite <- HO in InO.
  pose proof (statusOf_updated e u newStatus b Hs) as St.
  set (d := (bookingId, updated e u newStatus b)) in *.
  split; [| split; [| split]].
  - apply (forEach_member myBookingsVisit (bucketOf newStatus) d
             myBookingsVisit_pushes) with (snapshot := snapR); auto.
    intros g0 g1 Hv.
    destruct (myBookingsVisit_rule g0 d) as (_ & A & D & _).
    destruct Hs as [-> | ->];
      [rewrite (A St) in Hv | rewrite (D St) in Hv]; now injection Hv as <-.
  - intros ->.
    apply (forEach_member (ownerBookingsVisit (setHours0 tz now)) Declined d
             (ownerBookingsVisit_pushes _)) with (snapshot := snapO); auto.
    intros g0 g1 Hv.
    destruct (ownerBookingsVisit_rule (setHours0 tz now) g0 d) as (_ & _ & _ & D).
    rewrite (D St) in Hv. now injection Hv as <-.
  - intros -> Hle.
    apply (forEach_member (ownerBookingsVisit (setHours0 tz now)) Accepted d
             (ownerBookingsVisit_pushes _)) with (snapshot := snapO); auto.
    intros g0 g1 Hv.
    destruct (ownerBookingsVisit_rule (setHours0 tz now) g0 d) as (_ & _ & A & _).
    rewrite (A St Hle) in Hv. now injection Hv as <-.
  - intros -> Hlt.
    apply (forEach_member (ownerBookingsVisit (setHours0 tz now)) Archived d
             (ownerBookingsVisit_pushes _)) with (snapshot := snapO); auto.
    intros g0 g1 Hv.
    destruct (ownerBookingsVisit_rule (setHours0 tz now) g0 d) as (A & _).
    rewrite (A (or_intror St) Hlt) in Hv. now injection Hv as <-.
Qed.

(** Alice accepts, on 2025-06-01, Bob's booking that ended on
    2025-05-03: Bob sees it under [accepted], Alice under
    [archived]. *)
Lemma acted_booking_on_dashboards_witness :
  exists gR gO d,
    loadMyBookings [d] = Some gR
    /\ loadOwnerBookings Fixtures.tzNewYork
         (localMidnight Fixtures.tzNewYork (Fixtures.day 2025 6 1)) [d]
       = Some gO
    /\ d ∈ accepted gR /\ d ∈ archived gO.
Proof.
  set (e := {| timestampNow := 5; serverTime := 6; updateOk := true |}).
  set (b := Fixtures.pastBooking (Some "pending")).
  set (d := ("b1", updated e Fixtures.alice "accepted" b)).
  set (now := localMidnight Fixtures.tzNewYork (Fixtures.day 2025 6 1)).
  exists (push Accepted d noGroups), (push Archived d noGroups), d.
  assert (M1 : [d] ≡ₚ matching bk_renterId (bk_renterId b)
                        (snd (handleBookingAction e (Some Fixtures.alice) "b1"
                                "accepted" (Fixtures.storeWith "b1" b)))).
  { vm_compute. reflexivity. }
  assert (M2 : [d] ≡ₚ matching bk_ownerId (bk_ownerId b)
                        (snd (handleBookingAction e (Some Fixtures.alice) "b1"
                                "accepted" (Fixtures.storeWith "b1" b)))).
  { vm_compute. reflexivity. }
  assert (L1 : loadMyBookings [d] = Some (push Accepted d noGroups))
    by reflexivity.
  assert (L2 : loadOwnerBookings Fixtures.tzNewYork now [d]
               = Some (push Archived d noGroups)) by (vm_compute; reflexivity).
  destruct (acted_booking_on_dashboards e Fixtures.alice "b1" "accepted"
              (Fixtures.storeWith "b1" b) b Fixtures.tzNewYork now
              [d] [d] _ _ eq_refl eq_refl (or_introl eq_refl) M1 M2 L1 L2)
    as (A & _ & _ & B).
  split; [exact L1 | split; [exact L2 | split; [exact A |]]].
  apply B; [reflexivity | vm_compute; reflexivity].
Defined.

End DashboardFacts.

(** ** A new request on the dashboards *)
Section RequestDashboardFacts.
Import Validators BookingManager ItemManager Journeys.



End RequestDashboardFacts.

(** ** Zones *)
Section ZoneFacts.
Import JsZone Zoned Validators BookingManager.

(** *** A zone of one offset *)

Lemma utcOfLocal_fixed tz tl : utcOfLocal (fixedZone tz) tl = tl - tz.
Proof.
  unfold utcOfLocal, possibleInstants, localTime, offsetAt. cbn.
  replace (tl - tz + tz) with tl by ring. now rewrite Z.eqb_refl.
Qed.

Lemma localDayIn_fixed tz t : localDayIn (fixedZone tz) t = localDay tz t.
Proof. reflexivity. Qed.

Lemma localMidnightIn_fixed tz d :
  localMidnightIn (fixedZone tz) d = localMidnight tz d.
Proof. apply utcOfLocal_fixed. Qed.

Lemma setHours0In_fixed tz t : setHours0In (fixedZone tz) t = setHours0 tz t.
Proof. apply utcOfLocal_fixed. Qed.

Lemma dateOnlyIn_fixed tz t : dateOnlyIn (fixedZone tz) t = dateOnly tz t.
Proof. apply utcOfLocal_fixed. Qed.

Lemma addDayIn_fixed tz t : addDayIn (fixedZone tz) t = addDay t.
Proof.
  unfold addDayIn. rewrite utcOfLocal_fixed. unfold localTime, offsetAt, addDay.
  cbn [fixedZone zoneBase zoneChanges offsetFrom]. lia.
Qed.

Lemma getDayIn_fixed tz t : getDayIn (fixedZone tz) t = getDay tz t.
Proof. reflexivity. Qed.

(** *** A stretch without a change *)

Lemma offsetFrom_in changes t : forall o,
  In (offsetFrom o changes t) (o :: map snd changes).
Proof.
  induction changes as [| c rest IH]; intros o; cbn [offsetFrom map].
  - now left.
  - destruct (fst c <=? t); [right; apply IH | now left].
Qed.

Lemma offsetFrom_steady lo hi t changes : forall o,
  forallb (fun c => (fst c <=? lo) || (hi <? fst c)) changes = true ->
  lo <= t <= hi ->
  offsetFrom o changes t = offsetFrom o changes lo.
Proof.
  induction changes as [| c rest IH]; intros o H Ht; [reflexivity |].
  cbn [forallb] in H. apply andb_true_iff in H as [Hc Hrest].
  cbn [offsetFrom]. unfold Date in *. apply orb_true_iff in Hc as [Hc | Hc].
  - apply Z.leb_le in Hc.
    destruct (Z.leb_spec (fst c) t), (Z.leb_spec (fst c) lo); try lia.
    now apply IH.
  - apply Z.ltb_lt in Hc.
    destruct (Z.leb_spec (fst c) t), (Z.leb_spec (fst c) lo); lia.
Qed.

Lemma calm_parts z tz lo hi :
  calm z tz lo hi = true ->
  boundedOffsets z = true /\ steady z lo hi = true /\ offsetAt z lo = tz.
Proof.
  unfold calm. intros H. apply andb_true_iff in H as [H E].
  apply andb_true_iff in H as [B S]. apply Z.eqb_eq in E. auto.
Qed.

Lemma calm_offset z tz lo hi t :
  calm z tz lo hi = true -> lo <= t <= hi -> offsetAt z t = tz.
Proof.
  intros H Ht. apply calm_parts in H as (_ & S & <-).
  unfold offsetAt. now apply (offsetFrom_steady lo hi).
Qed.

Lemma boundedOffsets_in z o :
  boundedOffsets z = true -> In o (offsets z) -> - msPerDay < o < msPerDay.
Proof.
  unfold boundedOffsets. intros H Ho.
  rewrite forallb_forall in H. specialize (H o Ho).
  apply andb_true_iff in H as [H1 H2].
  apply Z.ltb_lt in H1, H2. lia.
Qed.

Lemma calm_bound z tz lo hi :
  calm z tz lo hi = true -> - msPerDay < tz < msPerDay.
Proof.
  intros H. apply calm_parts in H as (B & _ & <-).
  apply (boundedOffsets_in z _ B). apply offsetFrom_in.
Qed.

Lemma earliest_all l x :
  l <> [] -> (forall y, In y l -> y = x) -> earliest l = Some x.
Proof.
  destruct l as [| t rest]; [congruence |]. intros _ H. cbn [earliest].
  f_equal. rewrite (H t (or_introl eq_refl)).
  assert (R : forall y, In y rest -> y = x) by (intros y Hy; apply H; now right).
  clear H. induction rest as [| y rest IH]; [reflexivity |].
  cbn [fold_right]. rewrite IH by (intros y' Hy'; apply R; now right).
  rewrite (R y (or_introl eq_refl)). apply Z.min_id.
Qed.

(** Away from the ends of the stretch, local times are read with its
    offset. *)
Lemma utcOfLocal_calm z tz lo hi tl :
  calm z tz lo hi = true ->
  lo + 2 * msPerDay <= tl - tz <= hi - 2 * msPerDay ->
  utcOfLocal z tl = tl - tz.
Proof.
  intros C Htl. pose proof (calm_bound _ _ _ _ C) as Btz.
  pose proof (calm_parts _ _ _ _ C) as (B & _ & E0).
  unfold utcOfLocal.
  rewrite (earliest_all (possibleInstants z tl) (tl - tz)); [reflexivity | |].
  - assert (I : In (tl - tz) (possibleInstants z tl)).
    { unfold possibleInstants. apply filter_In. split.
      - apply in_map_iff. exists tz. split; [reflexivity |].
        rewrite <- E0. apply offsetFrom_in.
      - unfold localTime. rewrite (calm_offset z tz lo hi) by (assumption || lia).
        apply Z.eqb_eq. ring. }
    intros N. rewrite N in I. exact I.
  - intros t Ht. unfold possibleInstants in Ht. apply filter_In in Ht as [Hm Hf].
    apply in_map_iff in Hm as (o & <- & Ho).
    pose proof (boundedOffsets_in z o B Ho) as Bo.
    unfold localTime in Hf. apply Z.eqb_eq in Hf.
    rewrite (calm_offset z tz lo hi) in Hf by (assumption || lia). lia.
Qed.

Lemma localTime_calm z tz lo hi t :
  calm z tz lo hi = true -> lo <= t <= hi -> localTime z t = t + tz.
Proof. intros C Ht. unfold localTime. now rewrite (calm_offset z tz lo hi). Qed.

Lemma localDayIn_calm z tz lo hi t :
  calm z tz lo hi = true -> lo <= t <= hi -> localDayIn z t = localDay tz t.
Proof.
  intros C Ht. unfold localDayIn, localDay.
  now rewrite (localTime_calm z tz lo hi).
Qed.

Lemma getDayIn_calm z tz lo hi t :
  calm z tz lo hi = true -> lo <= t <= hi -> getDayIn z t = getDay tz t.
Proof.
  intros C Ht. unfold getDayIn, getDay. now rewrite (localDayIn_calm z tz lo hi).
Qed.

Lemma setHours0_near tz t : t - msPerDay < setHours0 tz t <= t.
Proof.
  unfold setHours0, localMidnight, localDay, msPerDay.
  Z.to_euclidean_division_equations. lia.
Qed.

Lemma localMidnightIn_calm z tz lo hi d :
  calm z tz lo hi = true ->
  lo + 2 * msPerDay <= localMidnight tz d <= hi - 2 * msPerDay ->
  localMidnightIn z d = localMidnight tz d.
Proof. intros C H. unfold localMidnightIn. now apply (utcOfLocal_calm z tz lo hi). Qed.

Lemma setHours0In_calm z tz lo hi t :
  calm z tz lo hi = true ->
  lo + 3 * msPerDay <= t <= hi - 2 * msPerDay ->
  setHours0In z t = setHours0 tz t.
Proof.
  intros C Ht. unfold setHours0In.
  rewrite (localDayIn_calm z tz lo hi) by (assumption || (unfold msPerDay in *; lia)).
  pose proof (setHours0_near tz t) as N.
  apply (utcOfLocal_calm z tz lo hi); [assumption |].
  unfold setHours0, localMidnight in N. lia.
Qed.

Lemma dateOnlyIn_calm z tz lo hi t :
  calm z tz lo hi = true ->
  lo + 3 * msPerDay <= t <= hi - 2 * msPerDay ->
  dateOnlyIn z t = dateOnly tz t.
Proof. apply setHours0In_calm. Qed.

Lemma addDayIn_calm z tz lo hi t :
  calm z tz lo hi = true ->
  lo + msPerDay <= t <= hi - 3 * msPerDay ->
  addDayIn z t = addDay t.
Proof.
  intros C Ht. unfold addDayIn, addDay.
  rewrite (localTime_calm z tz lo hi) by (assumption || (unfold msPerDay in *; lia)).
  rewrite (utcOfLocal_calm z tz lo hi); [unfold Date in *; lia | assumption |].
  unfold msPerDay in *. lia.
Qed.

(** The loop of [buildLockIds] inside the stretch. *)
Lemma lockLoopIn_days z tz lo hi itemId de :
  calm z tz lo hi = true ->
  localMidnight tz de <= hi - 3 * msPerDay ->
  forall fuel d,
    (Z.to_nat (de - d + 1) <= fuel)%nat ->
    lo + msPerDay <= localMidnight tz d ->
    lockLoopIn fuel z itemId (localMidnight tz d) (localMidnight tz de)
    = Some (map (fun x => keyOfDay itemId (x + zoneShift tz))
              (seqZ d (de - d + 1))).
Proof.
  intros C Hde. induction fuel as [| fuel IH]; intros d Hfuel Hd.
  - assert (H : de < d) by lia. cbn [lockLoopIn].
    assert (L : (localMidnight tz d <=? localMidnight tz de) = false)
      by (apply Z.leb_gt; now apply localMidnight_lt).
    rewrite L. now rewrite seqZ_nil by lia.
  - cbn [lockLoopIn].
    destruct (Z.leb_spec (localMidnight tz d) (localMidnight tz de)) as [H | H].
    + pose proof H as H'. apply localMidnight_le in H'.
      rewrite (addDayIn_calm z tz lo hi) by (assumption || lia).
      rewrite addDay_localMidnight, IH;
        [| lia | rewrite <- addDay_localMidnight; unfold addDay, msPerDay in *; lia].
      rewrite (seqZ_cons d) by lia. cbn [map fmap option_fmap option_map].
      rewrite lockId_localMidnight.
      replace (Z.pred (de - d + 1)) with (de - (d + 1) + 1) by lia.
      reflexivity.
    + assert (de < d) by (apply localMidnight_lt in H; exact H).
      now rewrite seqZ_nil by lia.
Qed.

Lemma lockFuelIn_enough tz d de :
  (Z.to_nat (de - d + 1) <= lockFuelIn (localMidnight tz d) (localMidnight tz de))%nat.
Proof.
  unfold lockFuelIn, localMidnight.
  replace (de * msPerDay - tz - (d * msPerDay - tz))
    with ((de - d) * 24 * msPerHour) by (unfold msPerDay, msPerHour; ring).
  rewrite Z.div_mul by discriminate. lia.
Qed.

(** Inside a stretch without a change [buildLockIds] returns what it
    returns in a zone of that one offset. *)
Lemma buildLockIdsIn_calm z tz lo hi itemId startDate endDate :
  calm z tz lo hi = true ->
  lo + 3 * msPerDay <= startDate <= hi - 3 * msPerDay ->
  lo + 3 * msPerDay <= endDate <= hi - 3 * msPerDay ->
  buildLockIdsIn z itemId startDate endDate
  = Some (buildLockIds tz itemId startDate endDate).
Proof.
  intros C Hs He. unfold buildLockIdsIn. cbv zeta.
  rewrite !(setHours0In_calm z tz lo hi) by (assumption || (unfold msPerDay in *; lia)).
  pose proof (setHours0_near tz startDate) as Ns.
  pose proof (setHours0_near tz endDate) as Ne.
  rewrite buildLockIds_days. unfold setHours0 in *.
  apply (lockLoopIn_days z tz lo hi); try assumption.
  - unfold msPerDay in *. lia.
  - apply lockFuelIn_enough.
  - unfold msPerDay in *. lia.
Qed.

Lemma buildLockIdsIn_fixed tz itemId startDate endDate :
  buildLockIdsIn (fixedZone tz) itemId startDate endDate
  = Some (buildLockIds tz itemId startDate endDate).
Proof.
  unfold buildLockIdsIn. cbv zeta. rewrite !setHours0In_fixed.
  rewrite buildLockIds_days. unfold setHours0.
  generalize (lockFuelIn_enough tz (localDay tz startDate) (localDay tz endDate)).
  generalize (lockFuelIn (localMidnight tz (localDay tz startDate))
                (localMidnight tz (localDay tz endDate))).
  generalize (localDay tz startDate) as d. intros d fuel. revert d.
  induction fuel as [| fuel IH]; intros d Hfuel.
  - assert (H : localDay tz endDate < d) by lia. cbn [lockLoopIn].
    assert (L : (localMidnight tz d <=? localMidnight tz (localDay tz endDate)) = false)
      by (apply Z.leb_gt; now apply localMidnight_lt).
    rewrite L. now rewrite seqZ_nil by lia.
  - cbn [lockLoopIn].
    destruct (Z.leb_spec (localMidnight tz d)
                (localMidnight tz (localDay tz endDate))) as [H | H].
    + apply localMidnight_le in H.
      rewrite addDayIn_fixed, addDay_localMidnight, IH by lia.
      rewrite (seqZ_cons d) by lia. cbn [map fmap option_fmap option_map].
      rewrite lockId_localMidnight.
      replace (Z.pred (localDay tz endDate - d + 1))
        with (localDay tz endDate - (d + 1) + 1) by lia.
      reflexivity.
    + apply localMidnight_lt in H. now rewrite seqZ_nil by lia.
Qed.

Lemma validateBookingDatesIn_fixed tz now startDate endDate :
  validateBookingDatesIn (fixedZone tz) now startDate endDate
  = validateBookingDates tz now startDate endDate.
Proof.
  unfold validateBookingDatesIn, validateBookingDates.
  now rewrite setHours0In_fixed.
Qed.

Lemma validateAvailabilityIn_fixed tz item requestedStart requestedEnd :
  validateAvailabilityIn (fixedZone tz) item requestedStart requestedEnd
  = validateAvailability tz item requestedStart requestedEnd.
Proof. reflexivity. Qed.

Lemma availabilityAlertIn_fixed tz item startDate endDate :
  availabilityAlertIn (fixedZone tz) item startDate endDate
  = availabilityAlert tz item startDate endDate.
Proof.
  unfold availabilityAlertIn, availabilityAlert.
  destruct (item_availability item) as [av |]; [| reflexivity].
  destruct (av_startDate av), (av_endDate av);
    now rewrite ?dateOnlyIn_fixed.
Qed.

Lemma inside_valid lo hi t :
  validTime lo -> validTime hi -> lo <= t <= hi -> validTime t.
Proof. unfold validTime. lia. Qed.

(** *** Lock identifiers away from a change of offset *)

(** X1.  In any zone, for two dates with no change of the zone's
    offset from four days before the earlier to four days after the
    later: [buildLockIds] returns one identifier per local day from
    the start's to the end's, none when the end's day is earlier; the
    identifier at position [i] is the item identifier, an underscore
    and the UTC date of the local midnight of day start + [i]; and the
    time of day of either date does not matter. *)
Theorem buildLockIds_one_per_day z tz lo hi itemId startDate endDate :
  calm z tz lo hi = true -> validTime lo -> validTime hi ->
  inside lo hi startDate -> inside lo hi endDate ->
  exists ids,
    buildLockIdsIn z itemId startDate endDate = Some ids
    /\ length ids
       = Z.to_nat (localDayIn z endDate - localDayIn z startDate + 1)
    /\ (forall i : nat,
          (i < length ids)%nat ->
          ids !! i
          = Some (itemId +:+ "_"
                  +:+ toISODate
                        (localMidnightIn z (localDayIn z startDate + Z.of_nat i))))
    /\ (localDayIn z endDate < localDayIn z startDate -> ids = [])
    /\ buildLockIdsIn z itemId (setHours0In z startDate) (setHours0In z endDate)
       = Some ids.
Proof.
  unfold inside. intros C _ _ Hs He.
  assert (Ds : localDayIn z startDate = localDay tz startDate)
    by (apply (localDayIn_calm z tz lo hi); unfold msPerDay in *; (assumption || lia)).
  assert (De : localDayIn z endDate = localDay tz endDate)
    by (apply (localDayIn_calm z tz lo hi); unfold msPerDay in *; (assumption || lia)).
  pose proof (setHours0_near tz startDate) as Ns.
  pose proof (setHours0_near tz endDate) as Ne.
  exists (buildLockIds tz itemId startDate endDate).
  split; [apply (buildLockIdsIn_calm z tz lo hi); unfold msPerDay in *;
            (assumption || lia) |].
  rewrite Ds, De. split; [apply buildLockIds_length |]. split; [| split].
  - intros i Hi. rewrite buildLockIds_length in Hi.
    rewrite buildLockIds_lookup by assumption.
    rewrite (localMidnightIn_calm z tz lo hi); [| assumption |].
    + now rewrite toISODate_utcDay, utcDay_localMidnight.
    + unfold setHours0 in Ns, Ne.
      assert (localMidnight tz (localDay tz startDate)
              <= localMidnight tz (localDay tz startDate + Z.of_nat i)
              <= localMidnight tz (localDay tz endDate))
        by (split; apply localMidnight_le; lia).
      unfold msPerDay in *. lia.
  - intros H. rewrite buildLockIds_days. now rewrite seqZ_nil by lia.
  - rewrite !(setHours0In_calm z tz lo hi)
      by (assumption || (unfold msPerDay in *; lia)).
    rewrite (buildLockIdsIn_calm z tz lo hi)
      by (assumption || (unfold msPerDay in *; lia)).
    f_equal. rewrite !buildLockIds_days. unfold setHours0.
    now rewrite !localDay_localMidnight.
Qed.

(** Europe/London in June 2025. *)
Lemma buildLockIds_one_per_day_witness :
  exists ids,
    buildLockIdsIn london "item1" (localMidnightIn london (Fixtures.day 2025 6 10))
      (localMidnightIn london (Fixtures.day 2025 6 12)) = Some ids
    /\ length ids = 3%nat.
Proof.
  destruct (buildLockIds_one_per_day london msPerHour
              (utc 2025 4 1 0) (utc 2025 10 1 0) "item1"
              (localMidnightIn london (Fixtures.day 2025 6 10))
              (localMidnightIn london (Fixtures.day 2025 6 12)))
    as (ids & H & L & _).
  - vm_compute. reflexivity.
  - vm_compute. split; discriminate.
  - vm_compute. split; discriminate.
  - vm_compute. split; discriminate.
  - vm_compute. split; discriminate.
  - exists ids. split; [exact H |]. rewrite L. vm_compute. reflexivity.
Defined.

(** X2.  With no change of offset around the two dates (and dates a
    [Date] can hold) the identifiers of one call are pairwise
    distinct. *)
Theorem buildLockIds_NoDup z tz lo hi itemId startDate endDate ids :
  calm z tz lo hi = true -> validTime lo -> validTime hi ->
  inside lo hi startDate -> inside lo hi endDate ->
  buildLockIdsIn z itemId startDate endDate = Some ids ->
  NoDup ids.
Proof.
  unfold inside. intros C Vlo Vhi Hs He H.
  rewrite (buildLockIdsIn_calm z tz lo hi) in H
    by (assumption || (unfold msPerDay in *; lia)).
  injection H as <-.
  pose proof (setHours0_near tz startDate) as Ns.
  pose proof (setHours0_near tz endDate) as Ne.
  apply buildLockIds_distinct;
    apply (inside_valid lo hi); try assumption; unfold msPerDay in *; lia.
Qed.

Lemma buildLockIds_NoDup_witness :
  NoDup ["item1_2025-06-09"; "item1_2025-06-10"; "item1_2025-06-11"].
Proof.
  apply (buildLockIds_NoDup london msPerHour
           (utc 2025 4 1 0) (utc 2025 10 1 0) "item1"
           (localMidnightIn london (Fixtures.day 2025 6 10))
           (localMidnightIn london (Fixtures.day 2025 6 12))).
  - vm_compute. reflexivity.
  - vm_compute. split; discriminate.
  - vm_compute. split; discriminate.
  - vm_compute. split; discriminate.
  - vm_compute. split; discriminate.
  - vm_compute. reflexivity.
Defined.

(** X3.  With no change of offset around the dates, two calls for the
    same item from the same zone share an identifier exactly when
    their ranges of local days meet. *)
Theorem buildLockIds_share_iff_overlap z tz lo hi itemId s1 e1 s2 e2 ids1 ids2 :
  calm z tz lo hi = true -> validTime lo -> validTime hi ->
  inside lo hi s1 -> inside lo hi e1 -> inside lo hi s2 -> inside lo hi e2 ->
  buildLockIdsIn z itemId s1 e1 = Some ids1 ->
  buildLockIdsIn z itemId s2 e2 = Some ids2 ->
  (exists id, id ∈ ids1 /\ id ∈ ids2)
  <-> (exists d, localDayIn z s1 <= d <= localDayIn z e1
                 /\ localDayIn z s2 <= d <= localDayIn z e2).
Proof.
  unfold inside. intros C Vlo Vhi H1 H2 H3 H4 B1 B2.
  rewrite (buildLockIdsIn_calm z tz lo hi) in B1, B2
    by (assumption || (unfold msPerDay in *; lia)).
  injection B1 as <-. injection B2 as <-.
  rewrite !(localDayIn_calm z tz lo hi)
    by (assumption || (unfold msPerDay in *; lia)).
  pose proof (setHours0_near tz s1) as N1.
  pose proof (setHours0_near tz e1) as N2.
  pose proof (setHours0_near tz s2) as N3.
  pose proof (setHours0_near tz e2) as N4.
  assert (R : forall s e,
             buildLockIds tz itemId s e
             = buildLockIds tz itemId (localMidnight tz (localDay tz s))
                 (localMidnight tz (localDay tz e)))
    by (intros s e; rewrite !buildLockIds_days;
        now rewrite !localDay_localMidnight).
  split.
  - rewrite (R s1 e1), (R s2 e2).
    apply buildLockIds_share_days;
      apply (inside_valid lo hi); try assumption;
      unfold setHours0, msPerDay in *; lia.
  - intros (d & D1 & D2). exists (keyOfDay itemId (d + zoneShift tz)).
    split; apply elem_of_buildLockIds; exists d; auto.
Qed.

Lemma buildLockIds_share_iff_overlap_witness :
  exists id,
    id ∈ ["item1_2025-06-09"; "item1_2025-06-10"; "item1_2025-06-11"]
    /\ id ∈ ["item1_2025-06-11"; "item1_2025-06-12"; "item1_2025-06-13"].
Proof.
  apply (proj2 (buildLockIds_share_iff_overlap london msPerHour
                  (utc 2025 4 1 0) (utc 2025 10 1 0) "item1"
                  (localMidnightIn london (Fixtures.day 2025 6 10))
                  (localMidnightIn london (Fixtures.day 2025 6 12))
                  (localMidnightIn london (Fixtures.day 2025 6 12))
                  (localMidnightIn london (Fixtures.day 2025 6 14))
                  _ _
                  ltac:(vm_compute; reflexivity)
                  ltac:(vm_compute; split; discriminate)
                  ltac:(vm_compute; split; discriminate)
                  ltac:(vm_compute; split; discriminate)
                  ltac:(vm_compute; split; discriminate)
                  ltac:(vm_compute; split; discriminate)
                  ltac:(vm_compute; split; discriminate)
                  ltac:(vm_compute; reflexivity)
                  ltac:(vm_compute; reflexivity))).
  exists (Fixtures.day 2025 6 12). vm_compute. repeat split; discriminate.
Defined.

(** *** The validators and the call away from a change of offset *)

Lemma validateBookingDatesIn_calm z tz lo hi now startDate endDate :
  calm z tz lo hi = true ->
  lo + 3 * msPerDay <= now <= hi - 2 * msPerDay ->
  validateBookingDatesIn z now startDate endDate
  = validateBookingDates tz now startDate endDate.
Proof.
  intros C H. unfold validateBookingDatesIn, validateBookingDates.
  now rewrite (setHours0In_calm z tz lo hi).
Qed.

Lemma validateAvailabilityIn_calm z tz lo hi item requestedStart requestedEnd :
  calm z tz lo hi = true ->
  lo <= requestedStart <= hi -> lo <= requestedEnd <= hi ->
  validateAvailabilityIn z item requestedStart requestedEnd
  = validateAvailability tz item requestedStart requestedEnd.
Proof.
  intros C Hs He. unfold validateAvailabilityIn, validateAvailability.
  now rewrite !(localDayIn_calm z tz lo hi), (getDayIn_calm z tz lo hi).
Qed.

Lemma availabilityAlertIn_calm z tz lo hi item startDate endDate :
  calm z tz lo hi = true ->
  lo + 3 * msPerDay <= startDate <= hi - 2 * msPerDay ->
  lo + 3 * msPerDay <= endDate <= hi - 2 * msPerDay ->
  (forall av bound,
      item_availability item = Some av ->
      av_startDate av = Some bound \/ av_endDate av = Some bound ->
      lo + 3 * msPerDay <= bound <= hi - 2 * msPerDay) ->
  availabilityAlertIn z item startDate endDate
  = availabilityAlert tz item startDate endDate.
Proof.
  intros C Hs He Hb. unfold availabilityAlertIn, availabilityAlert.
  destruct (item_availability item) as [av |] eqn:Hav; [| reflexivity].
  assert (G : getDayIn z startDate = getDay tz startDate)
    by (apply (getDayIn_calm z tz lo hi); unfold msPerDay in *; (assumption || lia)).
  rewrite G.
  destruct (av_startDate av) as [ps |] eqn:Hps,
           (av_endDate av) as [pe |] eqn:Hpe;
    rewrite ?(dateOnlyIn_calm z tz lo hi startDate),
            ?(dateOnlyIn_calm z tz lo hi endDate) by assumption;
    try rewrite (dateOnlyIn_calm z tz lo hi ps)
      by (assumption || (apply (Hb av); auto));
    try rewrite (dateOnlyIn_calm z tz lo hi pe)
      by (assumption || (apply (Hb av); auto));
    reflexivity.
Qed.

Lemma inside_midnight z tz lo hi d :
  calm z tz lo hi = true -> inside lo hi (d * msPerDay) ->
  lo + 3 * msPerDay <= localMidnight tz d <= hi - 3 * msPerDay
  /\ localMidnightIn z d = localMidnight tz d.
Proof.
  unfold inside. intros C H. pose proof (calm_bound _ _ _ _ C) as B.
  assert (W : lo + 3 * msPerDay <= localMidnight tz d <= hi - 3 * msPerDay)
    by (unfold localMidnight, msPerDay in *; lia).
  split; [exact W |].
  apply (localMidnightIn_calm z tz lo hi); [assumption |].
  unfold msPerDay in *. lia.
Qed.

(** A quiet call does what the call does in a zone of the one offset
    [tz e]. *)
Lemma checkRequestIn_quiet z lo hi e s st :
  quiet z lo hi e s -> checkRequestIn z e s st = Some (checkRequest e s st).
Proof.
  intros (C & _ & _ & Hnow & Hds & Hde & Hb).
  unfold checkRequestIn, checkRequest.
  destruct (currentUser s) as [user |]; [| reflexivity].
  destruct (currentItemData s) as [item |] eqn:Hi; [| reflexivity].
  destruct (String.eqb _ _); [reflexivity |].
  destruct (bookingStartDate s) as [ds |]; [| reflexivity].
  destruct (bookingEndDate s) as [de |]; [| reflexivity].
  cbv zeta.
  destruct (inside_midnight z (tz e) lo hi ds C (Hds _ eq_refl)) as [Ws ->].
  destruct (inside_midnight z (tz e) lo hi de C (Hde _ eq_refl)) as [We ->].
  unfold inside in Hnow.
  rewrite (validateBookingDatesIn_calm z (tz e) lo hi)
    by (assumption || (unfold msPerDay in *; lia)).
  destruct (validateBookingDates _ _ _ _); [| reflexivity].
  rewrite (availabilityAlertIn_calm z (tz e) lo hi);
    [| assumption | unfold msPerDay in *; lia | unfold msPerDay in *; lia |].
  - destruct (availabilityAlert _ _ _ _); [reflexivity |].
    rewrite (buildLockIdsIn_calm z (tz e) lo hi) by assumption.
    destruct (negb (readsOk e)); [reflexivity |].
    now destruct (existingLocks _ _).
  - intros av bound Hav Hbound.
    specialize (Hb item av bound eq_refl Hav Hbound). unfold inside in Hb.
    unfold msPerDay in *. lia.
Qed.

Lemma submitBookingRequestIn_quiet z lo hi e s st :
  quiet z lo hi e s ->
  submitBookingRequestIn z e s st = Some (submitBookingRequest e s st).
Proof.
  intros Q. unfold submitBookingRequestIn, submitBookingRequest.
  rewrite (checkRequestIn_quiet z lo hi) by assumption.
  now destruct (checkRequest e s st).
Qed.

Lemma quiet_offsets z lo hi e1 s1 e2 s2 :
  quiet z lo hi e1 s1 -> quiet z lo hi e2 s2 -> tz e2 = tz e1.
Proof.
  intros (C1 & _) (C2 & _).
  apply calm_parts in C1 as (_ & _ & <-). now apply calm_parts in C2 as (_ & _ & <-).
Qed.

Lemma quiet_days z lo hi e s d :
  quiet z lo hi e s ->
  bookingStartDate s = Some d \/ bookingEndDate s = Some d ->
  validTime (localMidnight (tz e) d)
  /\ localMidnightIn z d = localMidnight (tz e) d.
Proof.
  intros (C & Vlo & Vhi & _ & Hds & Hde & _) H.
  assert (I : inside lo hi (d * msPerDay)) by (destruct H; auto).
  destruct (inside_midnight z (tz e) lo hi d C I) as [W E].
  split; [| exact E].
  apply (inside_valid lo hi); try assumption. unfold msPerDay in *. lia.
Qed.

(** X5.  The two evaluators away from a change of offset.  On an item
    of a known type whose date-range bounds, if any, lie at local
    midnight (as the listing form stores them), and on a request as
    the booking form makes it, with no change of the zone's offset
    from four days before to four days after any of these dates,
    [validateAvailability] accepts exactly when the block in
    [submitBookingRequest] raises no alert. *)
Theorem evaluators_agree z tz lo hi item av ds de :
  calm z tz lo hi = true -> validTime lo -> validTime hi ->
  item_availability item = Some av ->
  av_type av = Some "always" \/ av_type av = Some "dateRange"
  \/ av_type av = Some "recurring" ->
  (forall ps, av_startDate av = Some ps ->
              inside lo hi ps /\ ps = setHours0In z ps) ->
  (forall pe, av_endDate av = Some pe ->
              inside lo hi pe /\ pe = setHours0In z pe) ->
  inside lo hi (ds * msPerDay) -> inside lo hi (de * msPerDay) ->
  valid (validateAvailabilityIn z item (localMidnightIn z ds)
           (localMidnightIn z de)) = true
  <-> availabilityAlertIn z item (localMidnightIn z ds) (localMidnightIn z de)
      = None.
Proof.
  intros C Vlo Vhi Hav Hty Hps Hpe Is Ie.
  destruct (inside_midnight z tz lo hi ds C Is) as [Ws ->].
  destruct (inside_midnight z tz lo hi de C Ie) as [We ->].
  assert (Hb : forall av' bound,
             item_availability item = Some av' ->
             av_startDate av' = Some bound \/ av_endDate av' = Some bound ->
             lo + 3 * msPerDay <= bound <= hi - 2 * msPerDay).
  { intros av' bound Hav' Hbound. rewrite Hav in Hav'. injection Hav' as <-.
    destruct Hbound as [H | H]; [apply Hps in H | apply Hpe in H];
      destruct H as [H _]; unfold inside, msPerDay in *; lia. }
  rewrite (validateAvailabilityIn_calm z tz lo hi)
    by (assumption || (unfold msPerDay in *; lia)).
  rewrite (availabilityAlertIn_calm z tz lo hi)
    by (assumption || (unfold msPerDay in *; lia)).
  apply (evaluators_agree_one_offset tz item av); try assumption.
  - intros ps H. destruct (Hps ps H) as [I E].
    rewrite (setHours0In_calm z tz lo hi) in E; [exact E | assumption |].
    apply (Hb av); auto.
  - intros pe H. destruct (Hpe pe H) as [I E].
    rewrite (setHours0In_calm z tz lo hi) in E; [exact E | assumption |].
    apply (Hb av); auto.
  - apply (inside_valid lo hi); try assumption. unfold msPerDay in *. lia.
  - apply (inside_valid lo hi); try assumption. unfold msPerDay in *. lia.
Qed.

(** Europe/London in June 2025: a request for the whole of a window
    listed there. *)
Lemma evaluators_agree_witness :
  valid (validateAvailabilityIn london
           {| item_name := "Vacuum"; item_ownerId := "alice";
              item_ownerName := "Alice"; item_ownerEmail := "alice@cornell.edu";
              item_availability :=
                Some {| av_type := Some "dateRange";
                        av_startDate :=
                          Some (localMidnightIn london (Fixtures.day 2025 6 10));
                        av_endDate :=
                          Some (localMidnightIn london (Fixtures.day 2025 6 20));
                        av_daysOfWeek := None |} |}
           (localMidnightIn london (Fixtures.day 2025 6 10))
           (localMidnightIn london (Fixtures.day 2025 6 20))) = true.
Proof.
  apply (evaluators_agree london msPerHour (utc 2025 4 1 0) (utc 2025 10 1 0)
           _ {| av_type := Some "dateRange";
                av_startDate :=
                  Some (localMidnightIn london (Fixtures.day 2025 6 10));
                av_endDate :=
                  Some (localMidnightIn london (Fixtures.day 2025 6 20));
                av_daysOfWeek := None |}).
  - vm_compute. reflexivity.
  - vm_compute. split; discriminate.
  - vm_compute. split; discriminate.
  - reflexivity.
  - right. left. reflexivity.
  - intros ps [= <-]. split; [vm_compute; split; discriminate |].
    vm_compute. reflexivity.
  - intros pe [= <-]. split; [vm_compute; split; discriminate |].
    vm_compute. reflexivity.
  - vm_compute. split; discriminate.
  - vm_compute. split; discriminate.
  - vm_compute. reflexivity.
Defined.

(** *** Calls one after the other, away from a change of offset *)

Ltac quiet_here :=
  split; [vm_compute; reflexivity |];
  split; [vm_compute; split; discriminate |];
  split; [vm_compute; split; discriminate |];
  split; [vm_compute; split; discriminate |];
  split; [intros ? [= <-]; vm_compute; split; discriminate |];
  split; [intros ? [= <-]; vm_compute; split; discriminate |];
  intros ? ? ? [= <-] [= <-] [? | ?]; discriminate.

(** X7.  A quiet call (made in any zone, at a time and for days with
    no change of the zone's offset from four days before to four days
    after) returns, and what it has stored when it reports success is:
    a pending booking of somebody other than the owner, whose first
    day is not before the day of the call and whose last day is not
    before its first, with one lock identifier per day (at least one)
    and a status history of exactly the renter's "pending" entry. *)
Theorem submitted_booking_shape z lo hi e s st :
  quiet z lo hi e s ->
  exists o,
    submitBookingRequestIn z e s st = Some o
    /\ (alert o = msgSubmitted ->
        exists ds de b,
          bookingStartDate s = Some ds /\ bookingEndDate s = Some de
          /\ localDayIn z (now e) <= ds <= de
          /\ bookings (after o) !! newId e = Some b
          /\ bk_startDate b = localMidnightIn z ds
          /\ bk_endDate b = localMidnightIn z de
          /\ bk_renterId b <> bk_ownerId b
          /\ bk_status b = Some "pending"
          /\ bk_statusHistory b
             = [ {| he_status := "pending";
                    he_at := BookingManager.timestampNow e;
                    he_by := bk_renterId b |} ]
          /\ length (bk_lockIds b) = Z.to_nat (de - ds + 1)
          /\ (0 < length (bk_lockIds b))%nat).
Proof.
  intros Q. exists (submitBookingRequest e s st).
  split; [now apply (submitBookingRequestIn_quiet z lo hi) |].
  intros Hok.
  destruct (submitted_booking_shape_one_offset e s st Hok)
    as (ds & de & b & Hs & He & Hd & Hrest).
  exists ds, de, b. split; [exact Hs |]. split; [exact He |].
  destruct (quiet_days z lo hi e s ds Q (or_introl Hs)) as [_ ->].
  destruct (quiet_days z lo hi e s de Q (or_intror He)) as [_ ->].
  destruct Q as (C & _ & _ & Hnow & _). unfold inside in Hnow.
  rewrite (localDayIn_calm z (tz e) lo hi)
    by (assumption || (unfold msPerDay in *; lia)).
  split; [exact Hd | exact Hrest].
Qed.

(** Bob books 2025-06-10 to 2025-06-12 in Europe/London. *)
Lemma submitted_booking_shape_witness :
  exists o,
    submitBookingRequestIn london (londonEnv "b1")
      (Fixtures.request Fixtures.bob "item1" (Some Fixtures.always)
         (Fixtures.day 2025 6 10) (Fixtures.day 2025 6 12))
      Fixtures.emptyStore = Some o
    /\ alert o = msgSubmitted.
Proof.
  destruct (submitted_booking_shape london (utc 2025 4 1 0) (utc 2025 10 1 0)
              (londonEnv "b1")
              (Fixtures.request Fixtures.bob "item1" (Some Fixtures.always)
                 (Fixtures.day 2025 6 10) (Fixtures.day 2025 6 12))
              Fixtures.emptyStore) as (o & H & _).
  - quiet_here.
  - exists o. split; [exact H |].
    vm_compute in H. injection H as <-. reflexivity.
Defined.

(** X8.  After a quiet call that went through, a quiet call for the
    same item from the same zone that asks for at least one of the
    same days (a repeat of the same request included) is never
    accepted and leaves the store alone; if it was ready to commit
    before the first call, it is now refused with the conflict
    message. *)
Theorem later_overlapping_request_refused z lo hi e1 s1 st e2 s2
    ds1 de1 ds2 de2 d o1 :
  quiet z lo hi e1 s1 -> quiet z lo hi e2 s2 ->
  submitBookingRequestIn z e1 s1 st = Some o1 -> alert o1 = msgSubmitted ->
  bookingStartDate s1 = Some ds1 -> bookingEndDate s1 = Some de1 ->
  bookingStartDate s2 = Some ds2 -> bookingEndDate s2 = Some de2 ->
  currentItemId s2 = currentItemId s1 ->
  ds1 <= d <= de1 -> ds2 <= d <= de2 ->
  exists o2,
    submitBookingRequestIn z e2 s2 (after o1) = Some o2
    /\ alert o2 <> msgSubmitted
    /\ after o2 = after o1
    /\ (forall b2, checkRequestIn z e2 s2 st = Some (Ready b2) ->
          o2 = {| alert := msgConflict; reads := batch_lockIds b2;
                  after := after o1 |}).
Proof.
  intros Q1 Q2 H1 Hok Hs1 He1 Hs2 He2 Hid D1 D2.
  rewrite (submitBookingRequestIn_quiet z lo hi) in H1 by assumption.
  injection H1 as <-.
  pose proof (quiet_offsets z lo hi e1 s1 e2 s2 Q1 Q2) as Htz.
  destruct (later_overlapping_one_offset e1 s1 st e2 s2 ds1 de1 ds2 de2 d
              Hok Hs1 He1 Hs2 He2 Htz Hid D1 D2) as (A & B & K).
  exists (submitBookingRequest e2 s2 (after (submitBookingRequest e1 s1 st))).
  split; [now apply (submitBookingRequestIn_quiet z lo hi) |].
  split; [exact A |]. split; [exact B |].
  intros b2 Hb2. rewrite (checkRequestIn_quiet z lo hi) in Hb2 by assumption.
  injection Hb2 as Hb2. now apply K.
Qed.

(** Bob books 2025-06-10 to 2025-06-12 in Europe/London; Carol then
    asks for 2025-06-12 to 2025-06-14. *)
Lemma later_overlapping_request_refused_witness :
  exists o1 o2,
    submitBookingRequestIn london (londonEnv "b1")
      (Fixtures.request Fixtures.bob "item1" (Some Fixtures.always)
         (Fixtures.day 2025 6 10) (Fixtures.day 2025 6 12))
      Fixtures.emptyStore = Some o1
    /\ submitBookingRequestIn london (londonEnv "b2")
         (Fixtures.request Fixtures.carol "item1" (Some Fixtures.always)
            (Fixtures.day 2025 6 12) (Fixtures.day 2025 6 14))
         (after o1) = Some o2
    /\ alert o2 <> msgSubmitted.
Proof.
  set (s1 := Fixtures.request Fixtures.bob "item1" (Some Fixtures.always)
               (Fixtures.day 2025 6 10) (Fixtures.day 2025 6 12)).
  set (s2 := Fixtures.request Fixtures.carol "item1" (Some Fixtures.always)
               (Fixtures.day 2025 6 12) (Fixtures.day 2025 6 14)).
  assert (H1 : submitBookingRequestIn london (londonEnv "b1") s1
                 Fixtures.emptyStore
               = Some (submitBookingRequest (londonEnv "b1") s1
                         Fixtures.emptyStore))
    by (vm_compute; reflexivity).
  destruct (later_overlapping_request_refused london
              (utc 2025 4 1 0) (utc 2025 10 1 0)
              (londonEnv "b1") s1 Fixtures.emptyStore (londonEnv "b2") s2
              (Fixtures.day 2025 6 10) (Fixtures.day 2025 6 12)
              (Fixtures.day 2025 6 12) (Fixtures.day 2025 6 14)
              (Fixtures.day 2025 6 12) _
              ltac:(quiet_here) ltac:(quiet_here) H1
              ltac:(vm_compute; reflexivity)
              eq_refl eq_refl eq_refl eq_refl eq_refl
              ltac:(vm_compute; split; discriminate)
              ltac:(vm_compute; split; discriminate))
    as (o2 & H2 & A & _).
  exists (submitBookingRequest (londonEnv "b1") s1 Fixtures.emptyStore), o2.
  auto.
Defined.

(** X9.  A quiet call for the same item from the same zone whose days
    all lie before or all after those of a quiet call that went
    through is not held up by it: if it was ready to commit before, it
    still is. *)
Theorem later_disjoint_request_unaffected z lo hi e1 s1 st e2 s2 b2
    ds1 de1 ds2 de2 o1 :
  quiet z lo hi e1 s1 -> quiet z lo hi e2 s2 ->
  submitBookingRequestIn z e1 s1 st = Some o1 -> alert o1 = msgSubmitted ->
  checkRequestIn z e2 s2 st = Some (Ready b2) ->
  bookingStartDate s1 = Some ds1 -> bookingEndDate s1 = Some de1 ->
  bookingStartDate s2 = Some ds2 -> bookingEndDate s2 = Some de2 ->
  currentItemId s2 = currentItemId s1 ->
  de1 < ds2 \/ de2 < ds1 ->
  checkRequestIn z e2 s2 (after o1) = Some (Ready b2).
Proof.
  intros Q1 Q2 H1 Hok Hb2 Hs1 He1 Hs2 He2 Hid Hd.
  rewrite (submitBookingRequestIn_quiet z lo hi) in H1 by assumption.
  injection H1 as <-.
  rewrite (checkRequestIn_quiet z lo hi) in Hb2 by assumption.
  injection Hb2 as Hb2.
  rewrite (checkRequestIn_quiet z lo hi) by assumption. f_equal.
  pose proof (quiet_offsets z lo hi e1 s1 e2 s2 Q1 Q2) as Htz.
  destruct (quiet_days z lo hi e1 s1 ds1 Q1 (or_introl Hs1)) as [V1 _].
  destruct (quiet_days z lo hi e1 s1 de1 Q1 (or_intror He1)) as [V2 _].
  destruct (quiet_days z lo hi e2 s2 ds2 Q2 (or_introl Hs2)) as [V3 _].
  destruct (quiet_days z lo hi e2 s2 de2 Q2 (or_intror He2)) as [V4 _].
  rewrite Htz in V3, V4.
  now apply (later_disjoint_one_offset e1 s1 st e2 s2 b2 ds1 de1 ds2 de2).
Qed.

(** Bob books 2025-06-10 to 2025-06-12 in Europe/London; Carol's
    request for 2025-06-13 to 2025-06-14 is still ready to commit. *)
Lemma later_disjoint_request_unaffected_witness :
  exists b2,
    checkRequestIn london (londonEnv "b2")
      (Fixtures.request Fixtures.carol "item1" (Some Fixtures.always)
         (Fixtures.day 2025 6 13) (Fixtures.day 2025 6 14))
      (after (submitBookingRequest (londonEnv "b1")
                (Fixtures.request Fixtures.bob "item1" (Some Fixtures.always)
                   (Fixtures.day 2025 6 10) (Fixtures.day 2025 6 12))
                Fixtures.emptyStore))
    = Some (Ready b2).
Proof.
  set (s1 := Fixtures.request Fixtures.bob "item1" (Some Fixtures.always)
               (Fixtures.day 2025 6 10) (Fixtures.day 2025 6 12)).
  set (s2 := Fixtures.request Fixtures.carol "item1" (Some Fixtures.always)
               (Fixtures.day 2025 6 13) (Fixtures.day 2025 6 14)).
  eexists.
  apply (later_disjoint_request_unaffected london
           (utc 2025 4 1 0) (utc 2025 10 1 0)
           (londonEnv "b1") s1 Fixtures.emptyStore (londonEnv "b2") s2 _
           (Fixtures.day 2025 6 10) (Fixtures.day 2025 6 12)
           (Fixtures.day 2025 6 13) (Fixtures.day 2025 6 14)
           (submitBookingRequest (londonEnv "b1") s1 Fixtures.emptyStore)).
  - quiet_here.
  - quiet_here.
  - vm_compute. reflexivity.
  - vm_compute. reflexivity.
  - vm_compute. reflexivity.
  - reflexivity.
  - reflexivity.
  - reflexivity.
  - reflexivity.
  - reflexivity.
  - left. vm_compute. reflexivity.
Defined.

(** X11.  Declining does not free the days.  After a quiet call that
    went through and any later [handleBookingAction] on the store
    (declining that very booking included), a quiet call for the same
    item from the same zone that asks for one of its days, and was
    ready to commit before, is refused with the conflict message. *)
Theorem declined_booking_keeps_days z lo hi e1 s1 st a u bookingId newStatus
    e2 s2 b2 ds1 de1 ds2 de2 d o1 :
  quiet z lo hi e1 s1 -> quiet z lo hi e2 s2 ->
  submitBookingRequestIn z e1 s1 st = Some o1 -> alert o1 = msgSubmitted ->
  checkRequestIn z e2 s2 st = Some (Ready b2) ->
  bookingStartDate s1 = Some ds1 -> bookingEndDate s1 = Some de1 ->
  bookingStartDate s2 = Some ds2 -> bookingEndDate s2 = Some de2 ->
  currentItemId s2 = currentItemId s1 ->
  ds1 <= d <= de1 -> ds2 <= d <= de2 ->
  exists o2,
    submitBookingRequestIn z e2 s2
      (snd (ItemManager.handleBookingAction a u bookingId newStatus (after o1)))
    = Some o2
    /\ alert o2 = msgConflict.
Proof.
  intros Q1 Q2 H1 Hok Hb2 Hs1 He1 Hs2 He2 Hid D1 D2.
  rewrite (submitBookingRequestIn_quiet z lo hi) in H1 by assumption.
  injection H1 as <-.
  rewrite (checkRequestIn_quiet z lo hi) in Hb2 by assumption.
  injection Hb2 as Hb2.
  pose proof (quiet_offsets z lo hi e1 s1 e2 s2 Q1 Q2) as Htz.
  eexists. split; [now apply (submitBookingRequestIn_quiet z lo hi) |].
  now apply (declined_keeps_days_one_offset e1 s1 st a u bookingId newStatus
               e2 s2 b2 ds1 de1 ds2 de2 d).
Qed.

(** Bob books 2025-06-10 to 2025-06-12 in Europe/London, Alice
    declines, Carol asks for 2025-06-12. *)
Lemma declined_booking_keeps_days_witness :
  exists o2,
    submitBookingRequestIn london (londonEnv "b2")
      (Fixtures.request Fixtures.carol "item1" (Some Fixtures.always)
         (Fixtures.day 2025 6 12) (Fixtures.day 2025 6 12))
      (snd (ItemManager.handleBookingAction
              {| ItemManager.timestampNow := utc 2025 6 2 9;
                 ItemManager.serverTime := utc 2025 6 2 9;
                 ItemManager.updateOk := true |}
              (Some Fixtures.alice) "b1" "declined"
              (after (submitBookingRequest (londonEnv "b1")
                        (Fixtures.request Fixtures.bob "item1"
                           (Some Fixtures.always)
                           (Fixtures.day 2025 6 10) (Fixtures.day 2025 6 12))
                        Fixtures.emptyStore))))
    = Some o2
    /\ alert o2 = msgConflict.
Proof.
  set (s1 := Fixtures.request Fixtures.bob "item1" (Some Fixtures.always)
               (Fixtures.day 2025 6 10) (Fixtures.day 2025 6 12)).
  set (s2 := Fixtures.request Fixtures.carol "item1" (Some Fixtures.always)
               (Fixtures.day 2025 6 12) (Fixtures.day 2025 6 12)).
  eapply (declined_booking_keeps_days london
            (utc 2025 4 1 0) (utc 2025 10 1 0)
            (londonEnv "b1") s1 Fixtures.emptyStore) with
    (e2 := londonEnv "b2") (s2 := s2)
    (ds1 := Fixtures.day 2025 6 10) (de1 := Fixtures.day 2025 6 12)
    (ds2 := Fixtures.day 2025 6 12) (de2 := Fixtures.day 2025 6 12)
    (d := Fixtures.day 2025 6 12)
    (o1 := submitBookingRequest (londonEnv "b1") s1 Fixtures.emptyStore).
  - quiet_here.
  - quiet_here.
  - vm_compute. reflexivity.
  - vm_compute. reflexivity.
  - vm_compute. reflexivity.
  - reflexivity.
  - reflexivity.
  - reflexivity.
  - reflexivity.
  - reflexivity.
  - vm_compute. split; discriminate.
  - vm_compute. split; discriminate.
Defined.

(** *** The night the clocks go forward at midnight *)

(** Winter time, from 2025-04-06 03:00 UTC to the millisecond before
    2025-09-07 04:00 UTC, and summer time from then to 2026-04-01. *)
Lemma santiago_winter :
  calm santiago (-4 * msPerHour) 1743908400000 1757217599999 = true.
Proof. vm_compute. reflexivity. Qed.

Lemma santiago_summer :
  calm santiago (-3 * msPerHour) 1757217600000 1775001600000 = true.
Proof. vm_compute. reflexivity. Qed.

(** From 2025-04-10 to 2026-03-28 the cursor of [buildLockIds], once
    at 04:00 UTC, stays there: that is local midnight until
    2025-09-06 and 01:00 local time from 2025-09-07 on. *)
Lemma santiago_addDay d :
  20188 <= d <= 20540 ->
  addDayIn santiago (localMidnight (-4 * msPerHour) d)
  = localMidnight (-4 * msPerHour) (d + 1).
Proof.
  intros Hd. rewrite <- addDay_localMidnight.
  destruct (Z_le_gt_dec d 20334) as [L | G].
  - apply (addDayIn_calm _ _ _ _ _ santiago_winter).
    unfold localMidnight, msPerDay, msPerHour. lia.
  - destruct (Z_le_gt_dec d 20338) as [L' | G'].
    + assert (E : d = 20335 \/ d = 20336 \/ d = 20337 \/ d = 20338) by lia.
      destruct E as [-> | [-> | [-> | ->]]]; vm_compute; reflexivity.
    + apply (addDayIn_calm _ _ _ _ _ santiago_summer).
      unfold localMidnight, msPerDay, msPerHour. lia.
Qed.

Lemma santiago_midnight_winter d :
  20188 <= d <= 20337 ->
  localMidnightIn santiago d = localMidnight (-4 * msPerHour) d
  /\ setHours0In santiago (localMidnight (-4 * msPerHour) d)
     = localMidnight (-4 * msPerHour) d.
Proof.
  intros Hd. destruct (Z_le_gt_dec d 20335) as [L | G].
  - split.
    + apply (localMidnightIn_calm _ _ _ _ _ santiago_winter).
      unfold localMidnight, msPerDay, msPerHour. lia.
    + rewrite (setHours0In_calm _ _ _ _ _ santiago_winter).
      * apply setHours0_localMidnight.
      * unfold localMidnight, msPerDay, msPerHour. lia.
  - assert (E : d = 20336 \/ d = 20337) by lia.
    destruct E as [-> | ->]; vm_compute; split; reflexivity.
Qed.

Lemma santiago_midnight_summer d :
  20339 <= d <= 20537 ->
  localMidnightIn santiago d = localMidnight (-3 * msPerHour) d
  /\ setHours0In santiago (localMidnight (-3 * msPerHour) d)
     = localMidnight (-3 * msPerHour) d
  /\ localMidnight (-3 * msPerHour) d
     < addDayIn santiago (localMidnight (-3 * msPerHour) d).
Proof.
  intros Hd. destruct (Z_le_gt_dec d 20341) as [L | G].
  - assert (E : d = 20339 \/ d = 20340 \/ d = 20341) by lia.
    destruct E as [-> | [-> | ->]]; vm_compute; repeat split; reflexivity.
  - split; [| split].
    + apply (localMidnightIn_calm _ _ _ _ _ santiago_summer).
      unfold localMidnight, msPerDay, msPerHour. lia.
    + rewrite (setHours0In_calm _ _ _ _ _ santiago_summer).
      * apply setHours0_localMidnight.
      * unfold localMidnight, msPerDay, msPerHour. lia.
    + rewrite (addDayIn_calm _ _ _ _ _ santiago_summer).
      * unfold addDay, msPerDay. lia.
      * unfold localMidnight, msPerDay, msPerHour. lia.
Qed.

Lemma santiago_loop itemId de :
  20339 <= de <= 20537 ->
  forall fuel d,
    20188 <= d -> (Z.to_nat (de - d) <= fuel)%nat ->
    lockLoopIn fuel santiago itemId (localMidnight (-4 * msPerHour) d)
      (localMidnight (-3 * msPerHour) de)
    = Some (map (keyOfDay itemId) (seqZ d (de - d))).
Proof.
  intros Hde.
  assert (Cmp : forall d,
             localMidnight (-4 * msPerHour) d <= localMidnight (-3 * msPerHour) de
             <-> d < de)
    by (intros d; unfold localMidnight, msPerDay, msPerHour; lia).
  induction fuel as [| fuel IH]; intros d Hd Hfuel.
  - cbn [lockLoopIn].
    destruct (Z.leb_spec (localMidnight (-4 * msPerHour) d)
                (localMidnight (-3 * msPerHour) de)) as [H | H].
    + apply Cmp in H. lia.
    + now rewrite seqZ_nil by lia.
  - cbn [lockLoopIn].
    destruct (Z.leb_spec (localMidnight (-4 * msPerHour) d)
                (localMidnight (-3 * msPerHour) de)) as [H | H].
    + apply Cmp in H.
      rewrite santiago_addDay by lia. rewrite IH by lia.
      rewrite (seqZ_cons d) by lia. cbn [map fmap option_fmap option_map].
      rewrite lockId_localMidnight, zoneShift_west
        by (unfold msPerDay, msPerHour; lia).
      rewrite Z.add_0_r.
      replace (Z.pred (de - d)) with (de - (d + 1)) by lia. reflexivity.
    + assert (de <= d) by (destruct (Z_le_gt_dec de d); [assumption |];
                           exfalso; assert (d < de) by lia;
                           apply Cmp in H0; lia).
      now rewrite seqZ_nil by lia.
Qed.

(** X26.  America/Santiago, where in 2025 the clocks go forward from
    midnight to 01:00 on 2025-09-07.  For every request that starts on
    a day from 2025-04-10 to 2025-09-06 and ends on a day from
    2025-09-08 to 2026-03-25, [buildLockIds] returns the identifiers
    of the days from the first to the one before the last: the last
    day of the range gets no identifier, although a request for that
    day alone gets the identifier of that day, which is not among
    those of the range. *)
Theorem buildLockIds_skips_last_day itemId ds de :
  Fixtures.day 2025 4 10 <= ds <= Fixtures.day 2025 9 6 ->
  Fixtures.day 2025 9 8 <= de <= Fixtures.day 2026 3 25 ->
  buildLockIdsIn santiago itemId (localMidnightIn santiago ds)
    (localMidnightIn santiago de)
  = Some (map (keyOfDay itemId) (seqZ ds (de - ds)))
  /\ buildLockIdsIn santiago itemId (localMidnightIn santiago de)
       (localMidnightIn santiago de)
     = Some [keyOfDay itemId de]
  /\ keyOfDay itemId de ∉ map (keyOfDay itemId) (seqZ ds (de - ds)).
Proof.
  assert (E1 : Fixtures.day 2025 4 10 = 20188) by (vm_compute; reflexivity).
  assert (E2 : Fixtures.day 2025 9 6 = 20337) by (vm_compute; reflexivity).
  assert (E3 : Fixtures.day 2025 9 8 = 20339) by (vm_compute; reflexivity).
  assert (E4 : Fixtures.day 2026 3 25 = 20537) by (vm_compute; reflexivity).
  rewrite E1, E2, E3, E4. clear E1 E2 E3 E4.
  intros Hds Hde.
  destruct (santiago_midnight_winter ds Hds) as [Ms Ss].
  destruct (santiago_midnight_summer de Hde) as (Me & Se & Ne).
  unfold buildLockIdsIn. cbv zeta. rewrite Ms, Me, Ss, Se.
  split; [| split].
  - apply santiago_loop; [assumption | lia |].
    unfold lockFuelIn, localMidnight.
    replace (de * msPerDay - -3 * msPerHour - (ds * msPerDay - -4 * msPerHour))
      with (-1 * msPerHour + (24 * (de - ds)) * msPerHour)
      by (unfold msPerDay, msPerHour; lia).
    rewrite Z.div_add by discriminate.
    change (-1 * msPerHour / msPerHour) with (-1). lia.
  - unfold lockFuelIn. rewrite Z.sub_diag.
    change (Z.to_nat (0 / msPerHour + 1)) with 1%nat.
    cbn [lockLoopIn]. rewrite Z.leb_refl.
    assert (L : (addDayIn santiago (localMidnight (-3 * msPerHour) de)
                 <=? localMidnight (-3 * msPerHour) de) = false)
      by (apply Z.leb_gt; exact Ne).
    rewrite L. cbn [fmap option_fmap option_map].
    rewrite lockId_localMidnight, zoneShift_west
      by (unfold msPerDay, msPerHour; lia).
    now rewrite Z.add_0_r.
  - intros H. apply list_elem_of_fmap in H as (x & E & Hx).
    apply elem_of_seqZ in Hx.
    unfold keyOfDay in E. apply (inj (String.append itemId)) in E.
    apply (inj (String.append "_")) in E.
    apply isoOfDay_inj in E; [lia | |]; unfold validDay, maxDay; lia.
Qed.

(** Bob's booking of 2025-09-06 to 2025-09-08. *)
Lemma buildLockIds_skips_last_day_witness :
  buildLockIdsIn santiago "item1"
    (localMidnightIn santiago (Fixtures.day 2025 9 6))
    (localMidnightIn santiago (Fixtures.day 2025 9 8))
  = Some ["item1_2025-09-06"; "item1_2025-09-07"].
Proof.
  apply (proj1 (buildLockIds_skips_last_day "item1"
                  (Fixtures.day 2025 9 6) (Fixtures.day 2025 9 8)
                  ltac:(vm_compute; split; discriminate)
                  ltac:(vm_compute; split; discriminate))).
Defined.

(** *** Where the offset changes *)

(** On the night the clocks go forward in Europe/London the local
    midnights of 2025-03-30 and 2025-03-31 are 23 hours apart and fall
    on the same UTC date: [buildLockIds] pushes the same identifier
    twice.  In America/Santiago the local midnight of 2025-09-07 is
    skipped; the cursor moves on at 01:00 and has passed the end, a
    midnight, on the last day: the range 2025-09-06 to 2025-09-08 gets
    two identifiers, none for its last day, which a one-day request
    does get. *)
Example buildLockIds_at_a_change :
  buildLockIdsIn london "item1" (localMidnightIn london (Fixtures.day 2025 3 30))
    (localMidnightIn london (Fixtures.day 2025 3 31))
  = Some ["item1_2025-03-30"; "item1_2025-03-30"]
  /\ buildLockIdsIn santiago "item1"
       (localMidnightIn santiago (Fixtures.day 2025 9 6))
       (localMidnightIn santiago (Fixtures.day 2025 9 8))
     = Some ["item1_2025-09-06"; "item1_2025-09-07"]
  /\ buildLockIdsIn santiago "item1"
       (localMidnightIn santiago (Fixtures.day 2025 9 8))
       (localMidnightIn santiago (Fixtures.day 2025 9 8))
     = Some ["item1_2025-09-08"].
Proof. vm_compute. repeat split; reflexivity. Qed.

(** What the missing identifier lets through.  In America/Santiago
    Bob books "item1" from 2025-09-06 to 2025-09-08 and the call goes
    through; Carol then asks for 2025-09-08 alone, and her call goes
    through as well: the store holds two pending bookings of the item
    that both cover 2025-09-08. *)
Example two_bookings_of_one_day :
  exists o1 o2 b1 b2,
    submitBookingRequestIn santiago (santiagoEnv "b1")
      (Fixtures.request Fixtures.bob "item1" (Some Fixtures.always)
         (Fixtures.day 2025 9 6) (Fixtures.day 2025 9 8))
      Fixtures.emptyStore = Some o1
    /\ alert o1 = msgSubmitted
    /\ submitBookingRequestIn santiago (santiagoEnv "b2")
         (Fixtures.request Fixtures.carol "item1" (Some Fixtures.always)
            (Fixtures.day 2025 9 8) (Fixtures.day 2025 9 8))
         (after o1) = Some o2
    /\ alert o2 = msgSubmitted
    /\ bookings (after o2) !! "b1" = Some b1
    /\ bookings (after o2) !! "b2" = Some b2
    /\ bk_status b1 = Some "pending" /\ bk_status b2 = Some "pending"
    /\ bk_itemId b1 = bk_itemId b2
    /\ bk_endDate b1 = localMidnightIn santiago (Fixtures.day 2025 9 8)
    /\ bk_startDate b2 = localMidnightIn santiago (Fixtures.day 2025 9 8).
Proof.
  assert (H1 : exists o1,
             submitBookingRequestIn santiago (santiagoEnv "b1")
               (Fixtures.request Fixtures.bob "item1" (Some Fixtures.always)
                  (Fixtures.day 2025 9 6) (Fixtures.day 2025 9 8))
               Fixtures.emptyStore = Some o1)
    by (vm_compute; eauto).
  destruct H1 as [o1 H1]. exists o1.
  assert (H2 : exists o2,
             submitBookingRequestIn santiago (santiagoEnv "b2")
               (Fixtures.request Fixtures.carol "item1" (Some Fixtures.always)
                  (Fixtures.day 2025 9 8) (Fixtures.day 2025 9 8))
               (after o1) = Some o2)
    by (vm_compute in H1; injection H1 as <-; vm_compute; eauto).
  destruct H2 as [o2 H2]. exists o2.
  assert (B1 : exists b1, bookings (after o2) !! "b1" = Some b1)
    by (vm_compute in H1; injection H1 as <-;
        vm_compute in H2; injection H2 as <-; vm_compute; eauto).
  assert (B2 : exists b2, bookings (after o2) !! "b2" = Some b2)
    by (vm_compute in H1; injection H1 as <-;
        vm_compute in H2; injection H2 as <-; vm_compute; eauto).
  destruct B1 as [b1 B1], B2 as [b2 B2]. exists b1, b2.
  split; [exact H1 |].
  split; [vm_compute in H1; injection H1 as <-; reflexivity |].
  split; [exact H2 |].
  vm_compute in H1. injection H1 as <-.
  vm_compute in H2. injection H2 as <-.
  vm_compute in B1. injection B1 as <-.
  vm_compute in B2. injection B2 as <-.
  vm_compute. repeat split; reflexivity.
Qed.

(** C4.  Europe/London, an item lent on Sundays only, and the request
    the booking form makes on 2025-03-01 for Sunday 2025-03-30 to
    Monday 2025-03-31.  Its two dates are the local midnights of two
    different days and it passes the date precheck.  The availability
    block of [submitBookingRequest] raises no alert: it compares the
    UTC dates of the two midnights, and the clocks going forward that
    night put both on 2025-03-30; the call goes through and stores the
    booking of the two days.  [validateAvailability], which compares
    the local dates, refuses the same request with the same-day
    message. *)
Theorem recurring_two_days_pass :
  localDayIn london (localMidnightIn london (Fixtures.day 2025 3 30))
  = Fixtures.day 2025 3 30
  /\ localDayIn london (localMidnightIn london (Fixtures.day 2025 3 31))
     = Fixtures.day 2025 3 31
  /\ getDayIn london (localMidnightIn london (Fixtures.day 2025 3 30)) = 0
  /\ getDayIn london (localMidnightIn london (Fixtures.day 2025 3 31)) = 1
  /\ toISODate (localMidnightIn london (Fixtures.day 2025 3 30)) = "2025-03-30"
  /\ toISODate (localMidnightIn london (Fixtures.day 2025 3 31)) = "2025-03-30"
  /\ validateBookingDatesIn london (utc 2025 3 1 12)
       (localMidnightIn london (Fixtures.day 2025 3 30))
       (localMidnightIn london (Fixtures.day 2025 3 31)) = ok
  /\ availabilityAlertIn london (Fixtures.itemWith (Some sundays))
       (localMidnightIn london (Fixtures.day 2025 3 30))
       (localMidnightIn london (Fixtures.day 2025 3 31)) = None
  /\ validateAvailabilityIn london (Fixtures.itemWith (Some sundays))
       (localMidnightIn london (Fixtures.day 2025 3 30))
       (localMidnightIn london (Fixtures.day 2025 3 31))
     = invalid
         (Text "Recurring availability items can only be booked for same-day use")
  /\ exists o b,
       submitBookingRequestIn london (londonMarchEnv "b1")
         (Fixtures.request Fixtures.bob "item1" (Some sundays)
            (Fixtures.day 2025 3 30) (Fixtures.day 2025 3 31))
         Fixtures.emptyStore = Some o
       /\ alert o = msgSubmitted
       /\ bookings (after o) !! "b1" = Some b
       /\ bk_startDate b = localMidnightIn london (Fixtures.day 2025 3 30)
       /\ bk_endDate b = localMidnightIn london (Fixtures.day 2025 3 31).
Proof.
  repeat (split; [vm_compute; reflexivity |]).
  assert (H : exists o,
             submitBookingRequestIn london (londonMarchEnv "b1")
               (Fixtures.request Fixtures.bob "item1" (Some sundays)
                  (Fixtures.day 2025 3 30) (Fixtures.day 2025 3 31))
               Fixtures.emptyStore = Some o)
    by (vm_compute; eauto).
  destruct H as [o H]. exists o.
  assert (B : exists b, bookings (after o) !! "b1" = Some b)
    by (vm_compute in H; injection H as <-; vm_compute; eauto).
  destruct B as [b B]. exists b.
  split; [exact H |].
  vm_compute in H. injection H as <-.
  split; [reflexivity |]. split; [exact B |].
  vm_compute in B. injection B as <-.
  vm_compute. split; reflexivity.
Qed.

End ZoneFacts.

